(** * Wilma client: a shallow embedding of [wilma_mcp] and its properties

    The development follows the Python sources [client.py], [parsers.py]
    and [models.py].

    - A Python [str] is a [string]; a character is a code point below
      256.  Positions are natural numbers and the result [-1] of
      [str.find] is [None].
    - The values decoded from JSON are the type [pyval]; a [dict] is an
      association list in insertion order.
    - A method of the client is a function from the object to an outcome
      and the object afterwards; an outcome is a value or a raised
      exception.  The coroutines run one after the other.
    - The libraries ([httpx], [json], [datetime.strptime],
      [BeautifulSoup], [str]) and the world behind them (server, cookie
      jar, clock) are the fields of the class [Platform]; the theorems
      hold for every platform.  The module [Sample] gives one platform on
      which the program runs on concrete inputs.
    - The regular expressions of the sources are terms of [regex], run by
      a backtracking matcher. *)

From Stdlib Require Import Bool Arith ZArith List Lia.
From Stdlib Require Import Strings.Ascii Strings.String.
From Stdlib Require Import Sorting.Sorted Numbers.DecimalString.
From Stdlib Require Floats.PrimFloat.
Import ListNotations.

Local Open Scope string_scope.

(** ** Characters *)

Definition code (c : ascii) : N := N_of_ascii c.

(** [\d] *)
Definition is_digit (c : ascii) : bool :=
  (48 <=? code c)%N && (code c <=? 57)%N.

(** [\s], and the characters [str.strip()] removes *)
Definition is_space (c : ascii) : bool :=
  let n := code c in
  ((9 <=? n)%N && (n <=? 13)%N) || ((28 <=? n)%N && (n <=? 32)%N)
  || (n =? 133)%N || (n =? 160)%N.

(** [c.lower()] *)
Definition lower_char (c : ascii) : ascii :=
  let n := code c in
  if ((65 <=? n)%N && (n <=? 90)%N)
     || ((192 <=? n)%N && (n <=? 222)%N && negb (n =? 215)%N)
  then ascii_of_N (n + 32) else c.

(** The double quote, which the patterns below contain. *)
Definition dquote : ascii := ascii_of_N 34.

(** ** Python string operations *)

Module Str.

(** [s.find(sub)] *)
Definition find (sub s : string) : option nat := index 0 sub s.

(** [s.find(sub, start)] *)
Definition find_from (sub s : string) (start : nat) : option nat :=
  index start sub s.

(** [sub in s] *)
Definition contains (sub s : string) : bool :=
  match index 0 sub s with Some _ => true | None => false end.

(** [s.startswith(p)] *)
Definition startswith (p s : string) : bool := prefix p s.

(** [s[n:]] *)
Fixpoint skip (n : nat) (s : string) : string :=
  match n, s with
  | O, _ => s
  | S n', EmptyString => EmptyString
  | S n', String _ s' => skip n' s'
  end.

(** [s[i:j]] for [0 <= i], [0 <= j] *)
Definition slice (s : string) (i j : nat) : string := substring i (j - i) s.

(** [s.lower()] *)
Fixpoint lower (s : string) : string :=
  match s with
  | EmptyString => EmptyString
  | String c s' => String (lower_char c) (lower s')
  end.

Fixpoint lstrip (s : string) : string :=
  match s with
  | EmptyString => EmptyString
  | String c s' => if is_space c then lstrip s' else s
  end.

Fixpoint rstrip (s : string) : string :=
  match s with
  | EmptyString => EmptyString
  | String c s' =>
      match rstrip s' with
      | EmptyString => if is_space c then EmptyString else String c EmptyString
      | r => String c r
      end
  end.

(** [s.strip()] *)
Definition strip (s : string) : string := rstrip (lstrip s).

(** [sep.join(l)] *)
Definition join (sep : string) (l : list string) : string := concat sep l.

End Str.

(** ** The embedded-data extractor ([client.py], [_parse_schedule_from_html]) *)

(** The marker lookup: the spelling with a space is searched first, the
    one without only when the first is absent from the whole document. *)
Definition find_events_start (html : string) : option nat :=
  match Str.find "Events : [" html with
  | Some i => Some i
  | None => Str.find "Events: [" html
  end.

(** The loop [for i in range(array_start, len(html))] over the suffix
    [html[i:]]; the result is [array_end], [None] standing for [-1]. *)
Fixpoint scan_brackets (rest : string) (i : nat) (bracket_count : Z)
  : option nat :=
  match rest with
  | EmptyString => None
  | String c rest' =>
      if Ascii.eqb c "["
      then scan_brackets rest' (S i) (bracket_count + 1)
      else if Ascii.eqb c "]"
      then let bracket_count := (bracket_count - 1)%Z in
           if (bracket_count =? 0)%Z then Some (i + 1)
           else scan_brackets rest' (S i) bracket_count
      else scan_brackets rest' (S i) bracket_count
  end.

(** [events_str], or [None] on each of the three early returns. *)
Definition extract_events_str (html : string) : option string :=
  match find_events_start html with
  | None => None
  | Some events_start =>
      match Str.find_from "[" html events_start with
      | None => None
      | Some array_start =>
          match scan_brackets (Str.skip array_start html) array_start 0 with
          | None => None
          | Some array_end => Some (Str.slice html array_start array_end)
          end
      end
  end.

(** *** The extractor as the specification words it *)

(** Nesting depth of a text: opening minus closing square brackets. *)
Fixpoint depth (s : string) : Z :=
  match s with
  | EmptyString => 0
  | String c s' =>
      ((if Ascii.eqb c "[" then 1 else if Ascii.eqb c "]" then -1 else 0)
       + depth s')%Z
  end.

(** [sub] occurs in [s] at position [p]. *)
Definition occurs_at (sub s : string) (p : nat) : Prop :=
  substring p (length sub) s = sub.

(** [p] is the first occurrence of [sub] in [s]. *)
Definition first_occurrence (sub s : string) (p : nat) : Prop :=
  occurs_at sub s p /\ forall q, q < p -> ~ occurs_at sub s q.

(** The marker position as the two [find] calls of the code settle it:
    the first ["Events : ["], or, when that spelling occurs nowhere, the
    first ["Events: ["]. *)
Definition marker_at (html : string) (p : nat) : Prop :=
  first_occurrence "Events : [" html p \/
  ((forall q, ~ occurs_at "Events : [" html q) /\
   first_occurrence "Events: [" html p).

(** The marker position as the specification words it: the first
    occurrence of either spelling. *)
Definition earliest_marker_at (html : string) (p : nat) : Prop :=
  (occurs_at "Events : [" html p \/ occurs_at "Events: [" html p) /\
  forall q, q < p ->
    ~ (occurs_at "Events : [" html q \/ occurs_at "Events: [" html q).

(** [a] is the first ["["] at or after [p]. *)
Definition first_open_from (html : string) (p a : nat) : Prop :=
  p <= a /\ get a html = Some "["%char /\
  forall j, p <= j -> j < a -> get j html <> Some "["%char.

(** The text of length [n] at [a] is where the depth first returns to zero. *)
Definition closes_at (html : string) (a n : nat) : Prop :=
  0 < n /\ a + n <= length html /\
  depth (substring a n html) = 0%Z /\
  forall k, 0 < k -> k < n -> depth (substring a k html) <> 0%Z.

(** ** Python values and dictionaries *)

(** The values [json.loads] produces.  A [dict] keeps its keys in insertion
    order and holds each key once. *)
#[local] Unset Elimination Schemes.
Inductive pyval : Type :=
| PyNone
| PyBool (b : bool)
| PyInt (z : Z)
| PyFloat (f : PrimFloat.float)
| PyStr (s : string)
| PyList (l : list pyval)
| PyDict (d : list (string * pyval)).
#[local] Set Elimination Schemes.

Definition pydict : Type := list (string * pyval).

(** [d.get(key)], and [d.get(key, default)] *)
Fixpoint dict_lookup (d : pydict) (key : string) : option pyval :=
  match d with
  | [] => None
  | (k, v) :: d' => if String.eqb k key then Some v else dict_lookup d' key
  end.

Definition dict_get (d : pydict) (key : string) (default : pyval) : pyval :=
  match dict_lookup d key with Some v => v | None => default end.

(** [d[key] = v]: an existing key keeps its place. *)
Fixpoint dict_set (d : pydict) (key : string) (v : pyval) : pydict :=
  match d with
  | [] => [(key, v)]
  | (k, w) :: d' =>
      if String.eqb k key then (k, v) :: d' else (k, w) :: dict_set d' key v
  end.

(** [key in d] *)
Definition dict_mem (d : pydict) (key : string) : bool :=
  match dict_lookup d key with Some _ => true | None => false end.

(** Truth value of an object, as [if x:] and [not x] test it. *)
Definition truthy (v : pyval) : bool :=
  match v with
  | PyNone => false
  | PyBool b => b
  | PyInt z => negb (z =? 0)%Z
  | PyFloat f => negb (PrimFloat.eqb f PrimFloat.zero)
  | PyStr s => negb (String.eqb s "")
  | PyList l => match l with [] => false | _ => true end
  | PyDict d => match d with [] => false | _ => true end
  end.

(** [v != 0] *)
Definition ne_zero (v : pyval) : bool :=
  match v with
  | PyBool b => b
  | PyInt z => negb (z =? 0)%Z
  | PyFloat f => negb (PrimFloat.eqb f PrimFloat.zero)
  | _ => true
  end.

(** [v != s] for a string [s] *)
Definition ne_str (v : pyval) (s : string) : bool :=
  match v with
  | PyStr t => negb (String.eqb t s)
  | _ => true
  end.

(** ** Numbers and their decimal writing *)

(** [int(s)] on a run of decimal digits *)
Definition int_of_digits (s : string) : Z :=
  let fix go (acc : Z) (s : string) : Z :=
    match s with
    | EmptyString => acc
    | String c s' => go (10 * acc + (Z.of_N (code c) - 48))%Z s'
    end
  in go 0%Z s.

(** [str(n)] for an integer *)
Definition str_of_int (z : Z) : string :=
  DecimalString.NilZero.string_of_int (Z.to_int z).

(** [f"{n:02d}"]: at least two characters, zeros after the sign. *)
Definition format_02d (z : Z) : string :=
  if (z <? 0)%Z then str_of_int z
  else if (z <? 10)%Z then String "0" (str_of_int z)
  else str_of_int z.

(** ** Regular expressions, matched as [re] does: leftmost, greedy,
    alternatives in order, backtracking *)

Inductive regex : Type :=
| Eps
| Lit (c : ascii)
| Class (p : ascii -> bool)
| Cat (r1 r2 : regex)
| Or (r1 r2 : regex)
| Repeat (p : ascii -> bool) (lo : nat) (hi : option nat)
| Maybe (r : regex)
| Group (i : nat) (r : regex).

(** The groups that took part in a match, the latest binding first. *)
Definition groups : Type := list (nat * string).

Fixpoint group (g : groups) (i : nat) : option string :=
  match g with
  | [] => None
  | (j, s) :: g' => if Nat.eqb j i then Some s else group g' i
  end.

(** A literal text. *)
Fixpoint Text (s : string) : regex :=
  match s with
  | EmptyString => Eps
  | String c s' => Cat (Lit c) (Text s')
  end.

Section Matching.

Context {R : Type}.

(** Greedy repetition of a character class: as many as allowed first,
    then one fewer, down to [lo]. *)
Fixpoint run_repeat (p : ascii -> bool) (lo : nat) (hi : option nat)
    (s : string) (k : string -> option R) : option R :=
  let stop := match lo with O => k s | S _ => None end in
  match s with
  | EmptyString => stop
  | String c s' =>
      let room := match hi with Some O => false | _ => true end in
      if p c && room
      then match run_repeat p (Nat.pred lo) (option_map Nat.pred hi) s' k with
           | Some x => Some x
           | None => stop
           end
      else stop
  end.

(** [run r s g k]: match [r] at the head of [s], then continue with [k] on
    what is left; a failure of [k] makes [r] try its next way to match. *)
Fixpoint run (r : regex) (s : string) (g : groups)
    (k : string -> groups -> option R) : option R :=
  match r with
  | Eps => k s g
  | Lit c =>
      match s with
      | String d s' => if Ascii.eqb d c then k s' g else None
      | EmptyString => None
      end
  | Class p =>
      match s with
      | String d s' => if p d then k s' g else None
      | EmptyString => None
      end
  | Cat r1 r2 => run r1 s g (fun s1 g1 => run r2 s1 g1 k)
  | Or r1 r2 =>
      match run r1 s g k with
      | Some x => Some x
      | None => run r2 s g k
      end
  | Repeat p lo hi => run_repeat p lo hi s (fun s' => k s' g)
  | Maybe r1 =>
      match run r1 s g k with
      | Some x => Some x
      | None => k s g
      end
  | Group i r1 =>
      run r1 s g (fun s' g' =>
        k s' ((i, substring 0 (length s - length s') s) :: g'))
  end.

End Matching.

(** [re.match(r, s)]: the groups and what follows the match. *)
Definition re_match (r : regex) (s : string) : option (groups * string) :=
  run r s [] (fun s' g => Some (g, s')).

(** [re.search(r, s)]: the groups of the leftmost match. *)
Fixpoint re_search (r : regex) (s : string) : option groups :=
  match re_match r s with
  | Some (g, _) => Some g
  | None =>
      match s with
      | EmptyString => None
      | String _ s' => re_search r s'
      end
  end.

(** [re.sub("^" + r, "", s)]: a match at the start is removed. *)
Definition re_sub_at_start (r : regex) (s : string) : string :=
  match re_match r s with
  | Some (_, rest) => rest
  | None => s
  end.

(** ** Dates and times *)

Record date : Type := mkdate { year : Z; month : Z; day : Z }.

Record datetime : Type := mkdatetime {
  dt_year : Z; dt_month : Z; dt_day : Z;
  dt_hour : Z; dt_minute : Z; dt_second : Z; dt_microsecond : Z }.

Definition is_leap (y : Z) : bool :=
  ((y mod 4 =? 0) && (negb (y mod 100 =? 0) || (y mod 400 =? 0)))%Z.

Definition days_in_month (y m : Z) : Z :=
  if (m =? 2)%Z then (if is_leap y then 29 else 28)%Z
  else if ((m =? 4) || (m =? 6) || (m =? 9) || (m =? 11))%Z then 30%Z
  else 31%Z.

(** The check the [datetime] constructor makes; a failure is a
    [ValueError]. *)
Definition valid_datetime (y m d hh mm ss : Z) : bool :=
  ((1 <=? y) && (y <=? 9999) && (1 <=? m) && (m <=? 12)
   && (1 <=? d) && (d <=? days_in_month y m)
   && (0 <=? hh) && (hh <=? 23) && (0 <=? mm) && (mm <=? 59)
   && (0 <=? ss) && (ss <=? 59))%Z.

(** [datetime(year, month, day, hour, minute)], [None] for [ValueError] *)
Definition make_datetime (y m d hh mm : Z) : option datetime :=
  if valid_datetime y m d hh mm 0 then Some (mkdatetime y m d hh mm 0 0)
  else None.

(** [parsed.replace(year=y)], [None] for [ValueError] *)
Definition replace_year (t : datetime) (y : Z) : option datetime :=
  if valid_datetime y (dt_month t) (dt_day t) (dt_hour t) (dt_minute t)
       (dt_second t)
  then Some (mkdatetime y (dt_month t) (dt_day t) (dt_hour t) (dt_minute t)
               (dt_second t) (dt_microsecond t))
  else None.

(** [d.strftime("%d.%m.%Y")], for the years 1000 to 9999 *)
Definition strftime_dmY (d : date) : string :=
  format_02d (day d) ++ "." ++ format_02d (month d) ++ "." ++ str_of_int (year d).

(** ** The domain model ([models.py]) *)

(** The fields are typed as the constructors receive them: a dataclass
    does not check its annotations, so [subject], [teacher] and [notes]
    hold whatever the event record held. *)
Record Lesson : Type := mkLesson {
  start_time : string;
  end_time : string;
  subject : pyval;
  teacher : pyval;
  room : pyval;
  lesson_groups : list string;
  notes : pyval }.

Record DaySchedule : Type := mkDaySchedule {
  ds_date : date;
  lessons : list Lesson }.

Record MessageSummary : Type := mkMessageSummary {
  ms_id : string;
  ms_subject : pyval;
  ms_sender : pyval;
  ms_timestamp : datetime;
  ms_is_read : bool;
  ms_folder : pyval }.

(** ** Exceptions *)

Inductive exn : Type :=
| WilmaAuthError (msg : string)
| WilmaAPIError (msg : string)
| AttributeError
| TypeError
| ValueError
| KeyError.

Inductive result (A : Type) : Type :=
| Ok (a : A)
| Raise (e : exn).

Arguments Ok {A} a.
Arguments Raise {A} e.

(** ** What the program runs on *)

(** A request as [client.request(method, path, data=..., headers=...)]
    receives it. *)
Record Request : Type := mkRequest {
  rq_method : string;
  rq_path : string;
  rq_data : option pydict;
  rq_headers : list (string * string) }.

(** The parts of an [httpx.Response] the client reads: [status_code],
    [str(response.url)] after redirects, and [text].  The HTTP client is
    built with [follow_redirects=True]: the response of a call is the last
    one of the chain of redirects the call went through. *)
Record Response : Type := mkResponse {
  resp_status : Z;
  resp_url : string;
  resp_text : string }.

(** A call of the HTTP client returns a response or raises
    [httpx.HTTPError].  The exceptions of [httpx] outside that class
    ([InvalidURL] for a path with a control character) are not modelled. *)
Inductive Reply : Type :=
| HTTPError
| Returned (r : Response).

(** What [reply_to_message] reads of [soup.find("form")]: the [name] and
    [value] attributes of its hidden inputs in document order (the empty
    string for a missing attribute), its first [textarea] with its [name]
    attribute, and its [action] attribute. *)
Record Form : Type := mkForm {
  form_hidden_inputs : list (string * string);
  form_textarea : option (option string);
  form_action : option string }.

(** The libraries and the outside world.  [World] is the state outside the
    program: the server, the cookie jar of the [httpx] client and the
    clock.  The library functions are taken as they are; no property of
    them is assumed.  Each function has the outcomes its comment names
    and no other: [cookies.get] raising [CookieConflict] on two cookies
    of one name, and [json.loads] raising on an integer of more than 4300
    digits or on nesting beyond the recursion limit, are outside the
    model, and no statement below bounds the exceptions a call can
    raise. *)
Class Platform : Type := {
  World : Type;
  (** One call of [client.request], [client.get] or [client.post], with
      the redirects it follows: the reply and the world after it *)
  send : World -> Request -> Reply * World;
  (** [client.cookies.get(name)] *)
  cookies_get : World -> string -> option string;
  (** [datetime.now()] *)
  clock_now : World -> datetime * World;
  (** [response.raise_for_status()] raises [httpx.HTTPStatusError] *)
  raises_for_status : Response -> bool;
  (** [json.loads], [None] for [JSONDecodeError] *)
  json_loads : string -> option pyval;
  (** [str(x)], the built-in *)
  py_str : pyval -> string;
  (** [datetime.strptime(s, fmt)], [None] for [ValueError] *)
  strptime : string -> string -> option datetime;
  (** [BeautifulSoup(html, "html.parser").find("form")] *)
  soup_find_form : string -> option Form }.

(** ** The lesson of an event record ([client.py], lines 228 to 262) *)

(** [f"{mins // 60:02d}:{mins % 60:02d}"] *)
Definition minutes_to_hhmm (mins : pyval) : result string :=
  let of_int (z : Z) := Ok (format_02d (z / 60) ++ ":" ++ format_02d (z mod 60)) in
  match mins with
  | PyInt z => of_int z
  | PyBool b => of_int (if b then 1 else 0)%Z
  | PyFloat _ => Raise ValueError
  | _ => Raise TypeError
  end.

(** The pattern [^O:\s*] without its anchor. *)
Definition teacher_prefix : regex :=
  Cat (Lit "O") (Cat (Lit ":") (Repeat is_space 0 None)).

Section Schedule.

Context `{Platform}.

(** One turn of the loop over the events: [Ok None] for [continue],
    [Ok (Some lesson)] for a lesson appended. *)
Definition lesson_of_event (target_date_str : string) (event : pyval)
  : result (option Lesson) :=
  match event with
  | PyDict ev =>
      let event_date := dict_get ev "Date" (PyStr "") in
      if ne_str event_date target_date_str then Ok None
      else
        let start_mins := dict_get ev "Start" (PyInt 0) in
        let end_mins := dict_get ev "End" (PyInt 0) in
        match minutes_to_hhmm start_mins with
        | Raise e => Raise e
        | Ok start_time =>
        match minutes_to_hhmm end_mins with
        | Raise e => Raise e
        | Ok end_time =>
            let text_dict := dict_get ev "Text" (PyDict []) in
            let subject :=
              match text_dict with
              | PyDict d => dict_get d "0" (PyStr "")
              | other => PyStr (py_str other)
              end in
            let long_text_dict := dict_get ev "LongText" (PyDict []) in
            let notes :=
              match long_text_dict with
              | PyDict d => dict_get d "0" (PyStr "")
              | _ => PyNone
              end in
            let opet_dict := dict_get ev "Opet" (PyDict []) in
            let teacher :=
              match opet_dict with
              | PyDict d => dict_get d "0" (PyStr "")
              | _ => PyNone
              end in
            let cleaned :=
              if truthy teacher
              then match teacher with
                   | PyStr t => Ok (PyStr (re_sub_at_start teacher_prefix t))
                   | _ => Raise TypeError
                   end
              else Ok teacher in
            match cleaned with
            | Raise e => Raise e
            | Ok teacher =>
                Ok (Some (mkLesson start_time end_time subject teacher
                            PyNone [] notes))
            end
        end
        end
  | _ => Raise AttributeError
  end.

(** [for event in events]: what iterating the decoded value yields, [None]
    when it is not iterable ([TypeError]). *)
Definition py_iter (v : pyval) : option (list pyval) :=
  match v with
  | PyList l => Some l
  | PyDict d => Some (map (fun kv => PyStr (fst kv)) d)
  | PyStr s => Some (map (fun c => PyStr (String c "")) (list_ascii_of_string s))
  | _ => None
  end.

(** The exceptions the [try] around the loop swallows. *)
Definition caught_by_schedule (e : exn) : bool :=
  match e with
  | KeyError | TypeError => true
  | _ => false
  end.

(** The loop: [lessons] grows until the events end or a turn raises; a
    swallowed exception keeps the lessons built so far. *)
Fixpoint collect_lessons (target_date_str : string) (events : list pyval)
    (acc : list Lesson) : result (list Lesson) :=
  match events with
  | [] => Ok acc
  | event :: events' =>
      match lesson_of_event target_date_str event with
      | Ok None => collect_lessons target_date_str events' acc
      | Ok (Some lesson) =>
          collect_lessons target_date_str events' (acc ++ [lesson])
      | Raise e => if caught_by_schedule e then Ok acc else Raise e
      end
  end.

(** [lessons.sort(key=lambda x: x.start_time)]: a stable sort. *)
Fixpoint insert_lesson (x : Lesson) (l : list Lesson) : list Lesson :=
  match l with
  | [] => [x]
  | y :: l' =>
      if String.leb (start_time x) (start_time y) then x :: y :: l'
      else y :: insert_lesson x l'
  end.

Fixpoint sort_lessons (l : list Lesson) : list Lesson :=
  match l with
  | [] => []
  | x :: l' => insert_lesson x (sort_lessons l')
  end.

Definition _parse_schedule_from_html (html : string) (target_date : date)
  : result DaySchedule :=
  match extract_events_str html with
  | None => Ok (mkDaySchedule target_date [])
  | Some events_str =>
      let collected :=
        match json_loads events_str with
        | None => Ok []
        | Some events =>
            let target_date_str := strftime_dmY target_date in
            match py_iter events with
            | None => Ok []
            | Some evs => collect_lessons target_date_str evs []
            end
        end in
      match collected with
      | Raise e => Raise e
      | Ok lessons => Ok (mkDaySchedule target_date (sort_lessons lessons))
      end
  end.

End Schedule.

(** *** The lesson fields as the specification words them *)

(** The character of a decimal digit. *)
Definition digit_char (n : Z) : ascii := ascii_of_N (48 + Z.to_N n).

(** Minutes since midnight as two digits of hours, a colon and two digits
    of minutes. *)
Definition hh_mm (mins : Z) : string :=
  let h := (mins / 60)%Z in
  let m := (mins mod 60)%Z in
  String (digit_char (h / 10))
    (String (digit_char (h mod 10))
       (String ":"
          (String (digit_char (m / 10))
             (String (digit_char (m mod 10)) EmptyString)))).

(** A teacher text without its leading [O:] and the white space after it. *)
Definition without_O_prefix (t : string) : string :=
  if Str.startswith "O:" t then Str.lstrip (Str.skip 2 t) else t.

(** ** The client ([client.py], class [WilmaClient]) *)

Section Client.

Context `{Platform}.

(** The fields of the object, the world it talks to, and a journal of the
    calls it has made of the HTTP client (kept for the statements only;
    the program never reads it).  An entry is one call of
    [client.request], [client.get] or [client.post] with its arguments,
    not one message on the wire: the HTTP client follows redirects, and
    one call can send several messages. *)
Record Client : Type := mkClient {
  username : string;
  password : string;
  _session_id : option string;
  _user_prefix : option string;
  world : World;
  sent : list Request }.

Definition set_session_id (v : option string) (c : Client) : Client :=
  mkClient (username c) (password c) v (_user_prefix c) (world c) (sent c).

Definition set_user_prefix (v : option string) (c : Client) : Client :=
  mkClient (username c) (password c) (_session_id c) v (world c) (sent c).

(** A method: it runs on the object and returns or raises, and leaves the
    object as it made it in both cases. *)
Definition M (A : Type) : Type := Client -> result A * Client.

Definition ret {A : Type} (a : A) : M A := fun c => (Ok a, c).

Definition raise {A : Type} (e : exn) : M A := fun c => (Raise e, c).

Definition bind {A B : Type} (m : M A) (k : A -> M B) : M B :=
  fun c =>
    match m c with
    | (Ok a, c') => k a c'
    | (Raise e, c') => (Raise e, c')
    end.

Definition get_self : M Client := fun c => (Ok c, c).

Definition modify (f : Client -> Client) : M unit := fun c => (Ok tt, f c).

(** The object after the call [rq] of the HTTP client has left the world
    as [w]. *)
Definition requested (rq : Request) (w : World) (c : Client) : Client :=
  mkClient (username c) (password c) (_session_id c) (_user_prefix c) w
    (sent c ++ [rq]).

(** [await client.request(...)], with the exception as a value. *)
Definition client_request (rq : Request) : M Reply :=
  fun c =>
    let (reply, w) := send (world c) rq in
    (Ok reply, requested rq w c).

(** [datetime.now()] *)
Definition datetime_now : M datetime :=
  fun c =>
    let (t, w) := clock_now (world c) in
    (Ok t,
     mkClient (username c) (password c) (_session_id c) (_user_prefix c) w
       (sent c)).

End Client.

Declare Scope method_scope.
Delimit Scope method_scope with method.
Notation "x <- m ;; k" := (bind m (fun x => k))
  (at level 100, m at next level, right associativity) : method_scope.
Notation "m ;;; k" := (bind m (fun _ => k))
  (at level 100, right associativity) : method_scope.

(** The patterns of [login]: a group of a slash, an exclamation mark and
    one or more digits; and the same after [href=] and a double quote. *)
Definition prefix_pattern : regex :=
  Group 1 (Cat (Lit "/") (Cat (Lit "!") (Repeat is_digit 1 None))).

Definition href_prefix_pattern : regex :=
  Cat (Text ("href=" ++ String dquote "")) prefix_pattern.

Definition form_urlencoded : list (string * string) :=
  [("Content-Type", "application/x-www-form-urlencoded")].

(** The two requests of [login]. *)
Definition index_request : Request := mkRequest "GET" "/index_json" None [].

Definition login_request (username password : string) (session_token : pyval)
  : Request :=
  let login_data :=
    [("Login", PyStr username);
     ("Password", PyStr password);
     ("SESSIONID", session_token)] in
  mkRequest "POST" "/login" (Some login_data) form_urlencoded.

(** [f"{self._user_prefix}{path}"] *)
Definition prefixed (user_prefix : option string) (path : string) : string :=
  match user_prefix with
  | Some p => p ++ path
  | None => "None" ++ path
  end.

(** The path [_request] sends: the prefix goes in front unless the path
    starts with [/!] or [/preferences]. *)
Definition request_path (user_prefix : option string) (path : string)
  : string :=
  if negb (Str.startswith "/!" path)
     && negb (Str.startswith "/preferences" path)
  then prefixed user_prefix path
  else path.

Section Session.

Context `{Platform}.

Local Open Scope method_scope.

(** [login] (lines 69 to 122).  The messages are the literal parts of the
    source's messages. *)
Definition login : M unit :=
  index_reply <- client_request index_request ;;
  match index_reply with
  | HTTPError => raise (WilmaAuthError "Failed to get session token")
  | Returned index_response =>
      if raises_for_status index_response
      then raise (WilmaAuthError "Failed to get session token")
      else
        match json_loads (resp_text index_response) with
        | None => raise (WilmaAuthError "Failed to parse index_json response")
        | Some (PyDict index_data) =>
            let session_token := dict_get index_data "SessionID" PyNone in
            if negb (truthy session_token)
            then raise (WilmaAuthError "No SessionID received from index_json")
            else
              self <- get_self ;;
              reply <- client_request
                         (login_request (username self) (password self)
                            session_token) ;;
              match reply with
              | HTTPError => raise (WilmaAuthError "Login request failed")
              | Returned response =>
                  self <- get_self ;;
                  let sid := cookies_get (world self) "Wilma2SID" in
                  modify (set_session_id sid) ;;;
                  if match sid with
                     | None => true
                     | Some v => String.eqb v ""
                     end
                  then raise (WilmaAuthError
                                "Login failed - no session cookie received")
                  else
                    match re_search prefix_pattern (resp_url response) with
                    | Some g => modify (set_user_prefix (group g 1))
                    | None =>
                        match re_search href_prefix_pattern
                                (resp_text response) with
                        | Some g => modify (set_user_prefix (group g 1))
                        | None =>
                            raise (WilmaAuthError
                              "Could not determine user prefix after login")
                        end
                    end
              end
        | Some _ => raise AttributeError
        end
  end.

Definition _ensure_authenticated : M unit :=
  self <- get_self ;;
  match _session_id self, _user_prefix self with
  | Some _, Some _ => ret tt
  | _, _ => login
  end.

(** [_request] (lines 129 to 168) *)
Definition _request (method path : string) (data : option pydict)
    (headers : list (string * string)) : M Response :=
  _ensure_authenticated ;;;
  self <- get_self ;;
  let path := request_path (_user_prefix self) path in
  reply <- client_request (mkRequest method path data headers) ;;
  match reply with
  | HTTPError => raise (WilmaAPIError ("Request to " ++ path ++ " failed"))
  | Returned response =>
      if Str.contains "/login" (Str.lower (resp_url response))
      then
        modify (set_session_id None) ;;;
        login ;;;
        reply <- client_request (mkRequest method path data headers) ;;
        match reply with
        | HTTPError =>
            raise (WilmaAPIError ("Request to " ++ path ++ " failed"))
        | Returned response => ret response
        end
      else ret response
  end.

(** [date.today()] *)
Definition date_today : M date :=
  t <- datetime_now ;;
  ret (mkdate (dt_year t) (dt_month t) (dt_day t)).

(** [get_schedule] (lines 170 to 188) *)
Definition get_schedule (target_date : option date) : M DaySchedule :=
  target_date <- match target_date with
                 | None => date_today
                 | Some d => ret d
                 end ;;
  let date_str := strftime_dmY target_date in
  response <- _request "GET" ("/schedule?date=" ++ date_str) None [] ;;
  match _parse_schedule_from_html (resp_text response) target_date with
  | Ok schedule => ret schedule
  | Raise e => raise e
  end.

End Session.

(** The two orders of the attributes of the form key input: [name],
    spaces, [value] with the key as group 1, and the reverse. *)
Definition not_dquote (c : ascii) : bool := negb (Ascii.eqb c dquote).

Definition quoted (s : string) : string :=
  String dquote (s ++ String dquote "").

Definition formkey_pattern : regex :=
  Cat (Text ("name=" ++ quoted "formkey"))
    (Cat (Repeat is_space 1 None)
       (Cat (Text ("value=" ++ String dquote ""))
          (Cat (Group 1 (Repeat not_dquote 0 None)) (Lit dquote)))).

Definition formkey_pattern_reversed : regex :=
  Cat (Text ("value=" ++ String dquote ""))
    (Cat (Group 1 (Repeat not_dquote 0 None))
       (Cat (Lit dquote)
          (Cat (Repeat is_space 1 None) (Text ("name=" ++ quoted "formkey"))))).

(** [formkey_match], by the first pattern and then the second. *)
Definition find_formkey (html : string) : option string :=
  match re_search formkey_pattern html with
  | Some g => group g 1
  | None =>
      match re_search formkey_pattern_reversed html with
      | Some g => group g 1
      | None => None
      end
  end.

(** [l[:limit]] *)
Definition take_limit {A : Type} (l : list A) (limit : Z) : list A :=
  if (0 <=? limit)%Z then firstn (Z.to_nat limit) l
  else firstn (Z.to_nat (Z.of_nat (List.length l) + limit)) l.

Section Messages.

Context `{Platform}.

Local Open Scope method_scope.

(** One turn of the loop of [_parse_messages_json] (lines 411 to 427) *)
Definition message_of_item (folder : string) (msg : pyval)
  : M MessageSummary :=
  match msg with
  | PyDict m =>
      let timestamp_str := dict_get m "TimeStamp" (PyStr "") in
      match timestamp_str with
      | PyStr s =>
          timestamp <- match strptime s "%Y-%m-%d %H:%M" with
                       | Some t => ret t
                       | None => datetime_now
                       end ;;
          ret (mkMessageSummary
                 (py_str (dict_get m "Id" (PyStr "")))
                 (dict_get m "Subject" (PyStr ""))
                 (dict_get m "Sender" (PyStr ""))
                 timestamp
                 (ne_zero (dict_get m "Status" (PyInt 0)))
                 (dict_get m "Folder" (PyStr folder)))
      | _ => raise TypeError
      end
  | _ => raise AttributeError
  end.

Fixpoint messages_of_items (folder : string) (items : list pyval)
  : M (list MessageSummary) :=
  match items with
  | [] => ret []
  | msg :: items' =>
      message <- message_of_item folder msg ;;
      messages <- messages_of_items folder items' ;;
      ret (message :: messages)
  end.

(** [msg_list[:limit]] as the loop walks it; slicing a [dict] or a value
    that has no items raises. *)
Definition sliced_items (msg_list : pyval) (limit : Z)
  : result (list pyval) :=
  match msg_list with
  | PyList l => Ok (take_limit l limit)
  | PyStr s =>
      Ok (map (fun c => PyStr (String c ""))
            (take_limit (list_ascii_of_string s) limit))
  | _ => Raise TypeError
  end.

(** [_parse_messages_json] (lines 404 to 429) *)
Definition _parse_messages_json (data : pyval) (folder : string) (limit : Z)
  : M (list MessageSummary) :=
  match data with
  | PyDict d =>
      let msg_list := dict_get d "Messages" (PyList []) in
      match sliced_items msg_list limit with
      | Ok items => messages_of_items folder items
      | Raise e => raise e
      end
  | _ => raise AttributeError
  end.

(** [get_messages] (lines 381 to 402) *)
Definition get_messages (folder : string) (limit : Z)
  : M (list MessageSummary) :=
  let path := "/messages/list/index_json" in
  response <- _request "GET" path None [] ;;
  match json_loads (resp_text response) with
  | Some data => _parse_messages_json data folder limit
  | None => raise (WilmaAPIError "Failed to parse messages response")
  end.

(** The verdict on the response of a compose POST, shared by
    [send_message] and [reply_to_message]. *)
Definition judge_sent (what : string) (response : Response) : M bool :=
  if Str.contains "messages" (Str.lower (resp_url response))
  then ret true
  else
    if Str.contains "error" (Str.lower (resp_text response))
       || Str.contains "virhe" (Str.lower (resp_text response))
    then raise (WilmaAPIError
                  ("Failed to send " ++ what ++ " - server returned an error"))
    else ret true.

(** The form [send_message] posts. *)
Definition compose_data (formkey : string) (recipient_ids : list string)
    (subject body : string) (reply_to_id : option string) : pydict :=
  let data :=
    [("formkey", PyStr formkey);
     ("rcpt", PyStr (Str.join "," recipient_ids));
     ("subject", PyStr subject);
     ("body", PyStr body)] in
  match reply_to_id with
  | Some id => if String.eqb id "" then data
               else dict_set data "replyto" (PyStr id)
  | None => data
  end.

(** [send_message] (lines 635 to 695) *)
Definition send_message (recipient_ids : list string) (subject body : string)
    (reply_to_id : option string) : M bool :=
  compose_response <- _request "GET" "/messages/compose" None [] ;;
  let formkey :=
    match find_formkey (resp_text compose_response) with
    | Some k => k
    | None => ""
    end in
  let data := compose_data formkey recipient_ids subject body reply_to_id in
  response <- _request "POST" "/messages/compose" (Some data)
                form_urlencoded ;;
  judge_sent "message" response.

(** The loop over the hidden inputs of the form. *)
Fixpoint collect_hidden (inputs : list (string * string)) (data : pydict)
  : pydict :=
  match inputs with
  | [] => data
  | (name, value) :: inputs' =>
      collect_hidden inputs'
        (if negb (String.eqb name "") && negb (String.eqb name "formkey")
         then dict_set data name (PyStr value)
         else data)
  end.

(** The form [reply_to_message] posts, and where. *)
Definition reply_data (form : option Form) (formkey message_id body : string)
  : pydict :=
  let data := [("formkey", PyStr formkey)] in
  let '(data, body_field) :=
    match form with
    | Some f =>
        (collect_hidden (form_hidden_inputs f) data,
         match form_textarea f with
         | Some (Some name) => name
         | Some None => "body"
         | None => "body"
         end)
    | None => (data, "body")
    end in
  let data := dict_set data body_field (PyStr body) in
  if negb (dict_mem data "answer") && negb (dict_mem data "replyto")
  then dict_set data "answer" (PyStr message_id)
  else data.

Definition reply_post_url (form : option Form) : string :=
  match form with
  | Some f =>
      match form_action f with
      | Some action =>
          if negb (String.eqb action "") && Str.startswith "/" action
          then action else "/messages/compose"
      | None => "/messages/compose"
      end
  | None => "/messages/compose"
  end.

(** [reply_to_message] (lines 697 to 787) *)
Definition reply_to_message (message_id body : string) : M bool :=
  let reply_path := "/messages/compose?answer=" ++ message_id in
  compose_response <- _request "GET" reply_path None [] ;;
  let html := resp_text compose_response in
  match find_formkey html with
  | None =>
      raise (WilmaAPIError "Could not extract formkey from reply compose form")
  | Some formkey =>
      let form := soup_find_form html in
      let data := reply_data form formkey message_id body in
      let post_url := reply_post_url form in
      response <- _request "POST" post_url (Some data) form_urlencoded ;;
      judge_sent "reply" response
  end.

End Messages.

(** ** The timestamp of rendered markup ([parsers.py],
    [_parse_finnish_timestamp]) *)

Definition finnish_formats : list string :=
  ["%d.%m.%Y %H:%M"; "%d.%m.%Y %H.%M"; "%d.%m.%Y"; "%d.%m. %H:%M";
   "%d.%m."; "%Y-%m-%d %H:%M:%S"; "%Y-%m-%d"].

(** One or two digits, a dot, one or two digits, an optional dot and an
    optional group of two to four digits. *)
Definition date_pattern : regex :=
  Cat (Group 1 (Repeat is_digit 1 (Some 2)))
    (Cat (Lit ".")
       (Cat (Group 2 (Repeat is_digit 1 (Some 2)))
          (Cat (Maybe (Lit "."))
             (Maybe (Group 3 (Repeat is_digit 2 (Some 4))))))).

(** One or two digits, a dot or a colon, two digits. *)
Definition time_pattern : regex :=
  Cat (Group 1 (Repeat is_digit 1 (Some 2)))
    (Cat (Class (fun c => Ascii.eqb c "." || Ascii.eqb c ":"))
       (Group 2 (Repeat is_digit 2 (Some 2)))).

Section Timestamp.

Context `{Platform}.

(** The loop over the formats; a [ValueError] of [strptime] or of
    [replace] moves on to the next format. *)
Fixpoint try_formats (now : datetime) (timestamp_str : string)
    (formats : list string) : option datetime :=
  match formats with
  | [] => None
  | fmt :: formats' =>
      match strptime timestamp_str fmt with
      | Some parsed =>
          if (dt_year parsed =? 1900)%Z
          then match replace_year parsed (dt_year now) with
               | Some parsed => Some parsed
               | None => try_formats now timestamp_str formats'
               end
          else Some parsed
      | None => try_formats now timestamp_str formats'
      end
  end.

Definition group_int (g : groups) (i : nat) : option Z :=
  option_map int_of_digits (group g i).

(** [_parse_finnish_timestamp] (lines 329 to 381).  The function reads the
    clock at most once on each path; [now] is that reading. *)
Definition _parse_finnish_timestamp (now : datetime) (timestamp_str : string)
  : result datetime :=
  if String.eqb timestamp_str "" then Ok now
  else
    let timestamp_str := Str.strip timestamp_str in
    match try_formats now timestamp_str finnish_formats with
    | Some parsed => Ok parsed
    | None =>
        let date_match := re_search date_pattern timestamp_str in
        let time_match := re_search time_pattern timestamp_str in
        match date_match with
        | Some dm =>
            let day := match group_int dm 1 with Some z => z | None => 0%Z end in
            let month := match group_int dm 2 with Some z => z | None => 0%Z end in
            let year :=
              match group_int dm 3 with
              | Some z => z
              | None => dt_year now
              end in
            let year := if (year <? 100)%Z then (year + 2000)%Z else year in
            let hour :=
              match time_match with
              | Some tm => match group_int tm 1 with Some z => z | None => 0%Z end
              | None => 0%Z
              end in
            let minute :=
              match time_match with
              | Some tm => match group_int tm 2 with Some z => z | None => 0%Z end
              | None => 0%Z
              end in
            match make_datetime year month day hour minute with
            | Some t => Ok t
            | None => Raise ValueError
            end
        | None => Ok now
        end
    end.

End Timestamp.

(** ** A platform to run the client on

    The statements below hold on every platform.  The following one serves
    to run the program on sample inputs: [json.loads] and
    [datetime.strptime] written out for the inputs the samples use, and a
    world that plays back a fixed list of replies and clock readings. *)

Module Sample.

(** *** [json.loads], for documents whose numbers are integers and whose
    escapes stay below code point 256; other documents are outside this
    function, which answers [None] on them. *)

Definition is_json_space (c : ascii) : bool :=
  Ascii.eqb c " " || (code c =? 9)%N || (code c =? 10)%N || (code c =? 13)%N.

Fixpoint skip_ws (s : string) : string :=
  match s with
  | String c s' => if is_json_space c then skip_ws s' else s
  | EmptyString => s
  end.

Definition hex_value (c : ascii) : option N :=
  let n := code c in
  if (48 <=? n)%N && (n <=? 57)%N then Some (n - 48)%N
  else if (97 <=? n)%N && (n <=? 102)%N then Some (n - 87)%N
  else if (65 <=? n)%N && (n <=? 70)%N then Some (n - 55)%N
  else None.

(** The text of a string literal after its opening quote. *)
Fixpoint parse_string (s : string) : option (string * string) :=
  match s with
  | EmptyString => None
  | String c s' =>
      if Ascii.eqb c dquote then Some (EmptyString, s')
      else if Ascii.eqb c "\" then
        match s' with
        | String e s'' =>
            let plain (d : ascii) :=
              match parse_string s'' with
              | Some (t, rest) => Some (String d t, rest)
              | None => None
              end in
            if Ascii.eqb e dquote then plain dquote
            else if Ascii.eqb e "\" then plain "\"%char
            else if Ascii.eqb e "/" then plain "/"%char
            else if Ascii.eqb e "b" then plain (ascii_of_N 8)
            else if Ascii.eqb e "f" then plain (ascii_of_N 12)
            else if Ascii.eqb e "n" then plain (ascii_of_N 10)
            else if Ascii.eqb e "r" then plain (ascii_of_N 13)
            else if Ascii.eqb e "t" then plain (ascii_of_N 9)
            else if Ascii.eqb e "u" then
              match s'' with
              | String h1 (String h2 (String h3 (String h4 s3))) =>
                  match hex_value h1, hex_value h2, hex_value h3, hex_value h4,
                        parse_string s3 with
                  | Some 0%N, Some 0%N, Some a, Some b, Some (t, rest) =>
                      Some (String (ascii_of_N (16 * a + b)) t, rest)
                  | _, _, _, _, _ => None
                  end
              | _ => None
              end
            else None
        | EmptyString => None
        end
      else if (code c <? 32)%N then None
      else
        match parse_string s' with
        | Some (t, rest) => Some (String c t, rest)
        | None => None
        end
  end.

Fixpoint take_digits (s : string) : string * string :=
  match s with
  | String c s' =>
      if is_digit c then let (d, rest) := take_digits s' in (String c d, rest)
      else (EmptyString, s)
  | EmptyString => (EmptyString, EmptyString)
  end.

(** An integer literal: zero, or digits that do not start with zero. *)
Definition parse_natural (s : string) : option (Z * string) :=
  match s with
  | String c s' =>
      if Ascii.eqb c "0" then Some (0%Z, s')
      else if is_digit c then
        let (d, rest) := take_digits s in Some (int_of_digits d, rest)
      else None
  | EmptyString => None
  end.

Definition starts_fraction (s : string) : bool :=
  match s with
  | String c (String d _) =>
      (Ascii.eqb c "." && is_digit d)
      || ((Ascii.eqb c "e" || Ascii.eqb c "E")
          && (is_digit d || Ascii.eqb d "+" || Ascii.eqb d "-"))
  | _ => false
  end.

Definition parse_number (s : string) : option (pyval * string) :=
  let '(negative, s1) :=
    match s with
    | String c s' => if Ascii.eqb c "-" then (true, s') else (false, s)
    | EmptyString => (false, s)
    end in
  match parse_natural s1 with
  | Some (n, rest) =>
      if starts_fraction rest then None
      else Some (PyInt (if negative then - n else n)%Z, rest)
  | None => None
  end.

Definition expect (word : string) (v : pyval) (s : string)
  : option (pyval * string) :=
  if prefix word s then Some (v, Str.skip (length word) s) else None.

Fixpoint parse_value (fuel : nat) (s : string) : option (pyval * string) :=
  match fuel with
  | O => None
  | S fuel' =>
      match s with
      | EmptyString => None
      | String c s' =>
          if Ascii.eqb c "[" then
            match skip_ws s' with
            | String d s'' =>
                if Ascii.eqb d "]" then Some (PyList [], s'')
                else parse_elements fuel' (skip_ws s') []
            | EmptyString => None
            end
          else if Ascii.eqb c "{" then
            match skip_ws s' with
            | String d s'' =>
                if Ascii.eqb d "}" then Some (PyDict [], s'')
                else parse_members fuel' (skip_ws s') []
            | EmptyString => None
            end
          else if Ascii.eqb c dquote then
            match parse_string s' with
            | Some (t, rest) => Some (PyStr t, rest)
            | None => None
            end
          else if Ascii.eqb c "n" then expect "null" PyNone s
          else if Ascii.eqb c "t" then expect "true" (PyBool true) s
          else if Ascii.eqb c "f" then expect "false" (PyBool false) s
          else parse_number s
      end
  end
with parse_elements (fuel : nat) (s : string) (acc : list pyval)
  : option (pyval * string) :=
  match fuel with
  | O => None
  | S fuel' =>
      match parse_value fuel' s with
      | Some (v, rest) =>
          match skip_ws rest with
          | String d rest' =>
              if Ascii.eqb d "," then
                parse_elements fuel' (skip_ws rest') (acc ++ [v])
              else if Ascii.eqb d "]" then Some (PyList (acc ++ [v]), rest')
              else None
          | EmptyString => None
          end
      | None => None
      end
  end
with parse_members (fuel : nat) (s : string) (acc : pydict)
  : option (pyval * string) :=
  match fuel with
  | O => None
  | S fuel' =>
      match s with
      | String q s' =>
          if Ascii.eqb q dquote then
            match parse_string s' with
            | Some (key, rest) =>
                match skip_ws rest with
                | String colon rest' =>
                    if Ascii.eqb colon ":" then
                      match parse_value fuel' (skip_ws rest') with
                      | Some (v, rest'') =>
                          match skip_ws rest'' with
                          | String d rest3 =>
                              if Ascii.eqb d "," then
                                parse_members fuel' (skip_ws rest3)
                                  (dict_set acc key v)
                              else if Ascii.eqb d "}" then
                                Some (PyDict (dict_set acc key v), rest3)
                              else None
                          | EmptyString => None
                          end
                      | None => None
                      end
                    else None
                | EmptyString => None
                end
            | None => None
            end
          else None
      | EmptyString => None
      end
  end.

Definition json_loads (s : string) : option pyval :=
  match parse_value (2 * length s + 2) (skip_ws s) with
  | Some (v, rest) =>
      match skip_ws rest with
      | EmptyString => Some v
      | _ => None
      end
  | None => None
  end.

(** *** [str(x)] for the values this [json_loads] yields; the repr of the
    items of a list or a dictionary is taken for strings without quotes or
    escapes. *)

Fixpoint py_repr (v : pyval) : string :=
  match v with
  | PyNone => "None"
  | PyBool b => if b then "True" else "False"
  | PyInt z => str_of_int z
  | PyFloat _ => "nan"
  | PyStr s => "'" ++ s ++ "'"
  | PyList l => "[" ++ Str.join ", " (map py_repr l) ++ "]"
  | PyDict d =>
      "{" ++ Str.join ", "
               (map (fun kv => "'" ++ fst kv ++ "': " ++ py_repr (snd kv)) d)
          ++ "}"
  end.

Definition py_str (v : pyval) : string :=
  match v with
  | PyStr s => s
  | _ => py_repr v
  end.

(** *** [datetime.strptime], for the directives of the formats in use.
    The format becomes a pattern, matched at the start of the text; the
    whole text has to be consumed and the fields have to form a date. *)

Definition in_range (lo hi : ascii) (c : ascii) : bool :=
  (code lo <=? code c)%N && (code c <=? code hi)%N.

Definition directive (d : ascii) : option regex :=
  let digit := Class is_digit in
  if Ascii.eqb d "d" then
    Some (Group 1
      (Or (Cat (Lit "3") (Class (in_range "0" "1")))
      (Or (Cat (Class (in_range "1" "2")) digit)
      (Or (Cat (Lit "0") (Class (in_range "1" "9")))
      (Or (Class (in_range "1" "9"))
          (Cat (Lit " ") (Class (in_range "1" "9"))))))))
  else if Ascii.eqb d "m" then
    Some (Group 2
      (Or (Cat (Lit "1") (Class (in_range "0" "2")))
      (Or (Cat (Lit "0") (Class (in_range "1" "9")))
          (Class (in_range "1" "9")))))
  else if Ascii.eqb d "Y" then
    Some (Group 3 (Cat digit (Cat digit (Cat digit digit))))
  else if Ascii.eqb d "H" then
    Some (Group 4
      (Or (Cat (Lit "2") (Class (in_range "0" "3")))
      (Or (Cat (Class (in_range "0" "1")) digit)
          digit)))
  else if Ascii.eqb d "M" then
    Some (Group 5 (Or (Cat (Class (in_range "0" "5")) digit) digit))
  else if Ascii.eqb d "S" then
    Some (Group 6
      (Or (Cat (Lit "6") (Class (in_range "0" "1")))
      (Or (Cat (Class (in_range "0" "5")) digit)
          digit)))
  else None.

Fixpoint format_pattern (fmt : string) : option regex :=
  match fmt with
  | EmptyString => Some Eps
  | String c fmt' =>
      if Ascii.eqb c "%" then
        match fmt' with
        | String d fmt'' =>
            match directive d, format_pattern fmt'' with
            | Some r, Some rest => Some (Cat r rest)
            | _, _ => None
            end
        | EmptyString => None
        end
      else
        match format_pattern fmt' with
        | Some rest =>
            Some (Cat (if is_space c then Repeat is_space 1 None else Lit c)
                    rest)
        | None => None
        end
  end.

Definition field (g : groups) (i : nat) (default : Z) : Z :=
  match group g i with
  | Some s => int_of_digits (Str.strip s)
  | None => default
  end.

Definition strptime (s fmt : string) : option datetime :=
  match format_pattern fmt with
  | Some r =>
      match re_match r s with
      | Some (g, EmptyString) =>
          let y := field g 3 1900 in
          let m := field g 2 1 in
          let d := field g 1 1 in
          let hh := field g 4 0 in
          let mm := field g 5 0 in
          let ss := field g 6 0 in
          if valid_datetime y m d hh mm ss
          then Some (mkdatetime y m d hh mm ss 0)
          else None
      | _ => None
      end
  | None => None
  end.

(** *** A world that plays back a script: each request takes the next
    reply and leaves the cookie jar as the script says; each look at the
    clock takes the next reading.  When the replies are used up a request
    fails in transport; when the readings are used up the clock stands at
    [epoch]. *)

Record Script : Type := mkScript {
  replies : list (Reply * option string);
  jar : option string;
  readings : list datetime }.

Definition epoch : datetime := mkdatetime 1970 1 1 0 0 0 0.

Definition play (w : Script) (rq : Request) : Reply * Script :=
  match replies w with
  | [] => (HTTPError, w)
  | (reply, sid) :: rest => (reply, mkScript rest sid (readings w))
  end.

Definition read_clock (w : Script) : datetime * Script :=
  match readings w with
  | [] => (epoch, w)
  | t :: rest => (t, mkScript (replies w) (jar w) rest)
  end.

Definition read_jar (w : Script) (name : string) : option string :=
  if String.eqb name "Wilma2SID" then jar w else None.

(** Success is a status from 200 to 299. *)
Definition raises_for_status (r : Response) : bool :=
  negb ((200 <=? resp_status r)%Z && (resp_status r <=? 299)%Z).

(** The samples hold no [form] element. *)
Definition soup_find_form (html : string) : option Form := None.

#[export] Instance platform : Platform := {
  World := Script;
  send := play;
  cookies_get := read_jar;
  clock_now := read_clock;
  raises_for_status := Sample.raises_for_status;
  json_loads := Sample.json_loads;
  py_str := Sample.py_str;
  strptime := Sample.strptime;
  soup_find_form := Sample.soup_find_form }.

(** Texts are written with apostrophes where the portal has double
    quotes. *)
Fixpoint dq (s : string) : string :=
  match s with
  | EmptyString => EmptyString
  | String c s' => String (if Ascii.eqb c "'" then dquote else c) (dq s')
  end.

(** A client object on a scripted world, as [__init__] leaves it or with
    a session already held. *)
Definition client (session prefix : option string) (w : Script)
  : Client (H := platform) :=
  mkClient (H := platform) "pupil" "secret" session prefix w [].

(** A body the server sent with status 200. *)
Definition page (url body : string) : Reply := Returned (mkResponse 200 url body).

(** The replies of a portal to a login that succeeds. *)
Definition login_replies : list (Reply * option string) :=
  [(page "https://school.inschool.fi/index_json" (dq "{'SessionID':'abc'}"),
    None);
   (page "https://school.inschool.fi/!0411876/" "", Some "fresh")].

(** The portal's answer to a request without a valid session: the login
    page, reached by a redirect. *)
Definition login_page : Reply :=
  page "https://school.inschool.fi/login?returnpath=%2Fmessages"
    "<html><title>Wilma</title></html>".

(** A portal that sends the login page for a request, lets the client log
    in again, and sends the login page for the request once more. *)
Definition expires_twice : Script :=
  mkScript
    ((login_page, Some "stale") :: login_replies
       ++ [(login_page, Some "fresh")])
    (Some "stale") [].

Definition messages_request : Request :=
  mkRequest "GET" "/!0411876/messages/list/index_json" None [].



(** A portal that takes a compose POST and answers with a page whose
    address does not name the message list and whose text has neither
    error word. *)
Definition compose_rejected_quietly : Script :=
  mkScript
    [(page "https://school.inschool.fi/!0411876/messages/compose"
        (dq "<input type='hidden' name='formkey' value='k1'>"), Some "sid");
     (page "https://school.inschool.fi/!0411876/"
        "<html>Vastaanottaja puuttuu</html>", Some "sid")]
    (Some "sid") [].

(** A message list of two items, the second with a folder of its own. *)
Definition two_messages : string :=
  dq "{'Messages':[{'Id':7,'Subject':'Hi','Sender':'Admin','TimeStamp':'2026-02-08 11:42','Status':0},{'Id':8,'Subject':'Re: Hi','Sender':'Me','TimeStamp':'2026-02-08 12:00','Status':1,'Folder':'sent'}]}".

Definition lists_two_messages : Script :=
  mkScript
    [(page "https://school.inschool.fi/!0411876/messages/list/index_json"
        two_messages, Some "sid")]
    (Some "sid") [].

(** A message list whose one item has a time stamp that does not parse,
    and a world whose clock gives two different readings. *)
Definition undated_message : pyval :=
  PyDict [("Messages",
           PyList [PyDict [("Id", PyInt 7); ("Subject", PyStr "Hi");
                           ("TimeStamp", PyStr "soon")]])].

Definition noon : datetime := mkdatetime 2026 2 8 12 0 0 0.

Definition one_past_noon : datetime := mkdatetime 2026 2 8 12 0 1 0.

Definition ticking : Script := mkScript [] None [noon; one_past_noon].

End Sample.

(** * The vocabulary of the statements *)

(** What one character adds to the nesting depth. *)
Definition bracket_delta (c : ascii) : Z :=
  if Ascii.eqb c "[" then 1 else if Ascii.eqb c "]" then -1 else 0.

(** A lesson starts no later than another, as strings compare. *)
Definition start_le (a b : Lesson) : Prop :=
  String.leb (start_time a) (start_time b) = true.

(** A slash, an exclamation mark and one or more digits. *)
Definition prefix_shaped (p : string) : Prop :=
  exists digits,
    p = "/!" ++ digits /\ digits <> "" /\
    forallb is_digit (list_ascii_of_string digits) = true.

Fixpoint take_while (p : ascii -> bool) (s : string) : string :=
  match s with
  | EmptyString => EmptyString
  | String c s' => if p c then String c (take_while p s') else EmptyString
  end.

Fixpoint drop_while (p : ascii -> bool) (s : string) : string :=
  match s with
  | EmptyString => EmptyString
  | String c s' => if p c then drop_while p s' else s
  end.

Section Vocabulary.

Context `{Platform}.

(** The event record a lesson was built from: a record of the decoded
    array whose [Date] is the requested one. *)
Definition from_event_of (target_date_str : string) (events : list pyval)
    (lesson : Lesson) : Prop :=
  exists ev,
    In (PyDict ev) events /\
    dict_get ev "Date" (PyStr "") = PyStr target_date_str /\
    lesson_of_event target_date_str (PyDict ev) = Ok (Some lesson).

(** The folder of a summary: the item's own [Folder] when it has one, the
    argument of the call otherwise. *)
Definition folder_of_item (folder : string) (item : pyval)
    (m : MessageSummary) : Prop :=
  exists d,
    item = PyDict d /\
    ms_folder m = match dict_lookup d "Folder" with
                  | Some own => own
                  | None => PyStr folder
                  end.

(** The time stamp of a list item parses. *)
Definition timestamp_parses (item : pyval) : Prop :=
  forall d s,
    item = PyDict d -> dict_get d "TimeStamp" (PyStr "") = PyStr s ->
    strptime s "%Y-%m-%d %H:%M" <> None.

End Vocabulary.

(** * More of the program *)

(** ** The calendar of [datetime.date] *)

(** The check the [date] constructor makes. *)
Definition valid_date (d : date) : bool :=
  ((1 <=? year d) && (year d <=? 9999) && (1 <=? month d) && (month d <=? 12)
   && (1 <=? day d) && (day d <=? days_in_month (year d) (month d)))%Z.

(** The days before 1 January of year [y], and before the first of month
    [m] in year [y]. *)
Definition days_before_year (y : Z) : Z :=
  let y := (y - 1)%Z in
  (y * 365 + y / 4 - y / 100 + y / 400)%Z.

Definition days_before_month (y m : Z) : Z :=
  (match m with
   | 1 => 0 | 2 => 31 | 3 => 59 | 4 => 90 | 5 => 120 | 6 => 151
   | 7 => 181 | 8 => 212 | 9 => 243 | 10 => 273 | 11 => 304 | _ => 334
   end
   + if (2 <? m) && is_leap y then 1 else 0)%Z.

(** [d.toordinal()]: 1 January of year 1 is day 1. *)
Definition toordinal (d : date) : Z :=
  (days_before_year (year d) + days_before_month (year d) (month d) + day d)%Z.

(** [d.weekday()]: Monday is 0, Sunday is 6. *)
Definition weekday (d : date) : Z := ((toordinal d + 6) mod 7)%Z.

(** [d + timedelta(days=1)] and [d - timedelta(days=1)], [None] for the
    [OverflowError] of a date outside the years 1 to 9999. *)
Definition next_day (d : date) : option date :=
  if (day d <? days_in_month (year d) (month d))%Z
  then Some (mkdate (year d) (month d) (day d + 1))
  else if (month d <? 12)%Z then Some (mkdate (year d) (month d + 1) 1)
  else if (year d <? 9999)%Z then Some (mkdate (year d + 1) 1 1)
  else None.

Definition prev_day (d : date) : option date :=
  if (1 <? day d)%Z then Some (mkdate (year d) (month d) (day d - 1))
  else if (1 <? month d)%Z
  then Some (mkdate (year d) (month d - 1)
               (days_in_month (year d) (month d - 1)))
  else if (1 <? year d)%Z then Some (mkdate (year d - 1) 12 31)
  else None.

Fixpoint iterate_day (step : date -> option date) (n : nat) (d : date)
  : option date :=
  match n with
  | O => Some d
  | S n' =>
      match step d with
      | Some d' => iterate_day step n' d'
      | None => None
      end
  end.

(** [d + timedelta(days=k)] *)
Definition date_add (d : date) (k : Z) : option date :=
  if (0 <=? k)%Z then iterate_day next_day (Z.to_nat k) d
  else iterate_day prev_day (Z.to_nat (- k)) d.

(** ** Exceptions the client does not name *)

(** [date] arithmetic raises [OverflowError] and the command line leaves
    through [sys.exit]; [Exn] holds the exceptions listed above. *)
Inductive pyexc : Type :=
| Exn (e : exn)
| OverflowError
| SystemExit (status : Z).

Inductive outcome (A : Type) : Type :=
| Returns (a : A)
| Throws (e : pyexc).

Arguments Returns {A} a.
Arguments Throws {A} e.

(** ** The week schedule ([client.py], [_parse_week_schedule_from_html]) *)

(** The pattern [DayCount\s*:\s*(\d+)] *)
Definition day_count_pattern : regex :=
  Cat (Text "DayCount")
    (Cat (Repeat is_space 0 None)
       (Cat (Lit ":")
          (Cat (Repeat is_space 0 None) (Group 1 (Repeat is_digit 1 None))))).

(** [int(s)] on a run of decimal digits: the conversion refuses more than
    4300 digits with a [ValueError]. *)
Definition int_of_decimal (s : string) : result Z :=
  if Nat.ltb 4300 (length s) then Raise ValueError else Ok (int_of_digits s).

(** [day_count] (lines 297 and 298) *)
Definition day_count (html : string) : result Z :=
  match re_search day_count_pattern html with
  | Some g =>
      match group g 1 with
      | Some digits => int_of_decimal digits
      | None => Raise TypeError
      end
  | None => Ok 5%Z
  end.

(** [schedules_by_date]: the lessons filed under each date text, the keys
    in insertion order. *)
Definition buckets : Type := list (string * list Lesson).

(** [schedules_by_date.get(key, [])] *)
Fixpoint bucket_get (b : buckets) (key : string) : list Lesson :=
  match b with
  | [] => []
  | (k, l) :: b' => if String.eqb k key then l else bucket_get b' key
  end.

(** Lines 363 to 365 for a key that is a string: a new key gets an empty
    list, and the lesson is appended to the list of the key. *)
Fixpoint bucket_append (b : buckets) (key : string) (lesson : Lesson)
  : buckets :=
  match b with
  | [] => [(key, [lesson])]
  | (k, l) :: b' =>
      if String.eqb k key then (k, (l ++ [lesson])%list) :: b'
      else (k, l) :: bucket_append b' key lesson
  end.

(** Lines 363 to 365 for any key.  A list or a dict is not hashable and
    the membership test raises [TypeError].  A number or a truth value is
    filed under a key that equals no string, so that no lookup of a date
    text finds it: the buckets of such keys are left out. *)
Definition file_lesson (event_date : pyval) (lesson : Lesson) (b : buckets)
  : result buckets :=
  match event_date with
  | PyStr key => Ok (bucket_append b key lesson)
  | PyList _ | PyDict _ => Raise TypeError
  | _ => Ok b
  end.

(** [[start_date + timedelta(days=i) for i in range(n)]], [None] for
    [OverflowError] *)
Fixpoint all_some {A : Type} (l : list (option A)) : option (list A) :=
  match l with
  | [] => Some []
  | x :: l' =>
      match x, all_some l' with
      | Some a, Some r => Some (a :: r)
      | _, _ => None
      end
  end.

Definition week_days (start_date : date) (n : nat) : option (list date) :=
  all_some (map (fun i => date_add start_date (Z.of_nat i)) (seq 0 n)).

(** The days without lessons of the early returns and of the handler. *)
Definition empty_days (start_date : date) (n : nat)
  : outcome (list DaySchedule) :=
  match week_days start_date n with
  | Some days => Returns (map (fun d => mkDaySchedule d []) days)
  | None => Throws OverflowError
  end.

Section WeekSchedule.

Context `{Platform}.

(** Lines 339 to 361: the lesson of an event record. *)
Definition lesson_of_record (ev : pydict) : result Lesson :=
  let start_mins := dict_get ev "Start" (PyInt 0) in
  let end_mins := dict_get ev "End" (PyInt 0) in
  match minutes_to_hhmm start_mins with
  | Raise e => Raise e
  | Ok start_time =>
  match minutes_to_hhmm end_mins with
  | Raise e => Raise e
  | Ok end_time =>
      let text_dict := dict_get ev "Text" (PyDict []) in
      let subject :=
        match text_dict with
        | PyDict d => dict_get d "0" (PyStr "")
        | other => PyStr (py_str other)
        end in
      let long_text_dict := dict_get ev "LongText" (PyDict []) in
      let notes :=
        match long_text_dict with
        | PyDict d => dict_get d "0" (PyStr "")
        | _ => PyNone
        end in
      let opet_dict := dict_get ev "Opet" (PyDict []) in
      let teacher :=
        match opet_dict with
        | PyDict d => dict_get d "0" (PyStr "")
        | _ => PyNone
        end in
      let cleaned :=
        if truthy teacher
        then match teacher with
             | PyStr t => Ok (PyStr (re_sub_at_start teacher_prefix t))
             | _ => Raise TypeError
             end
        else Ok teacher in
      match cleaned with
      | Raise e => Raise e
      | Ok teacher =>
          Ok (mkLesson start_time end_time subject teacher PyNone [] notes)
      end
  end
  end.

(** One turn of the loop over the events (lines 334 to 365). *)
Definition file_event (event : pyval) (b : buckets) : result buckets :=
  match event with
  | PyDict ev =>
      let event_date := dict_get ev "Date" (PyStr "") in
      if negb (truthy event_date) then Ok b
      else
        match lesson_of_record ev with
        | Raise e => Raise e
        | Ok lesson => file_lesson event_date lesson b
        end
  | _ => Raise AttributeError
  end.

Fixpoint file_events (events : list pyval) (b : buckets) : result buckets :=
  match events with
  | [] => Ok b
  | event :: events' =>
      match file_event event b with
      | Raise e => Raise e
      | Ok b' => file_events events' b'
      end
  end.

(** [_parse_week_schedule_from_html] (lines 292 to 379).  The lines that
    locate the array are those of the day parser. *)
Definition _parse_week_schedule_from_html (html : string) (start_date : date)
  : outcome (list DaySchedule) :=
  match day_count html with
  | Raise e => Throws (Exn e)
  | Ok day_count =>
      match extract_events_str html with
      | None => empty_days start_date (Z.to_nat day_count)
      | Some events_str =>
          let handler := empty_days start_date 5 in
          match json_loads events_str with
          | None => handler
          | Some events =>
              match py_iter events with
              | None => handler
              | Some evs =>
                  match file_events evs [] with
                  | Raise e =>
                      if caught_by_schedule e then handler
                      else Throws (Exn e)
                  | Ok schedules_by_date =>
                      match week_days start_date (Z.to_nat day_count) with
                      | None => Throws OverflowError
                      | Some days =>
                          Returns
                            (map (fun day =>
                                    let day_str := strftime_dmY day in
                                    mkDaySchedule day
                                      (sort_lessons
                                         (bucket_get schedules_by_date
                                            day_str)))
                               days)
                      end
                  end
              end
          end
      end
  end.

End WeekSchedule.

(** ** Recipients ([client.py], lines 542 to 570 and 612 to 633) *)

Record Recipient : Type := mkRecipient {
  rc_id : string;
  rc_name : string;
  rc_role : option string;
  rc_school : option string }.

Definition not_rparen (c : ascii) : bool := negb (Ascii.eqb c ")").

(** The pattern of the role without its anchor: an opening parenthesis,
    a group of one or more characters other than a closing parenthesis,
    and a closing parenthesis. *)
Definition role_pattern : regex :=
  Cat (Lit "(") (Cat (Group 1 (Repeat not_rparen 1 None)) (Lit ")")).

(** The anchor [$]: at the end of the text, or before a line feed that
    ends it. *)
Definition at_end (s : string) : bool :=
  String.eqb s "" || String.eqb s (String (ascii_of_N 10) "").

(** [re.search(r + "$", s)] *)
Definition re_match_to_end (r : regex) (s : string) : option groups :=
  run r s [] (fun s' g => if at_end s' then Some g else None).

Fixpoint re_search_to_end (r : regex) (s : string) : option groups :=
  match re_match_to_end r s with
  | Some g => Some g
  | None =>
      match s with
      | EmptyString => None
      | String _ s' => re_search_to_end r s'
      end
  end.

(** The text before the last [c], [None] when [c] does not occur. *)
Fixpoint before_last (c : ascii) (s : string) : option string :=
  match s with
  | EmptyString => None
  | String d s' =>
      match before_last c s' with
      | Some t => Some (String d t)
      | None => if Ascii.eqb d c then Some EmptyString else None
      end
  end.

(** [s.rsplit(c, 1)[0]] *)
Definition rsplit_head (c : ascii) (s : string) : string :=
  match before_last c s with
  | Some t => t
  | None => s
  end.

(** The role in parentheses at the end of a name, and the name without
    it (lines 557 to 561, and again 627 to 631). *)
Definition role_and_name (name : string) : option string * string :=
  match re_search_to_end role_pattern name with
  | Some g => (group g 1, Str.strip (rsplit_head "(" name))
  | None => (None, name)
  end.

(** One turn of the loop of [_parse_recipients_from_html] over the
    [option] elements, each given by [option.get("value", "")] and
    [option.get_text(strip=True)]. *)
Definition recipient_of_option (element : string * string)
  : option Recipient :=
  let (value, text) := element in
  if negb (String.eqb value "") && negb (String.eqb value "0")
     && negb (String.eqb value "")
  then
    let name := text in
    if negb (String.eqb name "")
    then let (role, name) := role_and_name name in
         Some (mkRecipient value name role None)
    else None
  else None.

Fixpoint recipients_of_options (options : list (string * string))
  : list Recipient :=
  match options with
  | [] => []
  | element :: options' =>
      match recipient_of_option element with
      | Some recipient => recipient :: recipients_of_options options'
      | None => recipients_of_options options'
      end
  end.

Section Recipients.

Context `{Platform}.

(** [soup.find_all("option")] of [BeautifulSoup(html, "html.parser")],
    as the pairs above, in document order. *)
Variable soup_find_all_option : string -> list (string * string).

Definition _parse_recipients_from_html (html : string) : list Recipient :=
  recipients_of_options (soup_find_all_option html).

(** One turn of the loop of [_recipients_from_json_list]. *)
Definition recipient_of_item (item : pyval) : option Recipient :=
  match item with
  | PyDict d =>
      let rid :=
        py_str (dict_get d "id" (dict_get d "Id" (dict_get d "ID" (PyStr ""))))
      in
      let name :=
        py_str (dict_get d "text"
                  (dict_get d "name" (dict_get d "Name" (PyStr ""))))
      in
      if String.eqb rid "" || String.eqb name "" then None
      else let (role, name) := role_and_name name in
           Some (mkRecipient rid name role None)
  | _ => None
  end.

Fixpoint recipients_of_items (items : list pyval) : list Recipient :=
  match items with
  | [] => []
  | item :: items' =>
      match recipient_of_item item with
      | Some recipient => recipient :: recipients_of_items items'
      | None => recipients_of_items items'
      end
  end.

(** [_recipients_from_json_list]: a value that cannot be iterated raises
    [TypeError]. *)
Definition _recipients_from_json_list (data : pyval)
  : result (list Recipient) :=
  match py_iter data with
  | Some items => Ok (recipients_of_items items)
  | None => Raise TypeError
  end.

End Recipients.

(** ** Dates as the user writes them ([cli.py] and [server.py],
    [_parse_date]) *)

(** The letter a with diaeresis, and the Finnish word for today. *)
Definition a_umlaut : ascii := ascii_of_N 228.

Definition tanaan : string :=
  String "t" (String a_umlaut (String "n"
    (String a_umlaut (String a_umlaut (String "n" EmptyString))))).

Definition weekdays : list (string * Z) :=
  [("monday", 0); ("maanantai", 0);
   ("tuesday", 1); ("tiistai", 1);
   ("wednesday", 2); ("keskiviikko", 2);
   ("thursday", 3); ("torstai", 3);
   ("friday", 4); ("perjantai", 4);
   ("saturday", 5); ("lauantai", 5);
   ("sunday", 6); ("sunnuntai", 6)]%Z.

(** [weekdays[key]], [None] when [key not in weekdays] *)
Fixpoint weekdays_get (table : list (string * Z)) (key : string) : option Z :=
  match table with
  | [] => None
  | (k, v) :: table' =>
      if String.eqb k key then Some v else weekdays_get table' key
  end.

Definition date_formats : list string :=
  ["%Y-%m-%d"; "%d.%m.%Y"; "%d.%m."; "%m/%d/%Y"; "%d/%m/%Y"].

(** The outcome of date arithmetic. *)
Definition date_or_overflow (d : option date) : outcome date :=
  match d with
  | Some d => Returns d
  | None => Throws OverflowError
  end.

(** Lines 78 to 84 of [cli.py], 114 to 120 of [server.py] *)
Definition next_weekday (today : date) (target_weekday : Z) : outcome date :=
  let current_weekday := weekday today in
  let days_ahead := (target_weekday - current_weekday)%Z in
  let days_ahead :=
    if (days_ahead <=? 0)%Z then (days_ahead + 7)%Z else days_ahead in
  date_or_overflow (date_add today days_ahead).

Section ParseDate.

Context `{Platform}.

(** The loop over the formats; a [ValueError] of [strptime] or of
    [replace] moves on to the next format. *)
Fixpoint try_date_formats (today : date) (date_str : string)
    (formats : list string) : option date :=
  match formats with
  | [] => None
  | fmt :: formats' =>
      match strptime date_str fmt with
      | Some parsed =>
          let as_date (t : datetime) :=
            mkdate (dt_year t) (dt_month t) (dt_day t) in
          if (dt_year parsed =? 1900)%Z
          then match replace_year parsed (year today) with
               | Some parsed => Some (as_date parsed)
               | None => try_date_formats today date_str formats'
               end
          else Some (as_date parsed)
      | None => try_date_formats today date_str formats'
      end
  end.

End ParseDate.

Module Cli.

Section Cli.

Context `{Platform}.

(** [_parse_date] of [cli.py] (lines 55 to 96); [today] is the reading of
    [date.today()]. *)
Definition _parse_date (today : date) (date_str : string) : outcome date :=
  let date_str := Str.strip (Str.lower date_str) in
  if String.eqb date_str "today" || String.eqb date_str tanaan
  then Returns today
  else if String.eqb date_str "tomorrow" || String.eqb date_str "huomenna"
  then date_or_overflow (date_add today 1)
  else if String.eqb date_str "yesterday" || String.eqb date_str "eilen"
  then date_or_overflow (date_add today (-1))
  else
    match weekdays_get weekdays date_str with
    | Some target_weekday => next_weekday today target_weekday
    | None =>
        match try_date_formats today date_str date_formats with
        | Some d => Returns d
        | None => Throws (SystemExit 1)
        end
    end.

End Cli.

End Cli.

Module Server.

Section Server.

Context `{Platform}.

(** [_parse_date] of [server.py] (lines 91 to 139).  The second word of
    the first test is written in the source with the character U+221A,
    which no text of this development holds: the test comes down to the
    first word. *)
Definition _parse_date (today : date) (date_str : string) : outcome date :=
  let date_str := Str.strip (Str.lower date_str) in
  if String.eqb date_str "today"
  then Returns today
  else if String.eqb date_str "tomorrow" || String.eqb date_str "huomenna"
  then date_or_overflow (date_add today 1)
  else if String.eqb date_str "yesterday" || String.eqb date_str "eilen"
  then date_or_overflow (date_add today (-1))
  else
    match weekdays_get weekdays date_str with
    | Some target_weekday => next_weekday today target_weekday
    | None =>
        match try_date_formats today date_str date_formats with
        | Some d => Returns d
        | None => Throws (Exn ValueError)
        end
    end.

(** The environment and the global [_client] of the server, and the world
    a new client object will talk to. *)
Record State : Type := mkState {
  WILMA_BASE_URL : option string;
  WILMA_USERNAME : option string;
  WILMA_PASSWORD : option string;
  _client : option Client;
  outside : World }.

Definition set_client (c : Client) (st : State) : State :=
  mkState (WILMA_BASE_URL st) (WILMA_USERNAME st) (WILMA_PASSWORD st)
    (Some c) (outside st).

(** A variable of the environment is set to a text that is not empty. *)
Definition env_set (v : option string) : bool :=
  match v with
  | Some s => negb (String.eqb s "")
  | None => false
  end.

(** [_get_client] (lines 26 to 41) *)
Definition _get_client (st : State) : result Client * State :=
  match _client st with
  | Some c => (Ok c, st)
  | None =>
      if negb (env_set (WILMA_BASE_URL st) && env_set (WILMA_USERNAME st)
               && env_set (WILMA_PASSWORD st))
      then (Raise (WilmaAuthError "Missing Wilma credentials. Please set WILMA_BASE_URL, WILMA_USERNAME, and WILMA_PASSWORD environment variables."), st)
      else
        let username := match WILMA_USERNAME st with Some s => s | None => "" end in
        let password := match WILMA_PASSWORD st with Some s => s | None => "" end in
        let c := mkClient username password None None (outside st) [] in
        (Ok c, set_client c st)
  end.

(** The tool [send_message] (lines 278 to 317): the text it returns, or
    the exception it lets through, and the server afterwards.  The text
    of an exception is its message as the client above builds it. *)
Definition send_message (recipient_id subject body : string)
    (reply_to_id : option string) (st : State) : result string * State :=
  if String.eqb (Str.strip recipient_id) ""
  then (Ok "Error: recipient_id is required", st)
  else if String.eqb (Str.strip subject) ""
  then (Ok "Error: subject is required", st)
  else if String.eqb (Str.strip body) ""
  then (Ok "Error: message body is required", st)
  else
    let handled (e : exn) : result string :=
      match e with
      | WilmaAuthError msg => Ok ("Authentication error: " ++ msg)
      | WilmaAPIError msg => Ok ("API error: " ++ msg)
      | other => Raise other
      end in
    match _get_client st with
    | (Raise e, st) => (handled e, st)
    | (Ok client, st) =>
        match send_message [recipient_id] subject body reply_to_id
                client with
        | (Ok success, client) =>
            (Ok (if success
                 then "Message sent successfully to recipient "
                      ++ recipient_id ++ "."
                 else "Failed to send message."),
             set_client client st)
        | (Raise e, client) => (handled e, set_client client st)
        end
    end.

End Server.

End Server.

(** ** More vocabulary of the statements *)

Section MoreVocabulary.

Context `{Platform}.

(** A summary carries the id, subject, sender and read flag of a list
    item. *)
Definition summary_of_item (item : pyval) (m : MessageSummary) : Prop :=
  exists d,
    item = PyDict d /\
    ms_id m = py_str (dict_get d "Id" (PyStr "")) /\
    ms_subject m = dict_get d "Subject" (PyStr "") /\
    ms_sender m = dict_get d "Sender" (PyStr "") /\
    ms_is_read m = ne_zero (dict_get d "Status" (PyInt 0)).

(** A call of the HTTP client the dispatcher may make for a call of its
    own: one of the two requests of a login with the credentials of the
    object, or the request of the call under some prefix. *)
Definition request_of_call (c : Client) (method path : string)
    (data : option pydict) (headers : list (string * string))
    (r : Request) : Prop :=
  r = index_request \/
  (exists token, r = login_request (username c) (password c) token) \/
  (exists user_prefix,
     r = mkRequest method (request_path user_prefix path) data headers).

End MoreVocabulary.

(** A character occurs in a text. *)
Fixpoint occurs (c : ascii) (s : string) : bool :=
  match s with
  | EmptyString => false
  | String d s' => Ascii.eqb d c || occurs c s'
  end.



(** ** More sample inputs *)

(** A schedule page of two days across the end of a month, with two
    lessons on the second day given out of order. *)
Definition week_page : string :=
  Sample.dq
    "DayCount : 2, Events : [{'Date':'01.03.2026','Start':600,'End':645,'Text':{'0':'Art'}},{'Date':'28.02.2026','Start':510,'End':555,'Text':{'0':'Bio'}},{'Date':'01.03.2026','Start':510,'End':555,'Text':{'0':'Math'}}]".

Definition week_of_page : list DaySchedule :=
  [mkDaySchedule (mkdate 2026 2 28)
     [mkLesson "08:30" "09:15" (PyStr "Bio") (PyStr "") PyNone [] (PyStr "")];
   mkDaySchedule (mkdate 2026 3 1)
     [mkLesson "08:30" "09:15" (PyStr "Math") (PyStr "") PyNone [] (PyStr "");
      mkLesson "10:00" "10:45" (PyStr "Art") (PyStr "") PyNone [] (PyStr "")]].

(** * Properties *)


(** ** Facts on strings *)

Lemma substring_skip (s : string) (a n : nat) :
  substring a n s = substring 0 n (Str.skip a s).
Proof.
  revert a; induction s as [|c s IH]; intros [|a]; simpl; try reflexivity.
  - destruct n; reflexivity.
  - apply IH.
Qed.

Lemma substring_zero (s : string) (a : nat) : substring a 0 s = EmptyString.
Proof.
  revert a; induction s as [|c s IH]; intros [|a]; simpl; auto.
Qed.

Lemma get_skip (s : string) (a : nat) (c : ascii) :
  get a s = Some c -> exists s', Str.skip a s = String c s'.
Proof.
  revert a; induction s as [|d s IH]; intros [|a]; simpl; try discriminate.
  - intros [= ->]; eauto.
  - apply IH.
Qed.

Lemma length_skip (s : string) (a : nat) :
  length (Str.skip a s) = length s - a.
Proof.
  revert a; induction s as [|d s IH]; intros [|a]; simpl; auto.
Qed.

Lemma substring_one_get (s : string) (j : nat) (c : ascii) :
  substring j 1 s = String c EmptyString <-> get j s = Some c.
Proof.
  revert j; induction s as [|d s IH]; intros [|j]; simpl.
  - split; discriminate.
  - split; discriminate.
  - destruct s; split; intros [= ->]; reflexivity.
  - apply IH.
Qed.

Lemma index_lower_bound (sub s : string) (n m : nat) :
  index n sub s = Some m -> n <= m.
Proof.
  revert n m; induction s as [|d s IH]; intros [|n] m; simpl; try lia.
  - discriminate.
  - destruct (index n sub s) as [k|] eqn:E; [|discriminate].
    intros [= <-]. apply IH in E. lia.
Qed.

Lemma index_first_occurrence (sub s : string) (p : nat) :
  index 0 sub s = Some p -> first_occurrence sub s p.
Proof.
  intros H; split.
  - exact (index_correct1 _ _ _ _ H).
  - intros q Hq. apply (index_correct2 _ _ _ _ H); lia.
Qed.

Lemma index_none_no_occurrence (sub s : string) :
  sub <> EmptyString -> index 0 sub s = None -> forall q, ~ occurs_at sub s q.
Proof.
  intros Hne H q. apply (index_correct3 0 q _ _ H Hne). lia.
Qed.

Lemma occurrence_index (sub s : string) (q : nat) :
  sub <> EmptyString -> occurs_at sub s q -> exists p, index 0 sub s = Some p.
Proof.
  intros Hne Hq. destruct (index 0 sub s) as [p|] eqn:E; [eauto|].
  exfalso. exact (index_none_no_occurrence _ _ Hne E q Hq).
Qed.

Lemma occurs_at_get (sub s : string) (p k : nat) (c : ascii) :
  occurs_at sub s p -> get k sub = Some c -> get (k + p) s = Some c.
Proof.
  unfold occurs_at; intros H Hk.
  assert (Hlt : k < length sub).
  { clear H. revert k Hk. induction sub as [|d sub IH]; intros [|k]; simpl;
      try discriminate; try lia.
    intros Hk. apply IH in Hk. lia. }
  rewrite <- (substring_correct1 s p (length sub) k Hlt), H. exact Hk.
Qed.

(** ** The bracket scan against the nesting depth *)

Lemma depth_cons (c : ascii) (s : string) :
  depth (String c s) = (bracket_delta c + depth s)%Z.
Proof. reflexivity. Qed.

Lemma scan_brackets_step (c : ascii) (rest : string) (i : nat) (count : Z) :
  (count + bracket_delta c)%Z <> 0%Z ->
  scan_brackets (String c rest) i count
  = scan_brackets rest (S i) (count + bracket_delta c).
Proof.
  unfold bracket_delta; simpl.
  destruct (Ascii.eqb c "["); [reflexivity|].
  destruct (Ascii.eqb c "]").
  - intros H. apply Z.eqb_neq in H.
    replace (count + -1)%Z with (count - 1)%Z in * by lia. now rewrite H.
  - intros _. now rewrite Z.add_0_r.
Qed.

Lemma scan_brackets_stop (c : ascii) (rest : string) (i : nat) (count : Z) :
  (0 < count)%Z -> (count + bracket_delta c)%Z = 0%Z ->
  scan_brackets (String c rest) i count = Some (i + 1).
Proof.
  unfold bracket_delta; simpl.
  destruct (Ascii.eqb c "["); [lia|].
  destruct (Ascii.eqb c "]"); [|lia].
  intros _ H. replace (count - 1)%Z with 0%Z by lia. reflexivity.
Qed.

Lemma bracket_delta_ge (c : ascii) : (-1 <= bracket_delta c)%Z.
Proof.
  unfold bracket_delta.
  destruct (Ascii.eqb c "["), (Ascii.eqb c "]"); lia.
Qed.

(** From a positive count, the scan stops exactly at the least length at
    which the count, corrected by the depth read so far, is zero. *)
Lemma scan_brackets_least (rest : string) :
  forall (i : nat) (count : Z) (n0 : nat),
    (0 < count)%Z -> 0 < n0 ->
    (count + depth (substring 0 n0 rest))%Z = 0%Z ->
    exists n, 0 < n /\ n <= length rest /\
      (count + depth (substring 0 n rest))%Z = 0%Z /\
      (forall k, 0 < k -> k < n ->
         (count + depth (substring 0 k rest))%Z <> 0%Z) /\
      scan_brackets rest i count = Some (i + n).
Proof.
  induction rest as [|c rest IH]; intros i count n0 Hc Hn0 Hz.
  - destruct n0; simpl in Hz; lia.
  - destruct n0 as [|n0]; [lia|].
    simpl substring in Hz. rewrite depth_cons in Hz.
    destruct (Z.eq_dec (count + bracket_delta c) 0) as [E|E].
    + exists 1. split; [lia|]. split; [simpl; lia|]. split; [|split].
      * simpl substring. rewrite depth_cons, substring_zero. simpl depth. lia.
      * intros k Hk Hlt. lia.
      * now apply scan_brackets_stop.
    + pose proof (bracket_delta_ge c) as Hge.
      assert (Hn0' : 0 < n0).
      { destruct n0; [rewrite substring_zero in Hz; simpl in Hz; lia | lia]. }
      destruct (IH (S i) (count + bracket_delta c)%Z n0) as
        (n & Hn & Hlen & Hzero & Hleast & Hscan); try lia.
      exists (S n). split; [lia|]. split; [simpl; lia|]. split; [|split].
      * simpl substring. rewrite depth_cons. lia.
      * intros [|k] Hk Hlt; [lia|].
        simpl substring. rewrite depth_cons.
        destruct k as [|k]; [rewrite substring_zero; simpl depth; lia|].
        specialize (Hleast (S k)). lia.
      * rewrite scan_brackets_step by assumption. rewrite Hscan.
        f_equal; lia.
Qed.

Lemma marker_nonempty (c : ascii) (s : string) : String c s <> EmptyString.
Proof. discriminate. Qed.

Lemma find_events_start_marker (html : string) (p : nat) :
  find_events_start html = Some p -> marker_at html p.
Proof.
  unfold find_events_start, Str.find, marker_at.
  destruct (index 0 "Events : [" html) as [i|] eqn:E1.
  - intros [= <-]. left. now apply index_first_occurrence.
  - intros E2. right. split.
    + apply index_none_no_occurrence; [apply marker_nonempty | exact E1].
    + now apply index_first_occurrence.
Qed.

Lemma marker_occurs_found (html : string) (q : nat) :
  occurs_at "Events : [" html q \/ occurs_at "Events: [" html q ->
  exists p, find_events_start html = Some p.
Proof.
  unfold find_events_start, Str.find. intros [H|H].
  - destruct (occurrence_index _ _ _ (marker_nonempty _ _) H) as [p ->]. eauto.
  - destruct (index 0 "Events : [" html); [eauto|].
    exact (occurrence_index _ _ _ (marker_nonempty _ _) H).
Qed.

Lemma marker_has_open (html : string) (p : nat) :
  marker_at html p -> exists b, p <= b /\ get b html = Some "["%char.
Proof.
  intros [[H _]|[_ [H _]]].
  - exists (9 + p). split; [lia|]. now apply (occurs_at_get _ _ _ _ _ H).
  - exists (8 + p). split; [lia|]. now apply (occurs_at_get _ _ _ _ _ H).
Qed.

Lemma find_from_first_open (html : string) (p a : nat) :
  Str.find_from "[" html p = Some a -> first_open_from html p a.
Proof.
  unfold Str.find_from, first_open_from. intros H. split; [|split].
  - exact (index_lower_bound _ _ _ _ H).
  - apply substring_one_get. exact (index_correct1 _ _ _ _ H).
  - intros j Hj Hlt Hget. apply substring_one_get in Hget.
    exact (index_correct2 _ _ _ _ H j Hj Hlt Hget).
Qed.

Lemma open_found (html : string) (p b : nat) :
  p <= b -> get b html = Some "["%char ->
  exists a, Str.find_from "[" html p = Some a.
Proof.
  unfold Str.find_from. intros Hle Hget.
  destruct (index p "[" html) as [a|] eqn:E; [eauto|].
  exfalso. apply substring_one_get in Hget.
  exact (index_correct3 _ _ _ _ E (marker_nonempty _ _) Hle Hget).
Qed.

Lemma marker_at_occurs (html : string) (p : nat) :
  marker_at html p ->
  occurs_at "Events : [" html p \/ occurs_at "Events: [" html p.
Proof.
  intros [[H _]|[_ [H _]]]; [now left | now right].
Qed.

Lemma marker_at_one_spelling (html : string) (p : nat) :
  marker_at html p ->
  (forall q, ~ occurs_at "Events : [" html q) \/
  (forall q, ~ occurs_at "Events: [" html q) ->
  earliest_marker_at html p.
Proof.
  intros Hm Hone. split; [exact (marker_at_occurs _ _ Hm)|].
  intros q Hlt [Hq|Hq].
  - destruct Hm as [[_ Hfirst]|[Hnone _]].
    + exact (Hfirst q Hlt Hq).
    + exact (Hnone q Hq).
  - destruct Hm as [[Hp _]|[_ [_ Hfirst]]].
    + destruct Hone as [Hnone|Hnone]; [exact (Hnone p Hp) | exact (Hnone q Hq)].
    + exact (Hfirst q Hlt Hq).
Qed.

(** C1, as the code has it. Whenever either spelling of the marker
    occurs, the marker the extractor starts from is the first
    ["Events : ["] if that spelling occurs anywhere in the document, and
    the first ["Events: ["] otherwise: it is never before the first
    occurrence of either spelling, and it is that occurrence when only
    one of the spellings occurs.  The extractor's array start is the
    first ["["] at or after that marker; and when the nesting depth
    counted from there returns to zero somewhere, the extractor returns
    exactly the text from that ["["] up to the first position where the
    depth is zero again, whatever is nested inside. *)
Theorem extractor_selects_matching_bracket (html : string) :
  (exists q, occurs_at "Events : [" html q \/ occurs_at "Events: [" html q) ->
  exists p a,
    marker_at html p /\ first_open_from html p a /\
    (forall p', earliest_marker_at html p' -> p' <= p) /\
    ((forall q, ~ occurs_at "Events : [" html q) \/
     (forall q, ~ occurs_at "Events: [" html q) ->
     earliest_marker_at html p) /\
    ((exists n0, 0 < n0 /\ depth (substring a n0 html) = 0%Z) ->
     exists n, closes_at html a n /\
               extract_events_str html = Some (substring a n html)).
Proof.
  intros [q Hq].
  destruct (marker_occurs_found _ _ Hq) as [p Hp].
  pose proof (find_events_start_marker _ _ Hp) as Hm.
  destruct (marker_has_open _ _ Hm) as (b & Hb & Hgb).
  destruct (open_found _ _ _ Hb Hgb) as [a Ha].
  pose proof (find_from_first_open _ _ _ Ha) as Hfo.
  exists p, a. split; [exact Hm|]. split; [exact Hfo|].
  split.
  { intros p' [_ Hbefore].
    destruct (Nat.le_gt_cases p' p) as [Hle|Hgt]; [exact Hle|].
    exfalso. exact (Hbefore p Hgt (marker_at_occurs _ _ Hm)). }
  split; [exact (marker_at_one_spelling _ _ Hm)|].
  intros (n0 & Hn0 & Hz).
  destruct Hfo as (Hpa & Hga & _).
  destruct (get_skip _ _ _ Hga) as [rest Hrest].
  rewrite substring_skip, Hrest in Hz.
  destruct n0 as [|n0]; [lia|]. simpl substring in Hz.
  rewrite depth_cons in Hz. change (bracket_delta "[") with 1%Z in Hz.
  assert (Hn0' : 0 < n0).
  { destruct n0; [rewrite substring_zero in Hz; simpl in Hz; lia | lia]. }
  destruct (scan_brackets_least rest (S a) 1 n0 ltac:(lia) Hn0' Hz)
    as (n & Hn & Hlen & Hzero & Hleast & Hscan).
  exists (S n). split.
  - unfold closes_at. split; [lia|]. split; [|split].
    + pose proof (length_skip html a) as Hl. rewrite Hrest in Hl.
      simpl in Hl. lia.
    + rewrite substring_skip, Hrest. simpl substring. rewrite depth_cons.
      exact Hzero.
    + intros k Hk Hlt. rewrite substring_skip, Hrest.
      destruct k as [|k]; [lia|]. simpl substring. rewrite depth_cons.
      change (bracket_delta "[") with 1%Z.
      destruct k as [|k]; [rewrite substring_zero; simpl; lia|].
      apply Hleast; lia.
  - unfold extract_events_str. rewrite Hp, Ha, Hrest.
    change (scan_brackets (String "[" rest) a 0)
      with (scan_brackets rest (S a) 1).
    rewrite Hscan. unfold Str.slice. do 2 f_equal. lia.
Qed.

(** A document with arrays nested inside the first event record and
    another array after the events. *)
Lemma extractor_selects_matching_bracket_witness :
  extract_events_str "var x = {Events : [{G:[[1],[2]]},[3]], N : [4]}"
  = Some "[{G:[[1],[2]]},[3]]" /\
  exists p a,
    marker_at "var x = {Events : [{G:[[1],[2]]},[3]], N : [4]}" p /\
    first_open_from "var x = {Events : [{G:[[1],[2]]},[3]], N : [4]}" p a /\
    (forall p',
       earliest_marker_at "var x = {Events : [{G:[[1],[2]]},[3]], N : [4]}" p'
       -> p' <= p) /\
    ((forall q,
        ~ occurs_at "Events : ["
            "var x = {Events : [{G:[[1],[2]]},[3]], N : [4]}" q) \/
     (forall q,
        ~ occurs_at "Events: ["
            "var x = {Events : [{G:[[1],[2]]},[3]], N : [4]}" q) ->
     earliest_marker_at "var x = {Events : [{G:[[1],[2]]},[3]], N : [4]}" p) /\
    ((exists n0, 0 < n0 /\
        depth (substring a n0
                 "var x = {Events : [{G:[[1],[2]]},[3]], N : [4]}") = 0%Z) ->
     exists n,
       closes_at "var x = {Events : [{G:[[1],[2]]},[3]], N : [4]}" a n /\
       extract_events_str
         "var x = {Events : [{G:[[1],[2]]},[3]], N : [4]}"
       = Some (substring a n
                 "var x = {Events : [{G:[[1],[2]]},[3]], N : [4]}")).
Proof.
  split; [reflexivity|].
  apply extractor_selects_matching_bracket.
  exists 9. left. reflexivity.
Defined.

(** The claim fails where the spelling without a space comes first and
    the one with a space later: the first occurrence of either spelling
    is at the head of the document and the array after it is balanced,
    and the extractor returns the array of the later marker. *)
Lemma earliest_marker_is_passed_over :
  earliest_marker_at "Events: [1] and later Events : [[2]] end" 0 /\
  first_open_from "Events: [1] and later Events : [[2]] end" 0 8 /\
  closes_at "Events: [1] and later Events : [[2]] end" 8 3 /\
  substring 8 3 "Events: [1] and later Events : [[2]] end" = "[1]" /\
  extract_events_str "Events: [1] and later Events : [[2]] end"
  = Some "[[2]]".
Proof.
  split; [|split; [|split; [|split]]].
  - split; [right; reflexivity|]. intros q Hq. lia.
  - split; [lia|]. split; [reflexivity|].
    intros j _ Hlt.
    do 8 (destruct j as [|j]; [discriminate|]). lia.
  - split; [lia|]. split; [cbn; lia|]. split; [reflexivity|].
    intros k Hk Hlt.
    destruct k as [|[|[|k]]]; [lia | discriminate | discriminate | lia].
  - reflexivity.
  - reflexivity.
Qed.

(** ** The order of start times *)

Lemma ascii_compare_lt_trans (a b c : ascii) :
  Ascii.compare a b = Lt -> Ascii.compare b c = Lt -> Ascii.compare a c = Lt.
Proof.
  unfold Ascii.compare. rewrite !N.compare_lt_iff. apply N.lt_trans.
Qed.

Lemma string_leb_trans (s1 s2 s3 : string) :
  String.leb s1 s2 = true -> String.leb s2 s3 = true ->
  String.leb s1 s3 = true.
Proof.
  unfold String.leb. revert s2 s3.
  induction s1 as [|a s1 IH]; intros [|b s2] [|c s3]; simpl;
    try reflexivity; try discriminate.
  destruct (Ascii.compare a b) eqn:Eab; try discriminate.
  - apply Ascii.compare_eq_iff in Eab. subst b.
    destruct (Ascii.compare a c); try reflexivity; try discriminate.
    apply IH.
  - destruct (Ascii.compare b c) eqn:Ebc; try discriminate.
    + apply Ascii.compare_eq_iff in Ebc. subst c. now rewrite Eab.
    + now rewrite (ascii_compare_lt_trans _ _ _ Eab Ebc).
Qed.

Lemma string_leb_false (s1 s2 : string) :
  String.leb s1 s2 = false -> String.leb s2 s1 = true.
Proof.
  intros Hf. destruct (String.leb_total s1 s2) as [Ht|Ht]; congruence.
Qed.

Lemma insert_lesson_In (x y : Lesson) (l : list Lesson) :
  In y (insert_lesson x l) <-> y = x \/ In y l.
Proof.
  induction l as [|z l IH]; simpl.
  - intuition congruence.
  - destruct (String.leb (start_time x) (start_time z)); simpl.
    + intuition congruence.
    + rewrite IH. intuition congruence.
Qed.

Lemma sort_lessons_In (y : Lesson) (l : list Lesson) :
  In y (sort_lessons l) <-> In y l.
Proof.
  induction l as [|x l IH]; simpl; [reflexivity|].
  rewrite insert_lesson_In, IH. intuition congruence.
Qed.

Lemma insert_lesson_sorted (x : Lesson) (l : list Lesson) :
  StronglySorted start_le l -> StronglySorted start_le (insert_lesson x l).
Proof.
  induction 1 as [|z l Hs IH Hall]; simpl.
  - constructor; constructor.
  - destruct (String.leb (start_time x) (start_time z)) eqn:E.
    + constructor; [constructor; assumption|].
      constructor; [exact E|].
      eapply Forall_impl; [|exact Hall].
      intros w Hw. exact (string_leb_trans _ _ _ E Hw).
    + constructor; [exact IH|].
      apply Forall_forall. intros w Hw. apply insert_lesson_In in Hw.
      destruct Hw as [->|Hw].
      * now apply string_leb_false.
      * rewrite Forall_forall in Hall. now apply Hall.
Qed.

Lemma sort_lessons_sorted (l : list Lesson) :
  StronglySorted start_le (sort_lessons l).
Proof.
  induction l as [|x l IH]; simpl.
  - constructor.
  - now apply insert_lesson_sorted.
Qed.

(** ** The lessons of a day *)

Section ScheduleFacts.

Context `{Platform}.

Lemma lesson_of_event_date (target : string) (event : pyval) (l : Lesson) :
  lesson_of_event target event = Ok (Some l) ->
  exists ev, event = PyDict ev /\ dict_get ev "Date" (PyStr "") = PyStr target.
Proof.
  destruct event as [| | | | |?|ev]; try discriminate.
  unfold lesson_of_event. intros Hl. exists ev. split; [reflexivity|].
  destruct (dict_get ev "Date" (PyStr "")) as [| | | |t| |];
    cbn [ne_str] in Hl; try discriminate Hl.
  destruct (String.eqb t target) eqn:E; [|discriminate].
  apply String.eqb_eq in E. now rewrite E.
Qed.

Lemma collect_lessons_from (target : string) (events : list pyval) :
  forall acc out,
    collect_lessons target events acc = Ok out ->
    forall l, In l out -> In l acc \/ from_event_of target events l.
Proof.
  induction events as [|event events IH]; intros acc out Hc l Hin; simpl in Hc.
  - injection Hc as <-. now left.
  - destruct (lesson_of_event target event) as [[lesson|]|e] eqn:E.
    + destruct (IH _ _ Hc l Hin) as [Hacc|(ev & Hev & Hd & Hl)].
      * apply in_app_or in Hacc. destruct Hacc as [Hacc|[<-|[]]].
        -- now left.
        -- right. destruct (lesson_of_event_date _ _ _ E) as (ev & -> & Hd).
           exists ev. simpl. auto.
      * right. exists ev. simpl. auto.
    + destruct (IH _ _ Hc l Hin) as [Hacc|(ev & Hev & Hd & Hl)].
      * now left.
      * right. exists ev. simpl. auto.
    + destruct (caught_by_schedule e); [|discriminate].
      injection Hc as <-. now left.
Qed.

(** C4. A day schedule that is returned carries the requested date; each
    of its lessons was built from a record of the decoded events array
    whose [Date] field is the requested date written [DD.MM.YYYY]; and
    every lesson starts no later, as strings compare, than each lesson
    after it. *)
Theorem day_schedule_of_requested_date_sorted
    (html : string) (target_date : date) (schedule : DaySchedule) :
  _parse_schedule_from_html html target_date = Ok schedule ->
  ds_date schedule = target_date /\
  (forall lesson, In lesson (lessons schedule) ->
     exists events_str events evs,
       extract_events_str html = Some events_str /\
       json_loads events_str = Some events /\
       py_iter events = Some evs /\
       from_event_of (strftime_dmY target_date) evs lesson) /\
  StronglySorted start_le (lessons schedule).
Proof.
  unfold _parse_schedule_from_html.
  destruct (extract_events_str html) as [events_str|] eqn:Ex.
  2:{ intros [= <-]. simpl. repeat split; [intros ? []|constructor]. }
  destruct (json_loads events_str) as [events|] eqn:Ej.
  2:{ intros [= <-]. simpl. repeat split; [intros ? []|constructor]. }
  destruct (py_iter events) as [evs|] eqn:Ei.
  2:{ intros [= <-]. simpl. repeat split; [intros ? []|constructor]. }
  destruct (collect_lessons (strftime_dmY target_date) evs []) as [ls|e] eqn:Ec;
    [|discriminate].
  intros [= <-]. simpl. split; [reflexivity|]. split.
  - intros lesson Hin. apply (proj1 (sort_lessons_In _ _)) in Hin.
    destruct (collect_lessons_from _ _ _ _ Ec _ Hin) as [[]|Hfrom].
    exists events_str, events, evs. auto.
  - apply sort_lessons_sorted.
Qed.

End ScheduleFacts.

(** A week's payload asked for one day: the lesson of the other day is
    left out and the two of the day come out by start time. *)
Lemma day_schedule_of_requested_date_sorted_witness :
  let html := Sample.dq
    "Events : [{'Date':'08.02.2026','Start':600,'End':645,'Text':{'0':'Art'}},{'Date':'09.02.2026','Start':510,'End':555,'Text':{'0':'Bio'}},{'Date':'08.02.2026','Start':510,'End':555,'Text':{'0':'Math'}}]" in
  let day := mkdate 2026 2 8 in
  exists schedule,
    _parse_schedule_from_html (H := Sample.platform) html day = Ok schedule /\
    map start_time (lessons schedule) = ["08:30"; "10:00"] /\
    ds_date schedule = day /\
    (forall lesson, In lesson (lessons schedule) ->
       exists events_str events evs,
         extract_events_str html = Some events_str /\
         Sample.json_loads events_str = Some events /\
         py_iter events = Some evs /\
         from_event_of (H := Sample.platform) (strftime_dmY day) evs lesson) /\
    StronglySorted start_le (lessons schedule).
Proof.
  intros html day.
  destruct (_parse_schedule_from_html (H := Sample.platform) html day)
    as [schedule|e] eqn:E; [|vm_compute in E; discriminate].
  exists schedule. split; [reflexivity|]. split.
  - vm_compute in E. injection E as <-. reflexivity.
  - exact (day_schedule_of_requested_date_sorted (H := Sample.platform)
             html day schedule E).
Defined.

(** ** The fields of a lesson *)

Lemma format_02d_two_digits (z : Z) :
  (0 <= z < 100)%Z ->
  format_02d z
  = String (digit_char (z / 10)) (String (digit_char (z mod 10)) EmptyString).
Proof.
  intros Hz.
  assert (Hall : forallb
            (fun n => String.eqb (format_02d (Z.of_nat n))
                        (String (digit_char (Z.of_nat n / 10))
                           (String (digit_char (Z.of_nat n mod 10))
                              EmptyString)))
            (seq 0 100) = true) by (vm_compute; reflexivity).
  rewrite forallb_forall in Hall.
  specialize (Hall (Z.to_nat z)).
  rewrite Z2Nat.id in Hall by lia.
  apply String.eqb_eq, Hall, in_seq. lia.
Qed.

Lemma minutes_to_hhmm_int (mins : Z) :
  (0 <= mins < 1440)%Z -> minutes_to_hhmm (PyInt mins) = Ok (hh_mm mins).
Proof.
  intros Hm. unfold minutes_to_hhmm, hh_mm.
  assert (0 <= mins / 60 < 100)%Z.
  { split; [apply Z.div_pos; lia|].
    apply Z.div_lt_upper_bound; lia. }
  assert (0 <= mins mod 60 < 100)%Z.
  { pose proof (Z.mod_pos_bound mins 60). lia. }
  rewrite !format_02d_two_digits by assumption. reflexivity.
Qed.

Lemma run_repeat_is_space {R : Type} (k : string -> option R) (s : string) :
  (forall s', k s' <> None) ->
  run_repeat is_space 0 None s k = k (Str.lstrip s).
Proof.
  intros Hk. induction s as [|c s IH]; simpl; [reflexivity|].
  destruct (is_space c); simpl; [|reflexivity].
  rewrite IH. destruct (k (Str.lstrip s)) eqn:E; [reflexivity|].
  now apply Hk in E.
Qed.

Lemma teacher_prefix_removed (t : string) :
  re_sub_at_start teacher_prefix t = without_O_prefix t.
Proof.
  unfold re_sub_at_start, re_match, teacher_prefix, without_O_prefix,
    Str.startswith.
  destruct t as [|c1 t]; [reflexivity|].
  cbn [run prefix].
  destruct (Ascii.eqb_spec c1 "O") as [->|Hc1].
  2:{ destruct (ascii_dec "O" c1) as [E|_]; [congruence|reflexivity]. }
  destruct (ascii_dec "O" "O") as [_|E]; [|congruence].
  destruct t as [|c2 t]; [reflexivity|].
  cbn [run prefix].
  destruct (Ascii.eqb_spec c2 ":") as [->|Hc2].
  2:{ destruct (ascii_dec ":" c2) as [E|_]; [congruence|reflexivity]. }
  destruct (ascii_dec ":" ":") as [_|E]; [|congruence].
  rewrite run_repeat_is_space by discriminate.
  destruct t; reflexivity.
Qed.

Section LessonFacts.

Context `{Platform}.

Lemma dict_get_found (d : pydict) (key : string) (v default : pyval) :
  dict_lookup d key = Some v -> dict_get d key default = v.
Proof. unfold dict_get. now intros ->. Qed.

(** C5. An event record of the requested date whose [Start] and [End] are
    minutes of a day, and whose [Text], [Opet] and [LongText] are
    dictionaries with a key ["0"], gives the lesson with the two times as
    two-digit hours, colon, two-digit minutes, the subject from [Text],
    the teacher from [Opet] without a leading [O:] and the white space
    after it, and the notes from [LongText]. *)
Theorem lesson_of_event_fields
    (target : string) (ev : pydict) (s e : Z)
    (text opet longtext : pydict) (subj n : pyval) (t : string) :
  dict_lookup ev "Date" = Some (PyStr target) ->
  dict_lookup ev "Start" = Some (PyInt s) -> (0 <= s < 1440)%Z ->
  dict_lookup ev "End" = Some (PyInt e) -> (0 <= e < 1440)%Z ->
  dict_lookup ev "Text" = Some (PyDict text) ->
  dict_lookup text "0" = Some subj ->
  dict_lookup ev "Opet" = Some (PyDict opet) ->
  dict_lookup opet "0" = Some (PyStr t) ->
  dict_lookup ev "LongText" = Some (PyDict longtext) ->
  dict_lookup longtext "0" = Some n ->
  lesson_of_event target (PyDict ev)
  = Ok (Some (mkLesson (hh_mm s) (hh_mm e) subj (PyStr (without_O_prefix t))
                PyNone [] n)).
Proof.
  intros Hd Hs Hsr He Her Ht Ht0 Ho Ho0 Hl Hl0.
  unfold lesson_of_event.
  rewrite (dict_get_found _ _ _ _ Hd), (dict_get_found _ _ _ _ Hs),
    (dict_get_found _ _ _ _ He), (dict_get_found _ _ _ _ Ht),
    (dict_get_found _ _ _ _ Ho), (dict_get_found _ _ _ _ Hl),
    (dict_get_found _ _ _ _ Ht0), (dict_get_found _ _ _ _ Ho0),
    (dict_get_found _ _ _ _ Hl0).
  cbn [ne_str]. rewrite String.eqb_refl. cbn [negb].
  rewrite !minutes_to_hhmm_int by assumption.
  cbn [truthy]. destruct (String.eqb_spec t "") as [->|Hne]; cbn [negb].
  - reflexivity.
  - now rewrite teacher_prefix_removed.
Qed.

End LessonFacts.

(** The scenario of the specification, with notes added. *)
Lemma lesson_of_event_fields_witness :
  lesson_of_event (H := Sample.platform) "08.02.2026"
    (PyDict [("Date", PyStr "08.02.2026"); ("Start", PyInt 510);
             ("End", PyInt 555); ("Text", PyDict [("0", PyStr "Math")]);
             ("LongText", PyDict [("0", PyStr "Bring a compass")]);
             ("Opet", PyDict [("0", PyStr "O: J. Doe")])])
  = Ok (Some (mkLesson "08:30" "09:15" (PyStr "Math") (PyStr "J. Doe")
                PyNone [] (PyStr "Bring a compass"))).
Proof.
  apply (lesson_of_event_fields (H := Sample.platform) "08.02.2026" _ 510 555
           [("0", PyStr "Math")] [("0", PyStr "O: J. Doe")]
           [("0", PyStr "Bring a compass")] (PyStr "Math")
           (PyStr "Bring a compass") "O: J. Doe");
    try reflexivity; lia.
Defined.

(** The scenario of the specification as it stands: no [LongText], so the
    notes are the empty string. *)
Example lesson_of_scenario :
  option_map
    (lesson_of_event (H := Sample.platform) "08.02.2026")
    (Sample.json_loads
       (Sample.dq
          "{'Date':'08.02.2026','Start':510,'End':555,'Text':{'0':'Math'},'Opet':{'0':'O: J. Doe'}}"))
  = Some (Ok (Some (mkLesson "08:30" "09:15" (PyStr "Math") (PyStr "J. Doe")
                      PyNone [] (PyStr "")))).
Proof. vm_compute. reflexivity. Qed.

(** ** The patterns of the user prefix *)

Lemma take_drop_while (p : ascii -> bool) (s : string) :
  take_while p s ++ drop_while p s = s.
Proof.
  induction s as [|c s IH]; simpl; [reflexivity|].
  destruct (p c); simpl; [now rewrite IH | reflexivity].
Qed.

Lemma take_while_all (p : ascii -> bool) (s : string) :
  forallb p (list_ascii_of_string (take_while p s)) = true.
Proof.
  induction s as [|c s IH]; simpl; [reflexivity|].
  destruct (p c) eqn:E; simpl; [now rewrite E | reflexivity].
Qed.

Lemma length_drop_while (p : ascii -> bool) (s : string) :
  length s = length (take_while p s) + length (drop_while p s).
Proof.
  induction s as [|c s IH]; simpl; [reflexivity|].
  destruct (p c); simpl; lia.
Qed.

Lemma substring_prefix (a b : string) :
  substring 0 (length a) (a ++ b) = a.
Proof.
  induction a as [|c a IH]; simpl.
  - apply substring_zero.
  - now rewrite IH.
Qed.

(** One or more of a class, with a continuation that cannot fail: the
    longest run is taken. *)
Lemma run_repeat_some {R : Type} (p : ascii -> bool) (k : string -> option R)
    (s : string) :
  (forall s', k s' <> None) ->
  run_repeat p 1 None s k
  = match s with
    | String c s' => if p c then k (drop_while p s') else None
    | EmptyString => None
    end.
Proof.
  intros Hk. destruct s as [|c s]; simpl; [reflexivity|].
  destruct (p c); simpl; [|reflexivity].
  assert (E : run_repeat p 0 None s k = k (drop_while p s)).
  { clear c. induction s as [|c s IH]; simpl; [reflexivity|].
    destruct (p c); simpl; [|reflexivity].
    rewrite IH. destruct (k (drop_while p s)) eqn:E; [reflexivity|].
    now apply Hk in E. }
  rewrite E. destruct (k (drop_while p s)) eqn:E'; [reflexivity|].
  now apply Hk in E'.
Qed.

Lemma length_app (a b : string) : length (a ++ b) = length a + length b.
Proof.
  induction a as [|c a IH]; simpl; [reflexivity | now rewrite IH].
Qed.

Lemma substring_consumed (a b : string) :
  substring 0 (length (a ++ b) - length b) (a ++ b) = a.
Proof.
  replace (length (a ++ b) - length b) with (length a).
  - apply substring_prefix.
  - rewrite length_app. lia.
Qed.

Lemma prefix_pattern_match (s : string) (g : groups) (rest : string) :
  re_match prefix_pattern s = Some (g, rest) ->
  exists p, g = [(1, p)] /\ prefix_shaped p.
Proof.
  unfold re_match, prefix_pattern. cbn [run].
  destruct s as [|c1 s]; [discriminate|].
  destruct (Ascii.eqb_spec c1 "/") as [->|]; [|discriminate].
  destruct s as [|c2 s]; [discriminate|].
  destruct (Ascii.eqb_spec c2 "!") as [->|]; [|discriminate].
  rewrite run_repeat_some by discriminate.
  destruct s as [|d s]; [discriminate|].
  destruct (is_digit d) eqn:Ed; [|discriminate].
  intros [= <- <-]. exists ("/!" ++ String d (take_while is_digit s)). split.
  - do 2 f_equal.
    pose proof (substring_consumed ("/!" ++ String d (take_while is_digit s))
                  (drop_while is_digit s)) as Hc.
    change (("/!" ++ String d (take_while is_digit s))
              ++ drop_while is_digit s)
      with (String "/" (String "!" (String d
              (take_while is_digit s ++ drop_while is_digit s)))) in Hc.
    rewrite take_drop_while in Hc. exact Hc.
  - exists (String d (take_while is_digit s)). split; [reflexivity|].
    split; [discriminate|].
    simpl. rewrite Ed. apply take_while_all.
Qed.

Lemma prefix_pattern_search (s : string) (g : groups) :
  re_search prefix_pattern s = Some g ->
  exists p, group g 1 = Some p /\ prefix_shaped p.
Proof.
  induction s as [|c s IH]; cbn [re_search].
  - discriminate.
  - destruct (re_match prefix_pattern (String c s)) as [[g' r]|] eqn:E.
    + intros [= <-]. destruct (prefix_pattern_match _ _ _ E) as (p & -> & Hp).
      exists p. auto.
    + exact IH.
Qed.

Lemma run_text {R : Type} (t : string) :
  forall (s : string) (g : groups) (k : string -> groups -> option R),
    run (Text t) s g k
    = if Str.startswith t s then k (Str.skip (length t) s) g else None.
Proof.
  unfold Str.startswith.
  induction t as [|c t IH]; intros s g k.
  - destruct s; reflexivity.
  - destruct s as [|d s]; [reflexivity|].
    cbn [Text run prefix length Str.skip].
    destruct (Ascii.eqb_spec d c) as [->|Hne].
    + destruct (ascii_dec c c) as [_|E]; [|congruence]. apply IH.
    + destruct (ascii_dec c d) as [E|_]; [congruence|reflexivity].
Qed.

Lemma href_prefix_pattern_search (s : string) (g : groups) :
  re_search href_prefix_pattern s = Some g ->
  exists p, group g 1 = Some p /\ prefix_shaped p.
Proof.
  assert (Hm : forall s g rest,
             re_match href_prefix_pattern s = Some (g, rest) ->
             exists p, g = [(1, p)] /\ prefix_shaped p).
  { clear. intros s g rest. unfold re_match, href_prefix_pattern.
    cbn [run]. rewrite run_text.
    destruct (Str.startswith _ s); [|discriminate].
    apply prefix_pattern_match. }
  induction s as [|c s IH]; cbn [re_search].
  - destruct (re_match href_prefix_pattern "") as [[g' r]|] eqn:E;
      [|discriminate].
    intros [= <-]. destruct (Hm _ _ _ E) as (p & -> & Hp). exists p. auto.
  - destruct (re_match href_prefix_pattern (String c s)) as [[g' r]|] eqn:E.
    + intros [= <-]. destruct (Hm _ _ _ E) as (p & -> & Hp). exists p. auto.
    + exact IH.
Qed.

(** ** Logging in *)

Section LoginFacts.

Context `{Platform}.

(** C6. Once the credential POST has returned a response, whatever its
    status, the outcome of [login] depends on the cookie jar alone: without
    a [Wilma2SID] cookie (or with an empty one) it raises [WilmaAuthError];
    with one, the cookie is held as the session id and the user prefix is
    the match of the prefix pattern in the final URL, or failing that the
    match after [href=] and a double quote in the body, and in both cases
    a slash, an exclamation mark and digits; if neither matches, it raises
    [WilmaAuthError]. *)
Theorem login_cookie_then_prefix
    (c : Client) (r0 : Response) (w1 w2 : World) (index_data : pydict)
    (status : Z) (final_url body : string) :
  send (world c) index_request = (Returned r0, w1) ->
  raises_for_status r0 = false ->
  json_loads (resp_text r0) = Some (PyDict index_data) ->
  truthy (dict_get index_data "SessionID" PyNone) = true ->
  send w1 (login_request (username c) (password c)
             (dict_get index_data "SessionID" PyNone))
  = (Returned (mkResponse status final_url body), w2) ->
  let cookie := cookies_get w2 "Wilma2SID" in
  let outcome := fst (login c) in
  let after := snd (login c) in
  _session_id after = cookie /\
  match cookie with
  | None =>
      outcome = Raise (WilmaAuthError "Login failed - no session cookie received")
  | Some sid =>
      if String.eqb sid "" then
        outcome
        = Raise (WilmaAuthError "Login failed - no session cookie received")
      else
        match re_search prefix_pattern final_url,
              re_search href_prefix_pattern body with
        | Some g, _ | None, Some g =>
            outcome = Ok tt /\
            exists p, _user_prefix after = Some p /\ group g 1 = Some p /\
                      prefix_shaped p
        | None, None =>
            outcome
            = Raise (WilmaAuthError
                       "Could not determine user prefix after login")
        end
  end.
Proof.
  intros H0 Hs Hj Ht H1 cookie outcome after.
  subst outcome after cookie.
  unfold login, bind, client_request, get_self, modify, raise.
  rewrite H0. cbn [fst snd]. rewrite Hs, Hj, Ht. cbn [negb].
  cbn [username password world requested]. rewrite H1.
  cbn [world requested resp_url resp_text].
  destruct (cookies_get w2 "Wilma2SID") as [sid|]; [|split; reflexivity].
  destruct (String.eqb sid ""); [split; reflexivity|].
  destruct (re_search prefix_pattern final_url) as [g|] eqn:E1.
  - cbn. split; [reflexivity|]. split; [reflexivity|].
    destruct (prefix_pattern_search _ _ E1) as (p & Hg & Hp).
    exists p. rewrite Hg. auto.
  - destruct (re_search href_prefix_pattern body) as [g|] eqn:E2.
    + cbn. split; [reflexivity|]. split; [reflexivity|].
      destruct (href_prefix_pattern_search _ _ E2) as (p & Hg & Hp).
      exists p. rewrite Hg. auto.
    + split; reflexivity.
Qed.

End LoginFacts.

(** A login whose POST is answered with status 500 but leaves the cookie:
    the session is established and the prefix comes from the final URL. *)
Lemma login_cookie_then_prefix_witness :
  let w :=
    Sample.mkScript
      [(Sample.page "https://school.inschool.fi/index_json"
          (Sample.dq "{'SessionID':'abc'}"), None);
       (Returned (mkResponse 500 "https://school.inschool.fi/!0411876/" ""),
        Some "xyz")]
      None [] in
  let c := Sample.client None None w in
  fst (login c) = Ok tt /\
  _session_id (snd (login c)) = Some "xyz" /\
  _user_prefix (snd (login c)) = Some "/!0411876".
Proof.
  intros w c.
  pose proof (login_cookie_then_prefix (H := Sample.platform) c
                (mkResponse 200 "https://school.inschool.fi/index_json"
                   (Sample.dq "{'SessionID':'abc'}"))
                (Sample.mkScript
                   [(Returned (mkResponse 500
                        "https://school.inschool.fi/!0411876/" ""),
                     Some "xyz")] None [])
                (Sample.mkScript [] (Some "xyz") [])
                [("SessionID", PyStr "abc")]
                500 "https://school.inschool.fi/!0411876/" ""
                eq_refl eq_refl eq_refl eq_refl eq_refl) as T.
  cbv zeta in T. destruct T as [Hsid T].
  split; [|split; [exact Hsid|]]; vm_compute; reflexivity.
Defined.

(** ** The dispatcher on an expired session *)

Section DispatchFacts.

Context `{Platform}.

(** What [login] adds to the journal: the bootstrap GET, and the
    credential POST when the bootstrap gave a token. *)
Lemma login_journal (c : Client) :
  sent (snd (login c)) = (sent c ++ [index_request])%list \/
  exists token,
    sent (snd (login c))
    = (sent c ++ [index_request;
                  login_request (username c) (password c) token])%list.
Proof.
  unfold login, bind, client_request, get_self, modify, raise.
  destruct (send (world c) index_request) as [[|r0] w1]; cbn [fst snd].
  { left. reflexivity. }
  destruct (raises_for_status r0); [left; reflexivity|].
  destruct (json_loads (resp_text r0)) as [[| | | | | |d]|];
    try (left; reflexivity).
  destruct (truthy (dict_get d "SessionID" PyNone)); cbn [negb];
    [|left; reflexivity].
  right. exists (dict_get d "SessionID" PyNone).
  cbn [username password world requested].
  destruct (send w1 _) as [[|r] w2]; cbn [sent snd requested world].
  { now rewrite <- app_assoc. }
  destruct (cookies_get w2 "Wilma2SID") as [v|]; cbn.
  2:{ now rewrite <- app_assoc. }
  destruct (String.eqb v ""); cbn; [now rewrite <- app_assoc|].
  destruct (re_search prefix_pattern (resp_url r)); cbn;
    [now rewrite <- app_assoc|].
  destruct (re_search href_prefix_pattern (resp_text r)); cbn;
    now rewrite <- app_assoc.
Qed.

(** C2, as the code has it. When a session is held and the response to a
    request comes from a URL containing [/login], the dispatcher drops the
    session id (the prefix stays), runs [login] once, and sends the same
    request once more (the journal gains the request, the one or two
    requests of [login], and the request again).  An error of [login]
    goes to the caller; so does a
    transport failure of the second request, as [WilmaAPIError]; and the
    second response is returned as it is, whatever its URL: a second
    expiry is neither retried nor raised. *)
Theorem expired_session_retries_once
    (c : Client) (method path : string) (data : option pydict)
    (headers : list (string * string)) (sid pfx : string)
    (r1 : Response) (w1 : World) :
  _session_id c = Some sid ->
  _user_prefix c = Some pfx ->
  let rq := mkRequest method (request_path (Some pfx) path) data headers in
  send (world c) rq = (Returned r1, w1) ->
  Str.contains "/login" (Str.lower (resp_url r1)) = true ->
  let cleared := set_session_id None (requested rq w1 c) in
  _session_id cleared = None /\ _user_prefix cleared = Some pfx /\
  (exists journal,
     sent (snd (login cleared)) = (sent c ++ rq :: journal)%list /\
     (journal = [index_request] \/
      exists token,
        journal = [index_request;
                   login_request (username c) (password c) token])) /\
  (forall e c2,
     login cleared = (Raise e, c2) ->
     _request method path data headers c = (Raise e, c2)) /\
  (forall c2 r2 w3,
     login cleared = (Ok tt, c2) ->
     send (world c2) rq = (Returned r2, w3) ->
     _request method path data headers c = (Ok r2, requested rq w3 c2)) /\
  (forall c2 w3,
     login cleared = (Ok tt, c2) ->
     send (world c2) rq = (HTTPError, w3) ->
     _request method path data headers c
     = (Raise (WilmaAPIError
                 ("Request to " ++ request_path (Some pfx) path ++ " failed")),
        requested rq w3 c2)).
Proof.
  intros Hsid Hpfx rq Hsend Hexp cleared.
  assert (Hrun : _request method path data headers c
                 = match login cleared with
                   | (Ok _, c2) =>
                       match send (world c2) rq with
                       | (Returned r2, w3) => (Ok r2, requested rq w3 c2)
                       | (HTTPError, w3) =>
                           (Raise (WilmaAPIError
                                     ("Request to "
                                        ++ request_path (Some pfx) path
                                        ++ " failed")),
                            requested rq w3 c2)
                       end
                   | (Raise e, c2) => (Raise e, c2)
                   end).
  { unfold _request, _ensure_authenticated, bind, get_self, ret.
    rewrite Hsid, Hpfx. unfold client_request at 1. rewrite !Hpfx. fold rq.
    rewrite Hsend, Hexp. unfold modify. fold cleared.
    destruct (login cleared) as [[[]|e] c2]; [|reflexivity].
    unfold client_request. destruct (send (world c2) rq) as [[|r2] w3];
      reflexivity. }
  split; [reflexivity|]. split; [exact Hpfx|].
  split; [|split; [|split]].
  - destruct (login_journal cleared) as [Hj|[token Hj]].
    + exists [index_request]. split; [|now left].
      rewrite Hj. cbn [cleared set_session_id requested sent].
      now rewrite <- app_assoc.
    + exists [index_request; login_request (username c) (password c) token].
      split; [|right; now exists token].
      rewrite Hj. cbn [cleared set_session_id requested sent username password].
      now rewrite <- app_assoc.
  - intros e c2 Hl. now rewrite Hrun, Hl.
  - intros c2 r2 w3 Hl Hs. now rewrite Hrun, Hl, Hs.
  - intros c2 w3 Hl Hs. now rewrite Hrun, Hl, Hs.
Qed.

End DispatchFacts.

(** The claim fails where the retried request is answered with the login
    page again: the dispatcher returns that page as its result, after
    exactly four requests, and raises nothing. *)
Lemma second_expiry_is_returned :
  fst (_request "GET" "/messages/list/index_json" None []
         (Sample.client (Some "stale") (Some "/!0411876")
            Sample.expires_twice))
  = Ok (mkResponse 200
          "https://school.inschool.fi/login?returnpath=%2Fmessages"
          "<html><title>Wilma</title></html>") /\
  sent (snd (_request "GET" "/messages/list/index_json" None []
               (Sample.client (Some "stale") (Some "/!0411876")
                  Sample.expires_twice)))
  = [Sample.messages_request; index_request;
     login_request "pupil" "secret" (PyStr "abc"); Sample.messages_request].
Proof. vm_compute. split; reflexivity. Qed.

(** The same run, read through the theorem. *)
Lemma expired_session_retries_once_witness :
  let c := Sample.client (Some "stale") (Some "/!0411876")
             Sample.expires_twice in
  exists r2 c',
    _request "GET" "/messages/list/index_json" None [] c = (Ok r2, c') /\
    Str.contains "/login" (Str.lower (resp_url r2)) = true.
Proof.
  intros c.
  pose proof (expired_session_retries_once (H := Sample.platform) c
                "GET" "/messages/list/index_json" None [] "stale" "/!0411876"
                (mkResponse 200
                   "https://school.inschool.fi/login?returnpath=%2Fmessages"
                   "<html><title>Wilma</title></html>")
                (Sample.mkScript
                   (Sample.login_replies
                      ++ [(Sample.login_page, Some "fresh")])
                   (Some "stale") [])
                eq_refl eq_refl eq_refl eq_refl) as T.
  cbv zeta in T. destruct T as (_ & _ & _ & _ & Hretry & _).
  specialize (Hretry
    (mkClient (H := Sample.platform) "pupil" "secret" (Some "fresh")
       (Some "/!0411876")
       (Sample.mkScript [(Sample.login_page, Some "fresh")] (Some "fresh") [])
       [Sample.messages_request; index_request;
        login_request "pupil" "secret" (PyStr "abc")])
    (mkResponse 200
       "https://school.inschool.fi/login?returnpath=%2Fmessages"
       "<html><title>Wilma</title></html>")
    (Sample.mkScript [] (Some "fresh") [])).
  eexists. eexists. split.
  - apply Hretry; reflexivity.
  - vm_compute. reflexivity.
Defined.

(** ** Which parsing failures are raised *)


Lemma scan_brackets_sound (rest : string) :
  forall (i : nat) (count : Z) (e : nat),
    scan_brackets rest i count = Some e ->
    exists n, 0 < n /\ e = i + n /\
              (count + depth (substring 0 n rest))%Z = 0%Z.
Proof.
  induction rest as [|c rest IH]; intros i count e; [discriminate|].
  assert (Hmore : forall count',
             count' = (count + bracket_delta c)%Z ->
             scan_brackets rest (S i) count' = Some e ->
             exists n, 0 < n /\ e = i + n /\
               (count + depth (substring 0 n (String c rest)))%Z = 0%Z).
  { intros count' -> Hs. destruct (IH _ _ _ Hs) as (n & Hn & -> & Hz).
    exists (S n). split; [lia|]. split; [lia|].
    simpl substring. rewrite depth_cons. lia. }
  cbn [scan_brackets]. unfold bracket_delta in Hmore.
  destruct (Ascii.eqb c "[") eqn:Eo.
  - apply Hmore. reflexivity.
  - destruct (Ascii.eqb c "]") eqn:Ec.
    + cbv zeta. destruct (Z.eqb_spec (count - 1) 0) as [Hz|Hnz].
      * intros [= <-]. exists 1. split; [lia|]. split; [reflexivity|].
        simpl substring. rewrite substring_zero, depth_cons.
        unfold bracket_delta. rewrite Eo, Ec. simpl depth. lia.
      * apply Hmore. lia.
    + apply Hmore. lia.
Qed.





Section FailureFacts.

Context `{Platform}.


End FailureFacts.



(** ** What sending returns *)

Section SendFacts.

Context `{Platform}.

Lemma judge_sent_true (what : string) (response : Response) (c c' : Client)
    (b : bool) :
  judge_sent what response c = (Ok b, c') -> b = true.
Proof.
  unfold judge_sent, ret, raise.
  destruct (Str.contains "messages" _); [now intros [= <- _]|].
  destruct (_ || _); [discriminate | now intros [= <- _]].
Qed.

Lemma judge_sent_raises (what : string) (response : Response) (c c' : Client)
    (e : exn) :
  judge_sent what response c = (Raise e, c') -> exists msg, e = WilmaAPIError msg.
Proof.
  unfold judge_sent, ret, raise.
  destruct (Str.contains "messages" _); [discriminate|].
  destruct (_ || _); [|discriminate].
  intros [= <- _]. eexists. reflexivity.
Qed.

Lemma judge_sent_quiet (what : string) (response : Response) (c : Client) :
  Str.contains "messages" (Str.lower (resp_url response)) = false ->
  Str.contains "error" (Str.lower (resp_text response)) = false ->
  Str.contains "virhe" (Str.lower (resp_text response)) = false ->
  judge_sent what response c = (Ok true, c).
Proof.
  unfold judge_sent. now intros -> -> ->.
Qed.

Lemma judge_sent_listed (what : string) (response : Response) (c : Client) :
  Str.contains "messages" (Str.lower (resp_url response)) = true ->
  judge_sent what response c = (Ok true, c).
Proof.
  unfold judge_sent. now intros ->.
Qed.

Lemma judge_sent_error (what : string) (response : Response) (c : Client) :
  Str.contains "messages" (Str.lower (resp_url response)) = false ->
  Str.contains "error" (Str.lower (resp_text response)) = true \/
  Str.contains "virhe" (Str.lower (resp_text response)) = true ->
  judge_sent what response c
  = (Raise (WilmaAPIError
              ("Failed to send " ++ what ++ " - server returned an error")),
     c).
Proof.
  unfold judge_sent. intros -> [->| ->]; [reflexivity|].
  now rewrite orb_true_r.
Qed.

(** A bootstrap document that decodes to a value other than an object:
    [login] raises the [AttributeError] of calling [get] on it, after its
    one call of the HTTP client. *)
Lemma login_attribute_error (c : Client) (r0 : Response) (w1 : World)
    (v : pyval) :
  send (world c) index_request = (Returned r0, w1) ->
  raises_for_status r0 = false ->
  json_loads (resp_text r0) = Some v ->
  (forall d, v <> PyDict d) ->
  login c = (Raise AttributeError, requested index_request w1 c).
Proof.
  intros H0 Hs Hj Hv.
  unfold login, bind, client_request, raise. rewrite H0, Hs, Hj.
  destruct v as [| | | | | |d]; try reflexivity.
  now contradiction (Hv d).
Qed.

Lemma request_attribute_error (method path : string) (data : option pydict)
    (headers : list (string * string)) (c : Client) (r0 : Response)
    (w1 : World) (v : pyval) :
  _session_id c = None ->
  send (world c) index_request = (Returned r0, w1) ->
  raises_for_status r0 = false ->
  json_loads (resp_text r0) = Some v ->
  (forall d, v <> PyDict d) ->
  _request method path data headers c
  = (Raise AttributeError, requested index_request w1 c).
Proof.
  intros Hn H0 Hs Hj Hv.
  unfold _request, _ensure_authenticated, bind at 1.
  unfold bind at 1, get_self. rewrite Hn.
  now rewrite (login_attribute_error c r0 w1 v H0 Hs Hj Hv).
Qed.

(** C9, as the code has it. A call of [send_message] or
    [reply_to_message] that returns, returns [True]: no run ends in
    [False].  Once the two calls of the dispatcher have returned, the
    response to the POST decides: a final URL that contains [messages]
    gives [True]; otherwise a body that contains [error] or [virhe]
    raises [WilmaAPIError], and a body with neither gives [True].  But a
    failure does not always show as [WilmaAPIError] or [WilmaAuthError]:
    when no session is held and the bootstrap document decodes to a JSON
    value that is not an object, both functions end in the
    [AttributeError] that [login] does not catch. *)
Theorem sending_returns_true
    (recipient_ids : list string) (subject body message_id : string)
    (reply_to_id : option string) (c : Client) :
  (forall b c', send_message recipient_ids subject body reply_to_id c
                = (Ok b, c') -> b = true) /\
  (forall b c', reply_to_message message_id body c = (Ok b, c') -> b = true) /\
  (forall compose c1 response c2,
     _request "GET" "/messages/compose" None [] c = (Ok compose, c1) ->
     _request "POST" "/messages/compose"
       (Some (compose_data
                match find_formkey (resp_text compose) with
                | Some k => k
                | None => ""
                end recipient_ids subject body reply_to_id))
       form_urlencoded c1 = (Ok response, c2) ->
     let sent_it := send_message recipient_ids subject body reply_to_id c in
     let listed := Str.contains "messages" (Str.lower (resp_url response)) in
     let error := Str.contains "error" (Str.lower (resp_text response)) in
     let virhe := Str.contains "virhe" (Str.lower (resp_text response)) in
     (listed = true -> sent_it = (Ok true, c2)) /\
     (listed = false -> error = true \/ virhe = true ->
      sent_it
      = (Raise (WilmaAPIError
                  "Failed to send message - server returned an error"), c2)) /\
     (listed = false -> error = false -> virhe = false ->
      sent_it = (Ok true, c2))) /\
  (forall compose c1 formkey response c2,
     _request "GET" ("/messages/compose?answer=" ++ message_id) None [] c
     = (Ok compose, c1) ->
     find_formkey (resp_text compose) = Some formkey ->
     _request "POST" (reply_post_url (soup_find_form (resp_text compose)))
       (Some (reply_data (soup_find_form (resp_text compose)) formkey
                message_id body))
       form_urlencoded c1 = (Ok response, c2) ->
     let replied := reply_to_message message_id body c in
     let listed := Str.contains "messages" (Str.lower (resp_url response)) in
     let error := Str.contains "error" (Str.lower (resp_text response)) in
     let virhe := Str.contains "virhe" (Str.lower (resp_text response)) in
     (listed = true -> replied = (Ok true, c2)) /\
     (listed = false -> error = true \/ virhe = true ->
      replied
      = (Raise (WilmaAPIError
                  "Failed to send reply - server returned an error"), c2)) /\
     (listed = false -> error = false -> virhe = false ->
      replied = (Ok true, c2))) /\
  (forall r0 w1 v,
     _session_id c = None ->
     send (world c) index_request = (Returned r0, w1) ->
     raises_for_status r0 = false ->
     json_loads (resp_text r0) = Some v ->
     (forall d, v <> PyDict d) ->
     send_message recipient_ids subject body reply_to_id c
     = (Raise AttributeError, requested index_request w1 c) /\
     reply_to_message message_id body c
     = (Raise AttributeError, requested index_request w1 c)).
Proof.
  split; [|split; [|split; [|split]]].
  - intros b c'. unfold send_message, bind.
    destruct (_request "GET" _ _ _ c) as [[compose|e] c1]; [|discriminate].
    destruct (_request "POST" _ _ _ c1) as [[response|e] c2]; [|discriminate].
    apply judge_sent_true.
  - intros b c'. unfold reply_to_message, bind.
    destruct (_request "GET" _ _ _ c) as [[compose|e] c1]; [|discriminate].
    destruct (find_formkey (resp_text compose)) as [formkey|]; [|discriminate].
    destruct (_request "POST" _ _ _ c1) as [[response|e] c2]; [|discriminate].
    apply judge_sent_true.
  - intros compose c1 response c2 Hget Hpost sent_it listed error virhe.
    assert (E : sent_it = judge_sent "message" response c2).
    { subst sent_it. unfold send_message, bind. now rewrite Hget, Hpost. }
    rewrite E. subst listed error virhe. split; [|split].
    + apply judge_sent_listed.
    + apply (judge_sent_error "message").
    + apply judge_sent_quiet.
  - intros compose c1 formkey response c2 Hget Hk Hpost replied listed error
      virhe.
    assert (E : replied = judge_sent "reply" response c2).
    { subst replied. unfold reply_to_message, bind.
      now rewrite Hget, Hk, Hpost. }
    rewrite E. subst listed error virhe. split; [|split].
    + apply judge_sent_listed.
    + apply (judge_sent_error "reply").
    + apply judge_sent_quiet.
  - intros r0 w1 v Hn H0 Hs Hj Hv. split.
    + unfold send_message, bind.
      now rewrite (request_attribute_error _ _ _ _ c r0 w1 v Hn H0 Hs Hj Hv).
    + unfold reply_to_message, bind.
      now rewrite (request_attribute_error _ _ _ _ c r0 w1 v Hn H0 Hs Hj Hv).
Qed.

End SendFacts.

(** A portal whose bootstrap document is an empty JSON array: sending and
    replying end in [AttributeError]. *)
Lemma sending_returns_true_witness :
  let c := Sample.client None None
             (Sample.mkScript
                [(Sample.page "https://school.inschool.fi/index_json" "[]",
                  None)]
                None []) in
  fst (send_message ["42"] "Hello" "See you on Monday" None c)
  = Raise AttributeError /\
  fst (reply_to_message "7" "Thank you" c) = Raise AttributeError.
Proof.
  intros c.
  destruct (sending_returns_true (H := Sample.platform) ["42"] "Hello"
              "See you on Monday" "7" None c)
    as (_ & _ & _ & _ & Hbug).
  destruct (Hbug
              (mkResponse 200 "https://school.inschool.fi/index_json" "[]")
              (Sample.mkScript [] None []) (PyList [])
              eq_refl eq_refl eq_refl eq_refl
              ltac:(discriminate)) as [Hsend Hreply].
  split.
  - exact (f_equal fst Hsend).
  - exact (f_equal fst Hreply).
Defined.

(** A send the portal did not accept, and did not call an error: the
    result is [True]. *)
Example quiet_rejection_returns_true :
  fst (send_message ["42"] "Hello" "See you on Monday" None
         (Sample.client (Some "sid") (Some "/!0411876")
            Sample.compose_rejected_quietly))
  = Ok true.
Proof. vm_compute. reflexivity. Qed.

(** ** Listing messages *)

Section MessageFacts.

Context `{Platform}.

Lemma message_of_item_folder (folder : string) (item : pyval)
    (c c' : Client) (m : MessageSummary) :
  message_of_item folder item c = (Ok m, c') -> folder_of_item folder item m.
Proof.
  unfold message_of_item, bind, ret, raise.
  destruct item as [| | | | | |d]; try discriminate.
  destruct (dict_get d "TimeStamp" (PyStr "")) as [| | | |s| |];
    try discriminate.
  intros Hm. exists d. split; [reflexivity|].
  destruct (strptime s "%Y-%m-%d %H:%M") as [t|].
  - injection Hm as <- _. reflexivity.
  - destruct (datetime_now c) as [[t|e] c1]; [|discriminate].
    injection Hm as <- _. reflexivity.
Qed.

Lemma messages_of_items_folder (folder : string) (items : list pyval) :
  forall c c' msgs,
    messages_of_items folder items c = (Ok msgs, c') ->
    Forall2 (folder_of_item folder) items msgs.
Proof.
  induction items as [|item items IH]; intros c c' msgs; cbn [messages_of_items].
  - unfold ret. intros [= <- _]. constructor.
  - unfold bind at 1.
    destruct (message_of_item folder item c) as [[m|e] c1] eqn:Em;
      [|discriminate].
    unfold bind at 1.
    destruct (messages_of_items folder items c1) as [[ms|e] c2] eqn:Ems;
      [|discriminate].
    unfold ret. intros [= <- _]. constructor.
    + exact (message_of_item_folder _ _ _ _ _ Em).
    + exact (IH _ _ _ Ems).
Qed.

(** The folder does not reach the world: the state after a turn of the
    loop, and whether it raised, are the same for two folders. *)
Lemma message_of_item_state (f1 f2 : string) (item : pyval) (c : Client) :
  snd (message_of_item f1 item c) = snd (message_of_item f2 item c) /\
  match fst (message_of_item f1 item c), fst (message_of_item f2 item c) with
  | Ok _, Ok _ => True
  | Raise e1, Raise e2 => e1 = e2
  | _, _ => False
  end.
Proof.
  unfold message_of_item, bind, ret, raise.
  destruct item as [| | | | | |d]; try (split; reflexivity).
  destruct (dict_get d "TimeStamp" (PyStr "")) as [| | | |s| |];
    try (split; reflexivity).
  destruct (strptime s "%Y-%m-%d %H:%M") as [t|]; [split; [reflexivity|exact I]|].
  destruct (datetime_now c) as [[t|e] c1]; split; try reflexivity; exact I.
Qed.

Lemma messages_of_items_state (f1 f2 : string) (items : list pyval) :
  forall c,
    snd (messages_of_items f1 items c) = snd (messages_of_items f2 items c).
Proof.
  induction items as [|item items IH]; intros c; cbn [messages_of_items].
  - reflexivity.
  - unfold bind at 1 3.
    destruct (message_of_item_state f1 f2 item c) as [Hs Hr].
    destruct (message_of_item f1 item c) as [[m1|e1] c1],
             (message_of_item f2 item c) as [[m2|e2] c2];
      cbn [fst snd] in *; try contradiction; subst; [|reflexivity].
    unfold bind, ret. specialize (IH c2).
    destruct (messages_of_items f1 items c2) as [[ms1|e1] c3],
             (messages_of_items f2 items c2) as [[ms2|e2] c4];
      cbn [snd] in *; assumption.
Qed.

(** Parsing the list sends nothing. *)
Lemma message_of_item_journal (folder : string) (item : pyval) (c : Client) :
  sent (snd (message_of_item folder item c)) = sent c.
Proof.
  unfold message_of_item, bind, ret, raise.
  destruct item as [| | | | | |d]; try reflexivity.
  destruct (dict_get d "TimeStamp" (PyStr "")) as [| | | |s| |];
    try reflexivity.
  destruct (strptime s "%Y-%m-%d %H:%M") as [t|]; [reflexivity|].
  unfold datetime_now. destruct (clock_now (world c)) as [t w]. reflexivity.
Qed.

Lemma messages_of_items_journal (folder : string) (items : list pyval) :
  forall c, sent (snd (messages_of_items folder items c)) = sent c.
Proof.
  induction items as [|item items IH]; intros c; cbn [messages_of_items].
  - reflexivity.
  - unfold bind at 1.
    pose proof (message_of_item_journal folder item c) as Hm.
    destruct (message_of_item folder item c) as [[m|e] c1]; cbn [snd] in Hm;
      [|exact Hm].
    unfold bind, ret. specialize (IH c1).
    destruct (messages_of_items folder items c1) as [[ms|e] c2];
      cbn [snd] in *; congruence.
Qed.

Lemma parse_messages_json_journal (data : pyval) (folder : string) (limit : Z)
    (c : Client) :
  sent (snd (_parse_messages_json data folder limit c)) = sent c.
Proof.
  unfold _parse_messages_json, raise.
  destruct data as [| | | | | |d]; try reflexivity.
  destruct (sliced_items _ limit) as [items|e]; [|reflexivity].
  apply messages_of_items_journal.
Qed.

(** C10. Whatever the folder, [get_messages] leaves the client and the
    world in the same state, the journal of requests included: it asks
    for [/messages/list/index_json] under the user prefix.  And each
    summary it returns carries the [Folder] of its item of the decoded
    list when the item has one, and the folder argument otherwise. *)
Theorem get_messages_folder_is_a_label
    (folder : string) (limit : Z) (c : Client) :
  (forall other,
     snd (get_messages folder limit c) = snd (get_messages other limit c)) /\
  (forall sid pfx,
     _session_id c = Some sid -> _user_prefix c = Some pfx ->
     exists more,
       sent (snd (get_messages folder limit c))
       = (sent c
            ++ mkRequest "GET" (pfx ++ "/messages/list/index_json") None []
            :: more)%list) /\
  (forall msgs c',
     get_messages folder limit c = (Ok msgs, c') ->
     exists response c1 data items,
       _request "GET" "/messages/list/index_json" None [] c
       = (Ok response, c1) /\
       json_loads (resp_text response) = Some (PyDict data) /\
       sliced_items (dict_get data "Messages" (PyList [])) limit = Ok items /\
       Forall2 (folder_of_item folder) items msgs).
Proof.
  split; [|split].
  - intros other. unfold get_messages, bind.
    destruct (_request "GET" _ _ _ c) as [[response|e] c1]; [|reflexivity].
    destruct (json_loads (resp_text response)) as [data|]; [|reflexivity].
    unfold _parse_messages_json.
    destruct data as [| | | | | |d]; try reflexivity.
    destruct (sliced_items _ limit) as [items|e]; [|reflexivity].
    apply messages_of_items_state.
  - intros sid pfx Hsid Hpfx.
    assert (Hreq : exists more,
               sent (snd (_request "GET" "/messages/list/index_json" None [] c))
               = (sent c
                    ++ mkRequest "GET" (pfx ++ "/messages/list/index_json")
                         None [] :: more)%list).
    { unfold _request, _ensure_authenticated, bind, get_self, ret.
      rewrite Hsid, Hpfx. unfold client_request at 1. rewrite !Hpfx.
      change (request_path (Some pfx) "/messages/list/index_json")
        with (pfx ++ "/messages/list/index_json").
      set (rq := mkRequest "GET" (pfx ++ "/messages/list/index_json") None []).
      destruct (send (world c) rq) as [[|r1] w1].
      { exists []. reflexivity. }
      destruct (Str.contains "/login" _); [|exists []; reflexivity].
      unfold modify.
      set (cleared := set_session_id None (requested rq w1 c)).
      destruct (login_journal cleared) as [Hj|[token Hj]];
        destruct (login cleared) as [[[]|e] c2]; cbn [snd] in Hj.
      - unfold client_request. destruct (send (world c2) rq) as [[|r2] w3];
          cbn [snd requested sent raise]; rewrite Hj;
          cbn [cleared set_session_id requested sent];
          rewrite <- !app_assoc; eexists; reflexivity.
      - cbn [snd]. rewrite Hj. cbn [cleared set_session_id requested sent].
        rewrite <- !app_assoc; eexists; reflexivity.
      - unfold client_request. destruct (send (world c2) rq) as [[|r2] w3];
          cbn [snd requested sent raise]; rewrite Hj;
          cbn [cleared set_session_id requested sent];
          rewrite <- !app_assoc; eexists; reflexivity.
      - cbn [snd]. rewrite Hj. cbn [cleared set_session_id requested sent].
        rewrite <- !app_assoc; eexists; reflexivity. }
    destruct Hreq as [more Hreq]. exists more.
    unfold get_messages, bind.
    destruct (_request "GET" _ _ _ c) as [[response|e] c1]; [|exact Hreq].
    cbn [snd] in Hreq.
    destruct (json_loads (resp_text response)) as [data|]; [|exact Hreq].
    now rewrite parse_messages_json_journal.
  - intros msgs c'. unfold get_messages, bind.
    destruct (_request "GET" _ _ _ c) as [[response|e] c1]; [|discriminate].
    destruct (json_loads (resp_text response)) as [data|] eqn:Ej;
      [|discriminate].
    unfold _parse_messages_json.
    destruct data as [| | | | | |d]; try discriminate.
    destruct (sliced_items _ limit) as [items|e] eqn:Es; [|discriminate].
    intros Hm. exists response, c1, d, items.
    split; [reflexivity|]. split; [exact Ej|]. split; [exact Es|].
    exact (messages_of_items_folder _ _ _ _ _ Hm).
Qed.

End MessageFacts.

(** Two items listed as the archive: the first takes the label of the
    call, the second keeps its own folder. *)
Lemma get_messages_folder_is_a_label_witness :
  exists msgs,
    fst (get_messages "archive" 20
           (Sample.client (Some "sid") (Some "/!0411876")
              Sample.lists_two_messages))
    = Ok msgs /\
    map ms_folder msgs = [PyStr "archive"; PyStr "sent"] /\
    exists items, Forall2 (folder_of_item "archive") items msgs.
Proof.
  destruct (get_messages "archive" 20
              (Sample.client (Some "sid") (Some "/!0411876")
                 Sample.lists_two_messages)) as [outcome c'] eqn:E.
  assert (Hout : fst (get_messages "archive" 20
                        (Sample.client (Some "sid") (Some "/!0411876")
                           Sample.lists_two_messages))
                 = Ok [mkMessageSummary "7" (PyStr "Hi") (PyStr "Admin")
                         (mkdatetime 2026 2 8 11 42 0 0) false
                         (PyStr "archive");
                       mkMessageSummary "8" (PyStr "Re: Hi") (PyStr "Me")
                         (mkdatetime 2026 2 8 12 0 0 0) true (PyStr "sent")])
    by (vm_compute; reflexivity).
  rewrite E in Hout. cbn [fst] in Hout. subst outcome.
  eexists. split; [reflexivity|]. split; [reflexivity|].
  destruct (get_messages_folder_is_a_label (H := Sample.platform)
              "archive" 20
              (Sample.client (Some "sid") (Some "/!0411876")
                 Sample.lists_two_messages)) as (_ & _ & Hfolders).
  destruct (Hfolders _ _ E) as (_ & _ & _ & items & _ & _ & _ & HF).
  exists items. exact HF.
Defined.

(** ** Parsing twice *)

Section ClockFacts.

Context `{Platform}.

Lemma try_formats_year (now1 now2 : datetime) (s : string)
    (formats : list string) :
  dt_year now1 = dt_year now2 ->
  try_formats now1 s formats = try_formats now2 s formats.
Proof.
  intros Hy. induction formats as [|fmt formats IH]; simpl; [reflexivity|].
  rewrite Hy, IH. reflexivity.
Qed.

Lemma messages_of_items_clock_free (folder : string) (items : list pyval) :
  Forall timestamp_parses items ->
  forall c1 c2,
    fst (messages_of_items folder items c1)
    = fst (messages_of_items folder items c2).
Proof.
  induction 1 as [|item items Hitem _ IH]; intros c1 c2;
    cbn [messages_of_items]; [reflexivity|].
  assert (Hm : (exists e, forall c, message_of_item folder item c = (Raise e, c))
               \/ (exists m, forall c, message_of_item folder item c = (Ok m, c))).
  { unfold message_of_item, bind, ret, raise.
    destruct item as [| | | | | |d]; try (left; eexists; reflexivity).
    destruct (dict_get d "TimeStamp" (PyStr "")) as [| | | |s| |] eqn:Ets;
      try (left; eexists; reflexivity).
    specialize (Hitem d s eq_refl Ets).
    destruct (strptime s "%Y-%m-%d %H:%M") as [t|]; [|congruence].
    right. eexists. reflexivity. }
  unfold bind at 1 3. destruct Hm as [[e Hm]|[m Hm]]; rewrite !Hm.
  - reflexivity.
  - unfold bind, ret. specialize (IH c1 c2).
    destruct (messages_of_items folder items c1) as [[ms1|e1] c1'],
             (messages_of_items folder items c2) as [[ms2|e2] c2'];
      cbn [fst] in *; congruence.
Qed.

(** C7, as the code has it. Parsing reads no state but the clock, and the
    clock only where a time stamp gives out.  The markup time stamp parser
    gives the same result under two clock readings of the same year,
    unless it answers with the clock reading itself; and the message list
    parser gives the same result in any two states of the client and the
    world when the time stamp of every listed item parses. *)
Theorem parsing_twice_differs_only_by_clock :
  (forall now1 now2 timestamp_str,
     dt_year now1 = dt_year now2 ->
     _parse_finnish_timestamp now1 timestamp_str
     = _parse_finnish_timestamp now2 timestamp_str \/
     (_parse_finnish_timestamp now1 timestamp_str = Ok now1 /\
      _parse_finnish_timestamp now2 timestamp_str = Ok now2)) /\
  (forall data folder limit c1 c2,
     (forall d items,
        data = PyDict d ->
        sliced_items (dict_get d "Messages" (PyList [])) limit = Ok items ->
        Forall timestamp_parses items) ->
     fst (_parse_messages_json data folder limit c1)
     = fst (_parse_messages_json data folder limit c2)).
Proof.
  split.
  - intros now1 now2 s Hy. unfold _parse_finnish_timestamp.
    destruct (String.eqb s ""); [right; split; reflexivity|].
    rewrite (try_formats_year now1 now2 _ _ Hy).
    destruct (try_formats now2 (Str.strip s) finnish_formats) as [t|];
      [left; reflexivity|].
    destruct (re_search date_pattern (Str.strip s)) as [dm|];
      [|right; split; reflexivity].
    left. rewrite Hy. reflexivity.
  - intros data folder limit c1 c2 Hall. unfold _parse_messages_json, raise.
    destruct data as [| | | | | |d]; try reflexivity.
    destruct (sliced_items _ limit) as [items|e] eqn:Es; [|reflexivity].
    apply messages_of_items_clock_free. exact (Hall d items eq_refl Es).
Qed.

End ClockFacts.

(** The claim fails on a list item whose time stamp does not parse: the
    same payload parsed twice, one run after the other, gives summaries
    that differ in their time. *)
Lemma same_payload_parsed_twice_differs :
  let first_run :=
    _parse_messages_json Sample.undated_message "inbox" 20
      (Sample.client None None Sample.ticking) in
  let second_run :=
    _parse_messages_json Sample.undated_message "inbox" 20 (snd first_run) in
  fst first_run
  = Ok [mkMessageSummary "7" (PyStr "Hi") (PyStr "") Sample.noon false
          (PyStr "inbox")] /\
  fst second_run
  = Ok [mkMessageSummary "7" (PyStr "Hi") (PyStr "") Sample.one_past_noon
          false (PyStr "inbox")] /\
  fst first_run <> fst second_run.
Proof.
  cbv zeta. split; [vm_compute; reflexivity|].
  split; [vm_compute; reflexivity|]. vm_compute. discriminate.
Qed.

(** A time stamp without a year under two readings of one year, and a
    list whose time stamps parse in two different worlds. *)
Lemma parsing_twice_differs_only_by_clock_witness :
  _parse_finnish_timestamp (H := Sample.platform) Sample.noon "15.3. 14:30"
  = _parse_finnish_timestamp (H := Sample.platform) Sample.one_past_noon
      "15.3. 14:30" /\
  fst (_parse_messages_json
         (PyDict [("Messages",
                   PyList [PyDict [("Id", PyInt 7);
                                   ("TimeStamp", PyStr "2026-02-08 11:42")]])])
         "inbox" 20 (Sample.client None None Sample.ticking))
  = fst (_parse_messages_json
           (PyDict [("Messages",
                     PyList [PyDict [("Id", PyInt 7);
                                     ("TimeStamp", PyStr "2026-02-08 11:42")]])])
           "inbox" 20
           (Sample.client (Some "sid") (Some "/!0411876")
              Sample.lists_two_messages)).
Proof.
  destruct (parsing_twice_differs_only_by_clock (H := Sample.platform))
    as [Hstamp Hlist].
  split.
  - destruct (Hstamp Sample.noon Sample.one_past_noon "15.3. 14:30" eq_refl)
      as [Heq|[Hnow _]]; [exact Heq|].
    vm_compute in Hnow. discriminate.
  - apply Hlist. intros d items [= <-] Hitems.
    vm_compute in Hitems. injection Hitems as <-.
    constructor; [|constructor].
    intros d s [= <-] Hs. vm_compute in Hs. injection Hs as <-.
    vm_compute. discriminate.
Defined.

(** ** The time stamp that cannot be a date *)

Section TimestampFacts.

Context `{Platform}.

Lemma try_formats_none (now : datetime) (s : string) (formats : list string) :
  (forall fmt, In fmt formats -> strptime s fmt = None) ->
  try_formats now s formats = None.
Proof.
  induction formats as [|fmt formats IH]; intros Hall; simpl; [reflexivity|].
  rewrite (Hall fmt (or_introl eq_refl)). apply IH.
  intros f Hf. apply Hall. now right.
Qed.

(** C8 at a failing input. The text [31.2.2024] matches none of the
    formats as a date, since February has no 31st day; the date pattern
    then finds day 31, month 2 and year 2024, the time pattern finds 2 and
    20 in [2.20], and building the [datetime] raises [ValueError], which
    nothing catches. *)
Theorem impossible_date_raises (now : datetime) :
  (forall fmt, In fmt finnish_formats -> strptime "31.2.2024" fmt = None) ->
  _parse_finnish_timestamp now "31.2.2024" = Raise ValueError.
Proof.
  intros Hnone. unfold _parse_finnish_timestamp.
  change (String.eqb "31.2.2024" "") with false. cbv iota.
  change (Str.strip "31.2.2024") with "31.2.2024".
  rewrite (try_formats_none _ _ _ Hnone).
  reflexivity.
Qed.

End TimestampFacts.

Lemma impossible_date_raises_witness :
  _parse_finnish_timestamp (H := Sample.platform) Sample.noon "31.2.2024"
  = Raise ValueError.
Proof.
  apply (impossible_date_raises (H := Sample.platform)).
  intros fmt Hin. simpl in Hin.
  repeat (destruct Hin as [<-|Hin]; [vm_compute; reflexivity|]).
  destruct Hin.
Defined.

(** ** The sample platform on the inputs the sources name *)

(** The formats of [_parse_finnish_timestamp] on the examples written next
    to them in the source. *)
Example strptime_on_source_examples :
  Sample.strptime "15.3.2024 14:30" "%d.%m.%Y %H:%M"
  = Some (mkdatetime 2024 3 15 14 30 0 0) /\
  Sample.strptime "15.3.2024 14.30" "%d.%m.%Y %H.%M"
  = Some (mkdatetime 2024 3 15 14 30 0 0) /\
  Sample.strptime "15.3.2024" "%d.%m.%Y"
  = Some (mkdatetime 2024 3 15 0 0 0 0) /\
  Sample.strptime "15.3. 14:30" "%d.%m. %H:%M"
  = Some (mkdatetime 1900 3 15 14 30 0 0) /\
  Sample.strptime "15.3." "%d.%m."
  = Some (mkdatetime 1900 3 15 0 0 0 0) /\
  Sample.strptime "2026-02-08 11:42" "%Y-%m-%d %H:%M"
  = Some (mkdatetime 2026 2 8 11 42 0 0) /\
  Sample.strptime "2026-02-08 11:42 " "%Y-%m-%d %H:%M" = None /\
  Sample.strptime "29.2." "%d.%m." = None.
Proof. vm_compute. repeat split. Qed.

(** A time stamp without a year takes the year of the clock; text that is
    no date takes the clock itself. *)
Example finnish_timestamp_defaults :
  _parse_finnish_timestamp (H := Sample.platform) Sample.noon "15.3. 14:30"
  = Ok (mkdatetime 2026 3 15 14 30 0 0) /\
  _parse_finnish_timestamp (H := Sample.platform) Sample.noon "15.3 klo 9"
  = Ok (mkdatetime 2026 3 15 0 0 0 0) /\
  _parse_finnish_timestamp (H := Sample.platform) Sample.noon "eilen"
  = Ok Sample.noon.
Proof. vm_compute. repeat split. Qed.

(** Decoding keeps the first place of a repeated key with its last value,
    and rejects a text that goes on after the value. *)
Example json_loads_samples :
  Sample.json_loads (Sample.dq "{'a': [1, -2, {'x': null}], 'b': true, 'a': 5}")
  = Some (PyDict [("a", PyInt 5); ("b", PyBool true)]) /\
  Sample.json_loads (Sample.dq "[1, 2] x") = None /\
  Sample.json_loads "<html>" = None.
Proof. vm_compute. repeat split. Qed.

(** The message list scenario of the specification: status 0 is unread. *)
Example message_summary_of_scenario :
  fst (_parse_messages_json
         (PyDict [("Messages",
                   PyList [PyDict [("Id", PyInt 7); ("Subject", PyStr "Hi");
                                   ("Sender", PyStr "Admin");
                                   ("TimeStamp", PyStr "2026-02-08 11:42");
                                   ("Status", PyInt 0)]])])
         "inbox" 20 (Sample.client None None Sample.ticking))
  = Ok [mkMessageSummary "7" (PyStr "Hi") (PyStr "Admin")
          (mkdatetime 2026 2 8 11 42 0 0) false (PyStr "inbox")].
Proof. vm_compute. reflexivity. Qed.

(** The login scenario of the specification. *)
Example login_of_scenario :
  _user_prefix
    (snd (login
            (Sample.client None None
               (Sample.mkScript
                  [(Sample.page "https://school.inschool.fi/index_json"
                      (Sample.dq "{'SessionID':'abc'}"), None);
                   (Sample.page "https://school.inschool.fi/!0411876/" "",
                    Some "xyz")]
                  None []))))
  = Some "/!0411876".
Proof. vm_compute. reflexivity. Qed.

(** ** The calendar *)

Lemma days_before_next_year (y : Z) :
  days_before_year (y + 1)
  = (days_before_year y + if is_leap y then 366 else 365)%Z.
Proof.
  unfold days_before_year, is_leap.
  replace (y + 1 - 1)%Z with y by lia.
  destruct (Z.eqb_spec (y mod 4) 0); destruct (Z.eqb_spec (y mod 100) 0);
    destruct (Z.eqb_spec (y mod 400) 0); cbn [andb orb negb];
    Z.div_mod_to_equations; lia.
Qed.

Lemma month_cases (m : Z) :
  (1 <= m <= 12)%Z ->
  m = 1%Z \/ m = 2%Z \/ m = 3%Z \/ m = 4%Z \/ m = 5%Z \/ m = 6%Z \/
  m = 7%Z \/ m = 8%Z \/ m = 9%Z \/ m = 10%Z \/ m = 11%Z \/ m = 12%Z.
Proof. lia. Qed.

Lemma valid_date_bounds (d : date) :
  valid_date d = true ->
  (1 <= year d <= 9999 /\ 1 <= month d <= 12 /\
   1 <= day d <= days_in_month (year d) (month d))%Z.
Proof.
  unfold valid_date. rewrite !andb_true_iff, !Z.leb_le. tauto.
Qed.

Lemma valid_date_intro (d : date) :
  (1 <= year d <= 9999)%Z -> (1 <= month d <= 12)%Z ->
  (1 <= day d <= days_in_month (year d) (month d))%Z ->
  valid_date d = true.
Proof.
  intros. unfold valid_date. rewrite !andb_true_iff, !Z.leb_le. tauto.
Qed.

Lemma days_in_month_pos (y m : Z) : (28 <= days_in_month y m <= 31)%Z.
Proof.
  unfold days_in_month.
  destruct (m =? 2)%Z; [destruct (is_leap y); lia|].
  destruct ((m =? 4) || (m =? 6) || (m =? 9) || (m =? 11))%Z; lia.
Qed.

(** The day after a date is a date, one further from the start of the
    calendar. *)
Lemma next_day_ordinal (d d' : date) :
  valid_date d = true -> next_day d = Some d' ->
  valid_date d' = true /\ toordinal d' = (toordinal d + 1)%Z.
Proof.
  intros Hv. destruct (valid_date_bounds d Hv) as (Hy & Hm & Hd).
  destruct d as [y m dd]. cbn [year month day] in *.
  unfold next_day. cbn [year month day].
  destruct (Z.ltb_spec dd (days_in_month y m)).
  { intros [= <-]. split.
    - apply valid_date_intro; cbn [year month day]; lia.
    - unfold toordinal. cbn [year month day]. lia. }
  assert (dd = days_in_month y m) by lia. subst dd.
  destruct (Z.ltb_spec m 12).
  { intros [= <-]. split.
    - apply valid_date_intro; cbn [year month day]; try lia.
      pose proof (days_in_month_pos y (m + 1)). lia.
    - unfold toordinal. cbn [year month day]. f_equal.
      unfold days_before_month, days_in_month.
      destruct (month_cases m Hm) as [E|[E|[E|[E|[E|[E|[E|[E|[E|[E|[E|E]]]]]]]]]]];
        subst m; try lia; cbn; destruct (is_leap y); cbn; lia. }
  assert (m = 12%Z) by lia. subst m.
  destruct (Z.ltb_spec y 9999); [|discriminate].
  intros [= <-]. split.
  - apply valid_date_intro; cbn [year month day]; try lia. cbn. lia.
  - unfold toordinal. cbn [year month day].
    rewrite days_before_next_year. unfold days_before_month.
    cbn. destruct (is_leap y); destruct (is_leap (y + 1)); cbn; lia.
Qed.

Lemma next_day_defined (d : date) :
  valid_date d = true -> (year d < 9999)%Z -> next_day d <> None.
Proof.
  intros Hv Hy. unfold next_day.
  destruct (day d <? _)%Z; [discriminate|].
  destruct (month d <? 12)%Z; [discriminate|].
  destruct (Z.ltb_spec (year d) 9999); [discriminate|lia].
Qed.

Lemma next_day_year (d d' : date) :
  next_day d = Some d' -> (year d <= year d' <= year d + 1)%Z.
Proof.
  unfold next_day.
  destruct (day d <? _)%Z; [intros [= <-]; cbn; lia|].
  destruct (month d <? 12)%Z; [intros [= <-]; cbn; lia|].
  destruct (year d <? 9999)%Z; [intros [= <-]; cbn; lia|discriminate].
Qed.

(** Days added one at a time: the ordinal grows by their number. *)
Lemma iterate_next_ordinal (n : nat) :
  forall d d',
    valid_date d = true -> iterate_day next_day n d = Some d' ->
    valid_date d' = true /\ toordinal d' = (toordinal d + Z.of_nat n)%Z.
Proof.
  induction n as [|n IH]; intros d d' Hv; cbn [iterate_day].
  - intros [= <-]. split; [exact Hv | lia].
  - destruct (next_day d) as [d1|] eqn:E; [|discriminate].
    destruct (next_day_ordinal _ _ Hv E) as [Hv1 Ho1].
    intros Hi. destruct (IH _ _ Hv1 Hi) as [Hv' Ho'].
    split; [exact Hv' | lia].
Qed.

Example weekday_samples :
  weekday (mkdate 2024 1 1) = 0%Z /\ weekday (mkdate 2026 11 4) = 2%Z /\
  toordinal (mkdate 1 1 1) = 1%Z /\ toordinal (mkdate 9999 12 31) = 3652059%Z /\
  date_add (mkdate 2024 2 28) 2 = Some (mkdate 2024 3 1) /\
  date_add (mkdate 2024 1 1) (-1) = Some (mkdate 2023 12 31) /\
  date_add (mkdate 9999 12 31) 1 = None.
Proof. vm_compute. repeat split. Qed.

(** ** More on the extractor *)

(** X1. Whatever the extractor returns is the text between matching
    brackets: it starts at the first opening bracket at or after the
    marker and ends where the nesting depth first returns to zero. *)
Theorem extracted_text_is_matching_bracket (html events_str : string) :
  extract_events_str html = Some events_str ->
  exists p a n,
    marker_at html p /\ first_open_from html p a /\ closes_at html a n /\
    events_str = substring a n html.
Proof.
  unfold extract_events_str.
  destruct (find_events_start html) as [p|] eqn:Ep; [|discriminate].
  destruct (Str.find_from "[" html p) as [a|] eqn:Ea; [|discriminate].
  destruct (scan_brackets (Str.skip a html) a 0) as [e|] eqn:Es;
    [|discriminate].
  intros [= <-].
  pose proof (find_events_start_marker _ _ Ep) as Hm.
  pose proof (find_from_first_open _ _ _ Ea) as Hfo.
  destruct Hfo as (Hpa & Hga & Hfirst).
  destruct (get_skip _ _ _ Hga) as [rest Hrest].
  rewrite Hrest in Es.
  change (scan_brackets (String "[" rest) a 0)
    with (scan_brackets rest (S a) 1) in Es.
  destruct (scan_brackets_sound _ _ _ _ Es) as (n0 & Hn0 & He & Hz0).
  destruct (scan_brackets_least rest (S a) 1 n0 ltac:(lia) Hn0 Hz0)
    as (n & Hn & Hlen & Hzero & Hleast & Hscan).
  rewrite Hscan in Es. injection Es as <-.
  exists p, a, (S n). split; [exact Hm|].
  split; [split; [exact Hpa | split; [exact Hga | exact Hfirst]]|].
  split.
  - unfold closes_at. split; [lia|]. split; [|split].
    + pose proof (length_skip html a) as Hl. rewrite Hrest in Hl.
      simpl in Hl. lia.
    + rewrite substring_skip, Hrest. simpl substring. rewrite depth_cons.
      exact Hzero.
    + intros k Hk Hlt. rewrite substring_skip, Hrest.
      destruct k as [|k]; [lia|]. simpl substring. rewrite depth_cons.
      change (bracket_delta "[") with 1%Z.
      destruct k as [|k]; [rewrite substring_zero; simpl; lia|].
      apply Hleast; lia.
  - unfold Str.slice. f_equal. lia.
Qed.

Lemma extracted_text_is_matching_bracket_witness :
  exists p a n,
    marker_at "x = {Events: [[1, [2]], [3]], Other: [4]}" p /\
    first_open_from "x = {Events: [[1, [2]], [3]], Other: [4]}" p a /\
    closes_at "x = {Events: [[1, [2]], [3]], Other: [4]}" a n /\
    "[[1, [2]], [3]]"
    = substring a n "x = {Events: [[1, [2]], [3]], Other: [4]}".
Proof.
  apply (extracted_text_is_matching_bracket
           "x = {Events: [[1, [2]], [3]], Other: [4]}" "[[1, [2]], [3]]").
  reflexivity.
Defined.

(** ** The path of a request *)

Lemma prefix_shaped_starts (p path : string) :
  prefix_shaped p -> Str.startswith "/!" (p ++ path) = true.
Proof.
  intros (digits & -> & _). unfold Str.startswith.
  cbn [append prefix].
  destruct (ascii_dec "/" "/") as [_|E]; [|congruence].
  destruct (ascii_dec "!" "!") as [_|E]; [|congruence].
  destruct (digits ++ path); reflexivity.
Qed.

(** X2. A path is sent under the user prefix at most once: the path the
    dispatcher makes of a path starts with the prefix or is the path
    itself, and the dispatcher leaves a path it made as it is. *)
Theorem request_path_prefixes_once (p path : string) :
  prefix_shaped p ->
  let sent_path := request_path (Some p) path in
  (sent_path = p ++ path \/ sent_path = path) /\
  (Str.startswith "/!" sent_path = true \/
   Str.startswith "/preferences" sent_path = true) /\
  request_path (Some p) sent_path = sent_path.
Proof.
  intros Hp sent_path. subst sent_path. unfold request_path.
  destruct (Str.startswith "/!" path) eqn:E1; cbn [negb andb].
  - rewrite E1. cbn [negb andb]. auto.
  - destruct (Str.startswith "/preferences" path) eqn:E2; cbn [negb andb].
    + rewrite E1, E2. cbn [negb andb]. auto.
    + cbn [prefixed]. rewrite (prefix_shaped_starts p path Hp).
      cbn [negb andb]. auto.
Qed.

Lemma request_path_prefixes_once_witness :
  let sent_path := request_path (Some "/!0411876") "/messages/compose" in
  (sent_path = "/!0411876" ++ "/messages/compose" \/
   sent_path = "/messages/compose") /\
  (Str.startswith "/!" sent_path = true \/
   Str.startswith "/preferences" sent_path = true) /\
  request_path (Some "/!0411876") sent_path = sent_path.
Proof.
  apply (request_path_prefixes_once "/!0411876" "/messages/compose").
  exists "0411876". repeat split. discriminate.
Defined.

(** ** Start times as texts *)

Lemma string_compare_app (x y s t : string) :
  length x = length y ->
  String.compare (x ++ s) (y ++ t)
  = match String.compare x y with
    | Eq => String.compare s t
    | r => r
    end.
Proof.
  revert y. induction x as [|c x IH]; intros [|d y]; cbn [length];
    try discriminate.
  - reflexivity.
  - intros [= Hl]. cbn [append String.compare].
    destruct (Ascii.compare c d); [apply IH; exact Hl | reflexivity..].
Qed.

Lemma two_digits_compare (x y : Z) :
  (0 <= x < 100)%Z -> (0 <= y < 100)%Z ->
  String.compare (format_02d x) (format_02d y) = (x ?= y)%Z.
Proof.
  intros Hx Hy.
  assert (Hall : forallb
            (fun i =>
               forallb
                 (fun j =>
                    match String.compare (format_02d (Z.of_nat i))
                            (format_02d (Z.of_nat j)),
                          (Z.of_nat i ?= Z.of_nat j)%Z with
                    | Eq, Eq | Lt, Lt | Gt, Gt => true
                    | _, _ => false
                    end)
                 (seq 0 100))
            (seq 0 100) = true) by (vm_compute; reflexivity).
  rewrite forallb_forall in Hall.
  specialize (Hall (Z.to_nat x) ltac:(apply in_seq; lia)).
  rewrite forallb_forall in Hall.
  specialize (Hall (Z.to_nat y) ltac:(apply in_seq; lia)).
  rewrite !Z2Nat.id in Hall by lia.
  destruct (String.compare (format_02d x) (format_02d y)),
           (x ?= y)%Z; try discriminate; reflexivity.
Qed.

Lemma format_02d_length (z : Z) :
  (0 <= z < 100)%Z -> length (format_02d z) = 2.
Proof.
  intros Hz. now rewrite format_02d_two_digits.
Qed.

(** X3. The start and end times are written so that their order as
    texts, by which the lessons are sorted, is the order of the minutes,
    as long as the minutes stay under a hundred hours. *)
Theorem time_texts_order_as_minutes (a b : Z) :
  (0 <= a < 6000)%Z -> (0 <= b < 6000)%Z ->
  exists ta tb,
    minutes_to_hhmm (PyInt a) = Ok ta /\
    minutes_to_hhmm (PyInt b) = Ok tb /\
    (String.leb ta tb = true <-> (a <= b)%Z).
Proof.
  intros Ha Hb. cbn [minutes_to_hhmm]. eexists. eexists.
  split; [reflexivity|]. split; [reflexivity|].
  assert (Hha : (0 <= a / 60 < 100)%Z) by (Z.div_mod_to_equations; lia).
  assert (Hhb : (0 <= b / 60 < 100)%Z) by (Z.div_mod_to_equations; lia).
  assert (Hma : (0 <= a mod 60 < 100)%Z) by (Z.div_mod_to_equations; lia).
  assert (Hmb : (0 <= b mod 60 < 100)%Z) by (Z.div_mod_to_equations; lia).
  unfold String.leb.
  rewrite string_compare_app
    by (rewrite !format_02d_length by assumption; reflexivity).
  rewrite (string_compare_app ":" ":") by reflexivity.
  cbn [String.compare]. change (Ascii.compare ":" ":") with Eq. cbv iota.
  rewrite !two_digits_compare by assumption.
  destruct (Z.compare_spec (a / 60) (b / 60)) as [E|E|E].
  - destruct (Z.compare_spec (a mod 60) (b mod 60)) as [E'|E'|E'].
    + split; [intros _ | reflexivity]. Z.div_mod_to_equations; lia.
    + split; [intros _ | reflexivity]. Z.div_mod_to_equations; lia.
    + split; [discriminate|]. intros Hle. exfalso.
      Z.div_mod_to_equations; lia.
  - split; [intros _ | reflexivity]. Z.div_mod_to_equations; lia.
  - split; [discriminate|]. intros Hle. exfalso.
    Z.div_mod_to_equations; lia.
Qed.

Lemma time_texts_order_as_minutes_witness :
  exists ta tb,
    minutes_to_hhmm (PyInt 595) = Ok ta /\
    minutes_to_hhmm (PyInt 600) = Ok tb /\
    (String.leb ta tb = true <-> (595 <= 600)%Z).
Proof.
  apply (time_texts_order_as_minutes 595 600); lia.
Defined.

(** ** The message list and its limit *)

Section ListFacts.

Context `{Platform}.

Lemma message_of_item_summary (folder : string) (item : pyval)
    (c c' : Client) (m : MessageSummary) :
  message_of_item folder item c = (Ok m, c') -> summary_of_item item m.
Proof.
  unfold message_of_item, bind, ret, raise.
  destruct item as [| | | | | |d]; try discriminate.
  destruct (dict_get d "TimeStamp" (PyStr "")) as [| | | |s| |];
    try discriminate.
  intros Hm. exists d. split; [reflexivity|].
  destruct (strptime s "%Y-%m-%d %H:%M") as [t|].
  - injection Hm as <- _. repeat split.
  - destruct (datetime_now c) as [[t|e] c1]; [|discriminate].
    injection Hm as <- _. repeat split.
Qed.

Lemma messages_of_items_summaries (folder : string) (items : list pyval) :
  forall c c' msgs,
    messages_of_items folder items c = (Ok msgs, c') ->
    Forall2 summary_of_item items msgs.
Proof.
  induction items as [|item items IH]; intros c c' msgs; cbn [messages_of_items].
  - unfold ret. intros [= <- _]. constructor.
  - unfold bind at 1.
    destruct (message_of_item folder item c) as [[m|e] c1] eqn:Em;
      [|discriminate].
    unfold bind at 1.
    destruct (messages_of_items folder items c1) as [[ms|e] c2] eqn:Ems;
      [|discriminate].
    unfold ret. intros [= <- _]. constructor.
    + exact (message_of_item_summary _ _ _ _ _ Em).
    + exact (IH _ _ _ Ems).
Qed.

(** X4. The summaries returned for a list of messages are those of the
    slice of the list up to the limit, one for each item and in the order
    of the list: at most [limit] of them for a limit that is not
    negative, and all but the last [-limit] for a negative one. *)
Theorem message_list_is_sliced_by_limit
    (d : pydict) (l : list pyval) (folder : string) (limit : Z)
    (c c' : Client) (msgs : list MessageSummary) :
  dict_get d "Messages" (PyList []) = PyList l ->
  _parse_messages_json (PyDict d) folder limit c = (Ok msgs, c') ->
  Forall2 summary_of_item (take_limit l limit) msgs /\
  ((0 <= limit)%Z ->
   List.length msgs = Nat.min (Z.to_nat limit) (List.length l)) /\
  ((limit < 0)%Z ->
   List.length msgs = List.length l - Z.to_nat (- limit)).
Proof.
  intros Hl. unfold _parse_messages_json. rewrite Hl. cbn [sliced_items].
  intros Hm. pose proof (messages_of_items_summaries _ _ _ _ _ Hm) as Hall.
  split; [exact Hall|].
  apply Forall2_length in Hall. rewrite <- Hall. unfold take_limit.
  split; intros Hlim.
  - destruct (Z.leb_spec 0 limit); [|lia]. apply length_firstn.
  - destruct (Z.leb_spec 0 limit); [lia|]. rewrite length_firstn. lia.
Qed.

End ListFacts.

(** The two messages of the sample list, asked for with limit 1. *)
Lemma message_list_is_sliced_by_limit_witness :
  exists msgs,
    fst (_parse_messages_json
           (PyDict [("Messages",
                     PyList [PyDict [("Id", PyInt 7);
                                     ("TimeStamp", PyStr "2026-02-08 11:42")];
                             PyDict [("Id", PyInt 8);
                                     ("TimeStamp", PyStr "2026-02-08 12:00")]])])
           "inbox" 1 (Sample.client None None Sample.ticking))
    = Ok msgs /\
    List.length msgs = 1.
Proof.
  set (l := [PyDict [("Id", PyInt 7); ("TimeStamp", PyStr "2026-02-08 11:42")];
             PyDict [("Id", PyInt 8); ("TimeStamp", PyStr "2026-02-08 12:00")]]).
  set (c := Sample.client None None Sample.ticking).
  set (msgs := [mkMessageSummary "7" (PyStr "") (PyStr "")
                  (mkdatetime 2026 2 8 11 42 0 0) false (PyStr "inbox")]).
  assert (E : _parse_messages_json (H := Sample.platform)
                (PyDict [("Messages", PyList l)]) "inbox" 1 c
              = (Ok msgs, c)) by reflexivity.
  exists msgs. split; [rewrite E; reflexivity|].
  destruct (message_list_is_sliced_by_limit (H := Sample.platform)
              [("Messages", PyList l)] l "inbox" 1 c c msgs eq_refl E)
    as (_ & Hlen & _).
  rewrite Hlen by lia. reflexivity.
Defined.

(** ** The form of a reply *)











(** ** The session after a login, and the requests of a call *)

Section SessionFacts.

Context `{Platform}.

Lemma login_sends (c : Client) :
  exists journal,
    sent (snd (login c)) = (sent c ++ journal)%list /\
    1 <= List.length journal <= 2.
Proof.
  destruct (login_journal c) as [Hj|[token Hj]]; rewrite Hj.
  - exists [index_request]. split; [reflexivity | cbn; lia].
  - eexists. split; [reflexivity | cbn; lia].
Qed.

(** X6. A login that returns has established the session: the object
    holds a session id that is not empty and a user prefix made of a
    slash, an exclamation mark and digits, and keeps its credentials; and
    [_ensure_authenticated] then returns at once, with no request sent and
    the object as it was. *)
Theorem login_establishes_session (c c' : Client) :
  login c = (Ok tt, c') ->
  (exists sid p,
     _session_id c' = Some sid /\ sid <> "" /\
     _user_prefix c' = Some p /\ prefix_shaped p) /\
  username c' = username c /\ password c' = password c /\
  _ensure_authenticated c' = (Ok tt, c').
Proof.
  intros Hl.
  assert (Hs : (exists sid p,
                  _session_id c' = Some sid /\ sid <> "" /\
                  _user_prefix c' = Some p /\ prefix_shaped p) /\
               username c' = username c /\ password c' = password c).
  { revert Hl.
    unfold login, bind, client_request, get_self, modify, raise.
    destruct (send (world c) index_request) as [[|r0] w1]; [discriminate|].
    destruct (raises_for_status r0); [discriminate|].
    destruct (json_loads (resp_text r0)) as [[| | | | | |d]|];
      try discriminate.
    destruct (truthy (dict_get d "SessionID" PyNone)); cbn [negb];
      [|discriminate].
    cbn [username password world requested].
    destruct (send w1 _) as [[|r] w2]; [discriminate|].
    cbn [world requested].
    destruct (cookies_get w2 "Wilma2SID") as [v|]; [|discriminate].
    destruct (String.eqb_spec v "") as [|Hv]; [discriminate|].
    destruct (re_search prefix_pattern (resp_url r)) as [g|] eqn:E1.
    - intros [= <-]. cbn.
      destruct (prefix_pattern_search _ _ E1) as (p & Hg & Hp).
      split; [|split; reflexivity].
      exists v, p. rewrite Hg. auto.
    - destruct (re_search href_prefix_pattern (resp_text r)) as [g|] eqn:E2;
        [|discriminate].
      intros [= <-]. cbn.
      destruct (href_prefix_pattern_search _ _ E2) as (p & Hg & Hp).
      split; [|split; reflexivity].
      exists v, p. rewrite Hg. auto. }
  destruct Hs as ((sid & p & Hsid & Hne & Hpfx & Hp) & Hu & Hpw).
  split; [exists sid, p; auto|]. split; [exact Hu|]. split; [exact Hpw|].
  unfold _ensure_authenticated, bind, get_self, ret.
  rewrite Hsid, Hpfx. reflexivity.
Qed.

Lemma ensure_authenticated_sends (c : Client) :
  exists journal,
    sent (snd (_ensure_authenticated c)) = (sent c ++ journal)%list /\
    List.length journal <= 2 /\
    (_session_id c <> None -> _user_prefix c <> None -> journal = []).
Proof.
  unfold _ensure_authenticated, bind, get_self, ret.
  destruct (_session_id c) as [sid|]; [destruct (_user_prefix c) as [p|]|].
  - exists []. cbn [snd]. rewrite app_nil_r. auto.
  - destruct (login_sends c) as (j & Hj & Hlen). exists j.
    split; [exact Hj|]. split; [lia|]. intros _ Hn. now contradiction Hn.
  - destruct (login_sends c) as (j & Hj & Hlen). exists j.
    split; [exact Hj|]. split; [lia|]. intros Hn. now contradiction Hn.
Qed.

(** X7. One call of the dispatcher makes at least one and at most six
    calls of the HTTP client, whatever the portal answers: a login of at
    most two, the request, and after an expired session a login again and
    the request once more.  With a session id and a prefix held it starts
    with the request itself and makes at most four.  (A call of the HTTP
    client follows the redirects it meets: the count is of calls, not of
    messages on the wire.) *)
Theorem request_sends_boundedly
    (method path : string) (data : option pydict)
    (headers : list (string * string)) (c : Client) :
  exists journal,
    sent (snd (_request method path data headers c))
    = (sent c ++ journal)%list /\
    1 <= List.length journal <= 6 /\
    (forall sid p,
       _session_id c = Some sid -> _user_prefix c = Some p ->
       List.length journal <= 4 /\
       hd_error journal
       = Some (mkRequest method (request_path (Some p) path) data headers)).
Proof.
  destruct (ensure_authenticated_sends c) as (j0 & Hj0 & Hlen0 & Hheld).
  unfold _request, bind at 1.
  destruct (_ensure_authenticated c) as [[[]|e0] c1] eqn:Ea; cbn [snd] in Hj0.
  2:{ (* the login of the first step failed *)
    exists j0. cbn [snd]. split; [exact Hj0|].
    assert (Hlog : exists j, sent c1 = (sent c ++ j)%list /\
                             1 <= List.length j <= 2).
    { revert Ea. unfold _ensure_authenticated, bind, get_self, ret.
      destruct (_session_id c); [destruct (_user_prefix c)|];
        try discriminate;
        intros Ea; destruct (login_sends c) as (j & Hj & Hl);
        rewrite Ea in Hj; exists j; auto. }
    destruct Hlog as (j & Hj & Hl).
    assert (j = j0) by (rewrite Hj in Hj0; now apply app_inv_head in Hj0).
    subst j. split; [lia|].
    intros sid p Hs Hp. revert Ea.
    unfold _ensure_authenticated, bind, get_self, ret.
    rewrite Hs, Hp. discriminate. }
  unfold bind at 1, get_self. unfold bind at 1.
  set (rq := mkRequest method (request_path (_user_prefix c1) path) data
               headers).
  (* what is held is still held after the first step *)
  assert (Hkeep : forall sid p,
             _session_id c = Some sid -> _user_prefix c = Some p ->
             c1 = c /\ j0 = []).
  { intros sid p Hs Hp. split.
    - revert Ea. unfold _ensure_authenticated, bind, get_self, ret.
      rewrite Hs, Hp. now intros [= <-].
    - apply Hheld; congruence. }
  unfold client_request at 1.
  destruct (send (world c1) rq) as [[|r1] w1] eqn:Es.
  { exists (j0 ++ [rq])%list. cbn [snd requested sent raise].
    split; [rewrite Hj0; now rewrite <- app_assoc|].
    rewrite List.length_app. cbn [List.length]. split; [lia|].
    intros sid p Hs Hp. destruct (Hkeep _ _ Hs Hp) as [-> ->].
    split; [cbn; lia|]. subst rq. rewrite Hp. reflexivity. }
  destruct (Str.contains "/login" (Str.lower (resp_url r1))).
  2:{ exists (j0 ++ [rq])%list. cbn [snd requested sent ret].
    split; [rewrite Hj0; now rewrite <- app_assoc|].
    rewrite List.length_app. cbn [List.length]. split; [lia|].
    intros sid p Hs Hp. destruct (Hkeep _ _ Hs Hp) as [-> ->].
    split; [cbn; lia|]. subst rq. rewrite Hp. reflexivity. }
  unfold bind at 1, modify. unfold bind at 1.
  set (cleared := set_session_id None (requested rq w1 c1)).
  destruct (login_sends cleared) as (j1 & Hj1 & Hlen1).
  assert (Hcl : sent cleared = (sent c ++ j0 ++ [rq])%list).
  { subst cleared. cbn [set_session_id requested sent].
    rewrite Hj0. now rewrite <- app_assoc. }
  destruct (login cleared) as [[[]|e1] c2]; cbn [snd] in Hj1.
  2:{ exists (j0 ++ [rq] ++ j1)%list. cbn [snd].
    split; [rewrite Hj1, Hcl; now rewrite <- !app_assoc|].
    rewrite !List.length_app. cbn [List.length]. split; [lia|].
    intros sid p Hs Hp. destruct (Hkeep _ _ Hs Hp) as [-> ->].
    split; [cbn [app List.length]; lia|]. subst rq. rewrite Hp. reflexivity. }
  unfold bind, client_request.
  destruct (send (world c2) rq) as [[|r2] w3];
    (exists (j0 ++ [rq] ++ j1 ++ [rq])%list; cbn [snd requested sent raise ret];
     split; [rewrite Hj1, Hcl; now rewrite <- !app_assoc|];
     rewrite !List.length_app; cbn [List.length]; split; [lia|];
     intros sid p Hs Hp; destruct (Hkeep _ _ Hs Hp) as [-> ->];
     split; [cbn [List.length]; lia|];
     subst rq; rewrite Hp; reflexivity).
Qed.

Lemma login_keeps_credentials (c : Client) :
  username (snd (login c)) = username c /\
  password (snd (login c)) = password c.
Proof.
  unfold login, bind, client_request, get_self, modify, raise.
  destruct (send (world c) index_request) as [[|r0] w1]; cbn [fst snd];
    [split; reflexivity|].
  destruct (raises_for_status r0); [split; reflexivity|].
  destruct (json_loads (resp_text r0)) as [[| | | | | |d]|];
    try (split; reflexivity).
  destruct (truthy (dict_get d "SessionID" PyNone)); cbn [negb];
    [|split; reflexivity].
  cbn [username password world requested].
  destruct (send w1 _) as [[|r] w2]; cbn [snd requested world];
    [split; reflexivity|].
  destruct (cookies_get w2 "Wilma2SID") as [v|]; cbn; [|split; reflexivity].
  destruct (String.eqb v ""); cbn; [split; reflexivity|].
  destruct (re_search prefix_pattern (resp_url r)); cbn;
    [split; reflexivity|].
  destruct (re_search href_prefix_pattern (resp_text r)); cbn;
    split; reflexivity.
Qed.

Lemma login_sends_its_own (c : Client) (method path : string)
    (data : option pydict) (headers : list (string * string)) :
  exists journal,
    sent (snd (login c)) = (sent c ++ journal)%list /\
    Forall (request_of_call c method path data headers) journal.
Proof.
  destruct (login_journal c) as [Hj|[token Hj]]; rewrite Hj.
  - exists [index_request]. split; [reflexivity|].
    constructor; [now left | constructor].
  - eexists. split; [reflexivity|].
    constructor; [now left|]. constructor; [|constructor].
    right. left. now exists token.
Qed.

Lemma request_of_call_credentials (c c' : Client) (method path : string)
    (data : option pydict) (headers : list (string * string)) (r : Request) :
  username c' = username c -> password c' = password c ->
  request_of_call c' method path data headers r ->
  request_of_call c method path data headers r.
Proof.
  unfold request_of_call. intros -> ->. exact (fun x => x).
Qed.

(** X8. The dispatcher calls the HTTP client for nothing but the request
    of the call and the requests of a login: every call it makes is the
    bootstrap request, the login request with the credentials of the
    object, or the request asked for, under the user prefix where the
    path takes one.  The credentials are an argument of the login request
    only.  (What the HTTP client sends on following a redirect is not
    part of the statement.) *)
Theorem request_sends_only_its_own
    (method path : string) (data : option pydict)
    (headers : list (string * string)) (c : Client) :
  exists journal,
    sent (snd (_request method path data headers c))
    = (sent c ++ journal)%list /\
    Forall (request_of_call c method path data headers) journal.
Proof.
  assert (Hens : exists j0,
             sent (snd (_ensure_authenticated c)) = (sent c ++ j0)%list /\
             Forall (request_of_call c method path data headers) j0 /\
             username (snd (_ensure_authenticated c)) = username c /\
             password (snd (_ensure_authenticated c)) = password c).
  { unfold _ensure_authenticated, bind, get_self, ret.
    destruct (_session_id c); [destruct (_user_prefix c)|].
    - exists []. cbn [snd]. rewrite app_nil_r. auto.
    - destruct (login_sends_its_own c method path data headers)
        as (j & Hj & Hf).
      destruct (login_keeps_credentials c). exists j. auto.
    - destruct (login_sends_its_own c method path data headers)
        as (j & Hj & Hf).
      destruct (login_keeps_credentials c). exists j. auto. }
  destruct Hens as (j0 & Hj0 & Hf0 & Hu0 & Hp0).
  unfold _request, bind at 1.
  destruct (_ensure_authenticated c) as [[[]|e0] c1]; cbn [snd] in *.
  2:{ exists j0. auto. }
  unfold bind at 1, get_self. unfold bind at 1.
  set (rq := mkRequest method (request_path (_user_prefix c1) path) data
               headers).
  assert (Hrq : request_of_call c method path data headers rq).
  { right. right. now exists (_user_prefix c1). }
  unfold client_request at 1.
  destruct (send (world c1) rq) as [[|r1] w1].
  { exists (j0 ++ [rq])%list. cbn [snd requested sent raise].
    split; [rewrite Hj0; now rewrite <- app_assoc|].
    apply Forall_app. split; [exact Hf0 | constructor; [exact Hrq|constructor]]. }
  destruct (Str.contains "/login" (Str.lower (resp_url r1))).
  2:{ exists (j0 ++ [rq])%list. cbn [snd requested sent ret].
    split; [rewrite Hj0; now rewrite <- app_assoc|].
    apply Forall_app. split; [exact Hf0 | constructor; [exact Hrq|constructor]]. }
  unfold bind at 1, modify. unfold bind at 1.
  set (cleared := set_session_id None (requested rq w1 c1)).
  destruct (login_sends_its_own cleared method path data headers)
    as (j1 & Hj1 & Hf1).
  assert (Hf1' : Forall (request_of_call c method path data headers) j1).
  { eapply Forall_impl; [|exact Hf1]. intros r.
    apply request_of_call_credentials; assumption. }
  assert (Hcl : sent cleared = (sent c ++ j0 ++ [rq])%list).
  { subst cleared. cbn [set_session_id requested sent].
    rewrite Hj0. now rewrite <- app_assoc. }
  destruct (login cleared) as [[[]|e1] c2]; cbn [snd] in Hj1.
  2:{ exists (j0 ++ [rq] ++ j1)%list. cbn [snd].
    split; [rewrite Hj1, Hcl; now rewrite <- !app_assoc|].
    apply Forall_app. split; [exact Hf0|].
    constructor; [exact Hrq | exact Hf1']. }
  unfold bind, client_request.
  destruct (send (world c2) rq) as [[|r2] w3];
    (exists (j0 ++ [rq] ++ j1 ++ [rq])%list;
     cbn [snd requested sent raise ret];
     split; [rewrite Hj1, Hcl; now rewrite <- !app_assoc|];
     apply Forall_app; split; [exact Hf0|];
     constructor; [exact Hrq|];
     apply Forall_app; split;
     [exact Hf1' | constructor; [exact Hrq|constructor]]).
Qed.

End SessionFacts.

(** The login of the sample portal. *)
Lemma login_establishes_session_witness :
  let c := Sample.client None None
             (Sample.mkScript Sample.login_replies None []) in
  let c' := mkClient (H := Sample.platform) "pupil" "secret" (Some "fresh")
              (Some "/!0411876") (Sample.mkScript [] (Some "fresh") [])
              [index_request; login_request "pupil" "secret" (PyStr "abc")] in
  (exists sid p,
     _session_id c' = Some sid /\ sid <> "" /\
     _user_prefix c' = Some p /\ prefix_shaped p) /\
  username c' = username c /\ password c' = password c /\
  _ensure_authenticated c' = (Ok tt, c').
Proof.
  intros c c'.
  apply (login_establishes_session (H := Sample.platform) c c').
  reflexivity.
Defined.

(** ** The week schedule *)

Lemma all_some_map {A : Type} (l : list (option A)) (r : list A) :
  all_some l = Some r -> l = map Some r.
Proof.
  revert r. induction l as [|x l IH]; intros r; cbn [all_some].
  - now intros [= <-].
  - destruct x as [a|]; [|discriminate].
    destruct (all_some l) as [r'|]; [|discriminate].
    intros [= <-]. cbn [map]. now rewrite (IH r' eq_refl).
Qed.

Lemma date_add_of_nat (d : date) (i : nat) :
  date_add d (Z.of_nat i) = iterate_day next_day i d.
Proof.
  unfold date_add. destruct (Z.leb_spec 0 (Z.of_nat i)); [|lia].
  now rewrite Nat2Z.id.
Qed.

Lemma week_days_nth (start_date : date) (n : nat) (days : list date) :
  week_days start_date n = Some days ->
  List.length days = n /\
  forall i d, nth_error days i = Some d ->
              iterate_day next_day i start_date = Some d.
Proof.
  unfold week_days. intros Hw. apply all_some_map in Hw.
  assert (Hlen : List.length days = n).
  { apply (f_equal (@List.length _)) in Hw.
    rewrite !length_map, length_seq in Hw. congruence. }
  split; [exact Hlen|].
  intros i d Hi.
  assert (Hlt : i < n).
  { rewrite <- Hlen. apply nth_error_Some. congruence. }
  apply (f_equal (fun l => nth_error l i)) in Hw.
  rewrite !nth_error_map, Hi, nth_error_seq in Hw.
  destruct (Nat.ltb_spec i n); [|lia].
  cbn in Hw. rewrite date_add_of_nat in Hw. congruence.
Qed.

Lemma empty_days_dates (start_date : date) (n : nat) (l : list DaySchedule) :
  empty_days start_date n = Returns l ->
  week_days start_date n = Some (map ds_date l) /\
  Forall (fun s => lessons s = []) l.
Proof.
  unfold empty_days. destruct (week_days start_date n) as [days|];
    [|discriminate].
  intros [= <-]. rewrite map_map. cbn [ds_date]. rewrite map_id.
  split; [reflexivity|]. apply Forall_forall. intros s Hs.
  apply in_map_iff in Hs. destruct Hs as (d & <- & _). reflexivity.
Qed.

Section WeekFacts.

Context `{Platform}.

(** The dates of a week that is returned. *)
Lemma week_schedule_dates (html : string) (start_date : date)
    (l : list DaySchedule) :
  _parse_week_schedule_from_html html start_date = Returns l ->
  exists n,
    week_days start_date n = Some (map ds_date l) /\
    (n = 5 \/ exists count, day_count html = Ok count /\ n = Z.to_nat count).
Proof.
  unfold _parse_week_schedule_from_html.
  destruct (day_count html) as [count|e]; [|discriminate].
  destruct (extract_events_str html) as [events_str|].
  2:{ intros He. exists (Z.to_nat count).
      split; [exact (proj1 (empty_days_dates _ _ _ He))|]. right. eauto. }
  cbv zeta.
  assert (Hh : empty_days start_date 5 = Returns l ->
               exists n,
                 week_days start_date n = Some (map ds_date l) /\
                 (n = 5 \/
                  exists count0, Ok count = Ok count0 /\ n = Z.to_nat count0)).
  { intros He. exists 5.
    split; [exact (proj1 (empty_days_dates _ _ _ He))|]. now left. }
  destruct (json_loads events_str) as [events|]; [|exact Hh].
  destruct (py_iter events) as [evs|]; [|exact Hh].
  destruct (file_events evs []) as [b|e].
  2:{ destruct (caught_by_schedule e); [exact Hh|discriminate]. }
  destruct (week_days start_date (Z.to_nat count)) as [days|] eqn:Ew;
    [|discriminate].
  intros [= <-]. exists (Z.to_nat count). split; [|right; eauto].
  rewrite Ew, map_map. cbn [ds_date]. now rewrite map_id.
Qed.

(** X9. A week schedule that is returned lists consecutive days from the
    start date: its day number [i] is a date of the calendar [i] days
    after the start date.  There are as many days as [DayCount] says
    (five when the document has no [DayCount]), or five where the parser
    fell back on its handler. *)
Theorem week_schedule_days_are_consecutive
    (html : string) (start_date : date) (l : list DaySchedule) :
  valid_date start_date = true ->
  _parse_week_schedule_from_html html start_date = Returns l ->
  (List.length l = 5 \/
   exists count, day_count html = Ok count /\ List.length l = Z.to_nat count) /\
  forall i s,
    nth_error l i = Some s ->
    valid_date (ds_date s) = true /\
    toordinal (ds_date s) = (toordinal start_date + Z.of_nat i)%Z.
Proof.
  intros Hv Hw.
  destruct (week_schedule_dates _ _ _ Hw) as (n & Hdays & Hn).
  destruct (week_days_nth _ _ _ Hdays) as [Hlen Hnth].
  rewrite length_map in Hlen. split.
  - destruct Hn as [->|(count & Hc & ->)]; [now left|right; eauto].
  - intros i s Hi. apply (iterate_next_ordinal i start_date _ Hv).
    apply Hnth. rewrite nth_error_map, Hi. reflexivity.
Qed.

(** The day parser's turn of the loop, through the lesson of a record. *)
Lemma lesson_of_event_record (target : string) (ev : pydict) :
  lesson_of_event target (PyDict ev)
  = if ne_str (dict_get ev "Date" (PyStr "")) target then Ok None
    else match lesson_of_record ev with
         | Ok lesson => Ok (Some lesson)
         | Raise e => Raise e
         end.
Proof.
  unfold lesson_of_event, lesson_of_record.
  destruct (ne_str _ target); [reflexivity|].
  destruct (minutes_to_hhmm (dict_get ev "Start" (PyInt 0))); [|reflexivity].
  destruct (minutes_to_hhmm (dict_get ev "End" (PyInt 0))); [|reflexivity].
  cbv zeta.
  destruct (if truthy _ then _ else _); reflexivity.
Qed.

Lemma bucket_get_append (b : buckets) (key key' : string) (lesson : Lesson) :
  bucket_get (bucket_append b key lesson) key'
  = (bucket_get b key' ++ if String.eqb key key' then [lesson] else [])%list.
Proof.
  induction b as [|[k l] b IH]; cbn [bucket_append bucket_get].
  - destruct (String.eqb key key'); reflexivity.
  - destruct (String.eqb_spec k key) as [->|Hne]; cbn [bucket_get].
    + destruct (String.eqb key key'); [reflexivity|].
      now rewrite app_nil_r.
    + destruct (String.eqb_spec k key') as [->|Hne'].
      * destruct (String.eqb_spec key key') as [->|_]; [congruence|].
        now rewrite app_nil_r.
      * exact IH.
Qed.

Lemma falsy_is_not_a_date (v : pyval) (target : string) :
  target <> "" -> truthy v = false -> ne_str v target = true.
Proof.
  intros Ht. destruct v as [| | | |s| |]; cbn [truthy ne_str]; try reflexivity.
  destruct (String.eqb_spec s "") as [->|]; [|discriminate].
  intros _. destruct (String.eqb_spec "" target); [congruence|reflexivity].
Qed.

(** Where the week parser files every event, the day parser collects, for
    any date text, the lessons the week parser filed under it. *)
Lemma file_events_collect (target : string) (events : list pyval) :
  target <> "" ->
  forall b b' acc,
    file_events events b = Ok b' ->
    exists found,
      bucket_get b' target = (bucket_get b target ++ found)%list /\
      collect_lessons target events acc = Ok (acc ++ found)%list.
Proof.
  intros Ht. induction events as [|event events IH]; intros b b' acc;
    cbn [file_events collect_lessons].
  - intros [= <-]. exists []. now rewrite !app_nil_r.
  - destruct (file_event event b) as [b1|e] eqn:Ef; [|discriminate].
    intros Hrest. destruct event as [| | | | | |ev]; try discriminate.
    rewrite lesson_of_event_record. unfold file_event in Ef.
    destruct (truthy (dict_get ev "Date" (PyStr ""))) eqn:Et; cbn [negb] in Ef.
    2:{ injection Ef as <-.
        rewrite (falsy_is_not_a_date _ _ Ht Et). now apply IH. }
    destruct (lesson_of_record ev) as [lesson|e]; [|discriminate].
    destruct (dict_get ev "Date" (PyStr "")) as [| | | |s| |];
      cbn [file_lesson] in Ef; try discriminate;
      try (injection Ef as <-; cbn [ne_str]; now apply IH).
    injection Ef as <-. cbn [ne_str].
    destruct (IH _ _ (acc ++ if String.eqb s target then [lesson] else [])%list
                Hrest) as (found & Hb & Hc).
    rewrite bucket_get_append in Hb.
    destruct (String.eqb s target); cbn [negb].
    + exists (lesson :: found). split.
      * rewrite Hb, <- app_assoc. reflexivity.
      * rewrite Hc, <- app_assoc. reflexivity.
    + exists found. rewrite !app_nil_r in *. auto.
Qed.

Lemma strftime_dmY_nonempty (d : date) : strftime_dmY d <> "".
Proof.
  unfold strftime_dmY. destruct (format_02d (day d)); discriminate.
Qed.

(** X10. The week parser and the day parser agree: a week schedule that is
    returned is the five empty days of the handler, or each of its days
    is exactly what the day parser returns on the same document for the
    date of that day. *)
Theorem week_schedule_agrees_with_days
    (html : string) (start_date : date) (l : list DaySchedule) :
  _parse_week_schedule_from_html html start_date = Returns l ->
  empty_days start_date 5 = Returns l \/
  Forall (fun s => _parse_schedule_from_html html (ds_date s) = Ok s) l.
Proof.
  unfold _parse_week_schedule_from_html, _parse_schedule_from_html.
  destruct (day_count html) as [count|e]; [|discriminate].
  destruct (extract_events_str html) as [events_str|].
  2:{ intros He. right.
      destruct (empty_days_dates _ _ _ He) as [_ Hall].
      eapply Forall_impl; [|exact Hall].
      intros [d ls]. cbn. now intros ->. }
  cbv zeta.
  destruct (json_loads events_str) as [events|]; [|now left].
  destruct (py_iter events) as [evs|]; [|now left].
  destruct (file_events evs []) as [b|e] eqn:Ef.
  2:{ destruct (caught_by_schedule e); [now left|discriminate]. }
  destruct (week_days start_date (Z.to_nat count)) as [days|];
    [|discriminate].
  intros [= <-]. right. apply Forall_forall. intros s Hs.
  apply in_map_iff in Hs. destruct Hs as (d & <- & _). cbn [ds_date].
  destruct (file_events_collect (strftime_dmY d) evs
              (strftime_dmY_nonempty d) [] b [] Ef) as (found & Hb & Hc).
  rewrite Hc. cbn [bucket_get app] in Hb. rewrite Hb. reflexivity.
Qed.

End WeekFacts.

(** One event whose [Start] is a text: the week parser falls back on five
    empty days, whatever [DayCount] says, and the day parser keeps the
    lesson it had built before the event. *)
Example one_bad_event_empties_the_week :
  let page := Sample.dq
    "DayCount : 2, Events : [{'Date':'28.02.2026','Start':510,'End':555,'Text':{'0':'Bio'}},{'Date':'28.02.2026','Start':'late','End':555}]" in
  _parse_week_schedule_from_html (H := Sample.platform) page (mkdate 2026 2 28)
  = Returns (map (fun d => mkDaySchedule d [])
               [mkdate 2026 2 28; mkdate 2026 3 1; mkdate 2026 3 2;
                mkdate 2026 3 3; mkdate 2026 3 4]) /\
  _parse_schedule_from_html (H := Sample.platform) page (mkdate 2026 2 28)
  = Ok (mkDaySchedule (mkdate 2026 2 28)
          [mkLesson "08:30" "09:15" (PyStr "Bio") (PyStr "") PyNone []
             (PyStr "")]).
Proof. vm_compute. split; reflexivity. Qed.

(** A page of two days from 28 February 2026. *)
Lemma week_schedule_days_are_consecutive_witness :
  (List.length week_of_page = 5 \/
   exists count,
     day_count week_page = Ok count /\
     List.length week_of_page = Z.to_nat count) /\
  forall i s,
    nth_error week_of_page i = Some s ->
    valid_date (ds_date s) = true /\
    toordinal (ds_date s) = (toordinal (mkdate 2026 2 28) + Z.of_nat i)%Z.
Proof.
  apply (week_schedule_days_are_consecutive (H := Sample.platform)
           week_page (mkdate 2026 2 28) week_of_page).
  - reflexivity.
  - vm_compute. reflexivity.
Defined.

Lemma week_schedule_agrees_with_days_witness :
  empty_days (mkdate 2026 2 28) 5 = Returns week_of_page \/
  Forall (fun s =>
            _parse_schedule_from_html (H := Sample.platform) week_page
              (ds_date s) = Ok s)
    week_of_page.
Proof.
  apply (week_schedule_agrees_with_days (H := Sample.platform)
           week_page (mkdate 2026 2 28) week_of_page).
  vm_compute. reflexivity.
Defined.

(** ** Recipients *)

(** A run of a class up to a character outside it, or to the end, taken
    whole when the continuation accepts what follows. *)
Lemma run_repeat_longest {R : Type} (p : ascii -> bool)
    (k : string -> option R) (rest : string) (x : R) (run_ : string) :
  forall lo,
    forallb p (list_ascii_of_string run_) = true ->
    match rest with
    | EmptyString => True
    | String c _ => p c = false
    end ->
    lo <= length run_ ->
    k rest = Some x ->
    run_repeat p lo None (run_ ++ rest) k = Some x.
Proof.
  induction run_ as [|d run_ IH]; intros lo Hall Hrest Hlo Hk.
  - cbn [length] in Hlo. assert (lo = 0) by lia. subst lo.
    cbn [append]. destruct rest as [|c rest]; cbn [run_repeat].
    + exact Hk.
    + rewrite Hrest. cbn [andb]. exact Hk.
  - cbn [list_ascii_of_string forallb] in Hall.
    apply andb_true_iff in Hall. destruct Hall as [Hd Hall].
    cbn [append run_repeat]. rewrite Hd. cbn [andb option_map].
    rewrite (IH (Nat.pred lo) Hall Hrest ltac:(cbn [length] in Hlo; lia) Hk).
    reflexivity.
Qed.

Lemma before_last_absent (c : ascii) (s : string) :
  occurs c s = false -> before_last c s = None.
Proof.
  induction s as [|d s IH]; cbn [occurs before_last]; [reflexivity|].
  intros Ho. apply orb_false_iff in Ho. destruct Ho as [Hd Ho].
  now rewrite (IH Ho), Hd.
Qed.

Lemma before_last_split (c : ascii) (a b : string) :
  occurs c b = false -> before_last c (a ++ String c b) = Some a.
Proof.
  intros Hb. induction a as [|d a IH]; cbn [append before_last].
  - now rewrite (before_last_absent _ _ Hb), Ascii.eqb_refl.
  - now rewrite IH.
Qed.

Lemma occurs_app (c : ascii) (a b : string) :
  occurs c (a ++ b) = occurs c a || occurs c b.
Proof.
  induction a as [|d a IH]; cbn [append occurs]; [reflexivity|].
  now rewrite IH, orb_assoc.
Qed.

Lemma not_rparen_all (s : string) :
  occurs ")" s = false ->
  forallb not_rparen (list_ascii_of_string s) = true.
Proof.
  induction s as [|d s IH]; cbn [occurs list_ascii_of_string forallb];
    [reflexivity|].
  intros Ho. apply orb_false_iff in Ho. destruct Ho as [Hd Ho].
  unfold not_rparen at 1. now rewrite Hd, (IH Ho).
Qed.

Lemma role_pattern_at_paren (role : string) :
  role <> "" -> occurs ")" role = false ->
  re_match_to_end role_pattern (String "(" (role ++ ")")) = Some [(1, role)].
Proof.
  intros Hne Hr. unfold re_match_to_end, role_pattern. cbn [run].
  rewrite Ascii.eqb_refl.
  apply run_repeat_longest.
  - now apply not_rparen_all.
  - reflexivity.
  - destruct role; [congruence | cbn [length]; lia].
  - cbn [run]. rewrite Ascii.eqb_refl. cbn [at_end String.eqb orb].
    do 3 f_equal. apply (substring_consumed role ")").
Qed.

Lemma role_pattern_search (base role : string) :
  role <> "" -> occurs "(" base = false -> occurs ")" role = false ->
  re_search_to_end role_pattern (base ++ String "(" (role ++ ")"))
  = Some [(1, role)].
Proof.
  intros Hne Hb Hr. induction base as [|c base IH];
    cbn [append re_search_to_end].
  - now rewrite role_pattern_at_paren.
  - cbn [occurs] in Hb. apply orb_false_iff in Hb. destruct Hb as [Hc Hb].
    unfold re_match_to_end at 1, role_pattern at 1. cbn [run].
    rewrite Hc. exact (IH Hb).
Qed.

(** X11. A name that ends with a role in parentheses is split into the
    role and the name before the parenthesis, without the white space
    around it; a name that is nothing but the role in parentheses is left
    empty. *)
Theorem role_in_parentheses_is_split (base role : string) :
  role <> "" ->
  occurs "(" base = false ->
  occurs "(" role = false -> occurs ")" role = false ->
  role_and_name (base ++ "(" ++ role ++ ")") = (Some role, Str.strip base).
Proof.
  intros Hne Hb Hro Hrc. unfold role_and_name.
  change (base ++ "(" ++ role ++ ")")
    with (base ++ String "(" (role ++ ")")).
  rewrite (role_pattern_search base role Hne Hb Hrc).
  cbn [group Nat.eqb]. unfold rsplit_head.
  rewrite before_last_split; [reflexivity|].
  rewrite occurs_app, Hro. reflexivity.
Qed.

Lemma role_in_parentheses_is_split_witness :
  role_and_name ("Virtanen Maija " ++ "(" ++ "opettaja" ++ ")")
  = (Some "opettaja", Str.strip "Virtanen Maija ").
Proof.
  apply (role_in_parentheses_is_split "Virtanen Maija " "opettaja");
    [discriminate | reflexivity..].
Defined.

Lemma recipients_of_options_In (options : list (string * string))
    (r : Recipient) :
  In r (recipients_of_options options) <->
  exists value text,
    In (value, text) options /\ value <> "" /\ value <> "0" /\ text <> "" /\
    r = mkRecipient value (snd (role_and_name text))
          (fst (role_and_name text)) None.
Proof.
  induction options as [|[value text] options IH];
    cbn [recipients_of_options].
  - split; [intros [] | intros (? & ? & [] & _)].
  - assert (Hone : match recipient_of_option (value, text) with
                   | Some r' =>
                       value <> "" /\ value <> "0" /\ text <> "" /\
                       r' = mkRecipient value (snd (role_and_name text))
                              (fst (role_and_name text)) None
                   | None => value = "" \/ value = "0" \/ text = ""
                   end).
    { cbn [recipient_of_option].
      destruct (String.eqb_spec value ""); cbn [negb andb]; [auto|].
      destruct (String.eqb_spec value "0"); cbn [negb andb]; [auto|].
      destruct (String.eqb_spec text ""); cbn [negb]; [auto|].
      destruct (role_and_name text); cbn [fst snd]. auto. }
    destruct (recipient_of_option (value, text)) as [r'|].
    + destruct Hone as (H1 & H2 & H3 & ->). cbn [In]. rewrite IH. split.
      * intros [<-|(v & t & Hin & Hrest)].
        -- exists value, text. auto.
        -- exists v, t. auto.
      * intros (v & t & [[= <- <-]|Hin] & Hrest).
        -- left. symmetry. apply Hrest.
        -- right. exists v, t. auto.
    + rewrite IH. split.
      * intros (v & t & Hin & Hrest). exists v, t. cbn [In]. auto.
      * intros (v & t & [[= <- <-]|Hin] & Hv & Hz & Ht & Hr).
        -- exfalso. destruct Hone as [|[|]]; contradiction.
        -- exists v, t. auto.
Qed.

Section RecipientFacts.

Context `{Platform}.

Lemma recipients_of_items_ids (items : list pyval) (r : Recipient) :
  In r (recipients_of_items items) -> rc_id r <> "" /\ rc_school r = None.
Proof.
  induction items as [|item items IH]; cbn [recipients_of_items]; [intros []|].
  destruct (recipient_of_item item) as [r'|] eqn:E; [|exact IH].
  intros [<-|Hin]; [|exact (IH Hin)].
  destruct item as [| | | | | |d]; try discriminate.
  cbn [recipient_of_item] in E.
  destruct (String.eqb_spec (py_str (dict_get d "id"
              (dict_get d "Id" (dict_get d "ID" (PyStr ""))))) "") as [|Hid];
    cbn [orb] in E; [discriminate|].
  destruct (String.eqb _ ""); [discriminate|].
  destruct (role_and_name _). injection E as <-. cbn. auto.
Qed.

(** X12. The recipients read from the compose page are exactly the
    options that have a value other than the empty text and [0] and a
    text that is not empty, with the role split off the text; and no
    recipient read from a JSON list has an empty id.  No recipient has a
    school. *)
Theorem recipients_are_the_valued_options
    (soup_find_all_option : string -> list (string * string))
    (html : string) (r : Recipient) :
  (In r (_parse_recipients_from_html soup_find_all_option html) <->
   exists value text,
     In (value, text) (soup_find_all_option html) /\
     value <> "" /\ value <> "0" /\ text <> "" /\
     r = mkRecipient value (snd (role_and_name text))
           (fst (role_and_name text)) None) /\
  (forall data rs,
     _recipients_from_json_list data = Ok rs ->
     In r rs -> rc_id r <> "" /\ rc_school r = None).
Proof.
  split.
  - apply recipients_of_options_In.
  - intros data rs. unfold _recipients_from_json_list.
    destruct (py_iter data) as [items|]; [|discriminate].
    intros [= <-]. apply recipients_of_items_ids.
Qed.

End RecipientFacts.

(** ** Dates as the user writes them *)

Lemma days_before_month_bound (d : date) :
  valid_date d = true ->
  (1 <= days_before_month (year d) (month d) + day d <= 366)%Z.
Proof.
  intros Hv. destruct (valid_date_bounds d Hv) as (Hy & Hm & Hd).
  destruct d as [y m dd]. cbn [year month day] in *.
  unfold days_before_month, days_in_month in *.
  destruct (month_cases m Hm) as [E|[E|[E|[E|[E|[E|[E|[E|[E|[E|[E|E]]]]]]]]]]];
    subst m; cbn -[Z.le Z.lt Z.add] in *; destruct (is_leap y);
    cbn -[Z.le Z.lt Z.add] in *; lia.
Qed.

Lemma toordinal_bound (d : date) :
  valid_date d = true -> (year d < 9999)%Z ->
  (1 <= toordinal d <= 3652059 - 7)%Z.
Proof.
  intros Hv Hy. pose proof (days_before_month_bound d Hv) as Hb.
  destruct (valid_date_bounds d Hv) as (Hy1 & _ & _).
  unfold toordinal, days_before_year. cbv zeta.
  Z.div_mod_to_equations. lia.
Qed.

Lemma next_day_last (d : date) :
  valid_date d = true -> next_day d = None -> toordinal d = 3652059%Z.
Proof.
  intros Hv. destruct (valid_date_bounds d Hv) as (Hy & Hm & Hd).
  destruct d as [y m dd]. cbn [year month day] in *.
  unfold next_day. cbn [year month day].
  destruct (Z.ltb_spec dd (days_in_month y m)) as [|Hdd]; [discriminate|].
  destruct (Z.ltb_spec m 12) as [|Hm12]; [discriminate|].
  destruct (Z.ltb_spec y 9999) as [|Hy9]; [discriminate|]. intros _.
  assert (y = 9999%Z) by lia. assert (m = 12%Z) by lia. subst y m.
  change (days_in_month 9999 12) with 31%Z in *.
  assert (dd = 31%Z) by lia. subst dd.
  reflexivity.
Qed.

Lemma iterate_next_defined (n : nat) :
  forall d,
    valid_date d = true -> (toordinal d + Z.of_nat n <= 3652059)%Z ->
    exists d', iterate_day next_day n d = Some d'.
Proof.
  induction n as [|n IH]; intros d Hv Hb; cbn [iterate_day]; [eauto|].
  destruct (next_day d) as [d1|] eqn:E.
  - destruct (next_day_ordinal _ _ Hv E) as [Hv1 Ho1].
    apply IH; [exact Hv1 | lia].
  - apply (next_day_last _ Hv) in E. lia.
Qed.

(** A day name of the table is none of the words for today, tomorrow and
    yesterday, and its number is a day of the week. *)
Lemma weekdays_get_some (s : string) (target : Z) :
  weekdays_get weekdays s = Some target ->
  (0 <= target <= 6)%Z /\
  String.eqb s "today" = false /\ String.eqb s tanaan = false /\
  String.eqb s "tomorrow" = false /\ String.eqb s "huomenna" = false /\
  String.eqb s "yesterday" = false /\ String.eqb s "eilen" = false.
Proof.
  unfold weekdays. cbn [weekdays_get].
  repeat match goal with
         | |- (if String.eqb ?k s then _ else _) = _ -> _ =>
             destruct (String.eqb_spec k s) as [<-|_];
             [intros [= <-]; repeat split; (lia || reflexivity)|]
         end.
  discriminate.
Qed.

Lemma next_weekday_spec (today : date) (target : Z) :
  valid_date today = true -> (year today < 9999)%Z ->
  (0 <= target <= 6)%Z ->
  exists d,
    next_weekday today target = Returns d /\
    valid_date d = true /\ weekday d = target /\
    (toordinal today < toordinal d <= toordinal today + 7)%Z.
Proof.
  intros Hv Hy Ht. unfold next_weekday.
  set (k := (if (target - weekday today <=? 0)%Z
             then (target - weekday today + 7)%Z
             else (target - weekday today)%Z)).
  assert (Hw : (0 <= weekday today < 7)%Z)
    by (unfold weekday; apply Z.mod_pos_bound; lia).
  assert (Hk : (1 <= k <= 7)%Z).
  { subst k. destruct (Z.leb_spec (target - weekday today) 0); lia. }
  pose proof (toordinal_bound today Hv Hy) as Hb.
  unfold date_add. destruct (Z.leb_spec 0 k); [|lia].
  destruct (iterate_next_defined (Z.to_nat k) today Hv ltac:(lia)) as [d Hd].
  rewrite Hd. exists d. split; [reflexivity|].
  destruct (iterate_next_ordinal _ _ _ Hv Hd) as [Hvd Hod].
  rewrite Z2Nat.id in Hod by lia.
  split; [exact Hvd|]. split; [|lia].
  unfold weekday in *. rewrite Hod. subst k.
  destruct (Z.leb_spec (target - (toordinal today + 6) mod 7) 0);
    Z.div_mod_to_equations; lia.
Qed.

Section DateFacts.

Context `{Platform}.

(** X13. The name of a day of the week, in English or in Finnish and in
    any case of letters, is read by the command line as the next day of
    that name after today: a date of the calendar one to seven days
    ahead, never today itself. *)
Theorem weekday_name_is_the_next_such_day
    (today : date) (date_str : string) (target : Z) :
  valid_date today = true -> (year today < 9999)%Z ->
  weekdays_get weekdays (Str.strip (Str.lower date_str)) = Some target ->
  exists d,
    Cli._parse_date today date_str = Returns d /\
    valid_date d = true /\ weekday d = target /\
    (toordinal today < toordinal d <= toordinal today + 7)%Z.
Proof.
  intros Hv Hy Hw.
  destruct (weekdays_get_some _ _ Hw) as (Ht & E1 & E2 & E3 & E4 & E5 & E6).
  destruct (next_weekday_spec today target Hv Hy Ht) as (d & Hd & Hrest).
  exists d. unfold Cli._parse_date. cbv zeta.
  rewrite E1, E2, E3, E4, E5, E6, Hw. cbn [orb]. auto.
Qed.

(** What the server makes of an outcome of the command line. *)
Lemma parse_date_same_branches (today : date) (date_str : string) :
  String.eqb (Str.strip (Str.lower date_str)) tanaan = false ->
  Server._parse_date today date_str
  = match Cli._parse_date today date_str with
    | Throws (SystemExit _) => Throws (Exn ValueError)
    | other => other
    end.
Proof.
  intros Hn. unfold Cli._parse_date, Server._parse_date. cbv zeta.
  rewrite Hn, orb_false_r.
  destruct (String.eqb _ "today"); [reflexivity|].
  destruct (_ || _).
  { unfold date_or_overflow. destruct (date_add today 1); reflexivity. }
  destruct (_ || _).
  { unfold date_or_overflow. destruct (date_add today (-1)); reflexivity. }
  destruct (weekdays_get weekdays _).
  { unfold next_weekday, date_or_overflow.
    destruct (date_add today _); reflexivity. }
  destruct (try_date_formats today _ date_formats); reflexivity.
Qed.

(** X14. The command line and the server read a date alike, the command
    line leaving with status 1 where the server raises [ValueError], on
    every text but the Finnish word for today: the command line returns
    today for it, and the server tries it as a date in the five
    formats. *)
Theorem parse_date_cli_and_server (today : date) (date_str : string) :
  let word := Str.strip (Str.lower date_str) in
  (word <> tanaan ->
   Server._parse_date today date_str
   = match Cli._parse_date today date_str with
     | Throws (SystemExit _) => Throws (Exn ValueError)
     | other => other
     end) /\
  (word = tanaan ->
   Cli._parse_date today date_str = Returns today /\
   Server._parse_date today date_str
   = match try_date_formats today tanaan date_formats with
     | Some d => Returns d
     | None => Throws (Exn ValueError)
     end).
Proof.
  intros word. subst word. split.
  - intros Hne. apply parse_date_same_branches.
    now apply String.eqb_neq.
  - intros Hw. unfold Cli._parse_date, Server._parse_date. cbv zeta.
    rewrite Hw. split; reflexivity.
Qed.

End DateFacts.

(** Wednesday 4 November 2026: Friday is two days ahead and Wednesday a
    week ahead. *)
Lemma weekday_name_is_the_next_such_day_witness :
  (exists d,
     Cli._parse_date (H := Sample.platform) (mkdate 2026 11 4) " Perjantai"
     = Returns d /\
     valid_date d = true /\ weekday d = 4%Z /\
     (toordinal (mkdate 2026 11 4) < toordinal d
      <= toordinal (mkdate 2026 11 4) + 7)%Z) /\
  Cli._parse_date (H := Sample.platform) (mkdate 2026 11 4) "wednesday"
  = Returns (mkdate 2026 11 11).
Proof.
  split.
  - apply (weekday_name_is_the_next_such_day (H := Sample.platform)
             (mkdate 2026 11 4) " Perjantai" 4);
      [reflexivity | cbn [year]; lia | reflexivity].
  - vm_compute. reflexivity.
Defined.

(** The Finnish word for today on the sample platform: the command line
    knows it and the server does not. *)
Example today_in_finnish :
  Cli._parse_date (H := Sample.platform) (mkdate 2026 11 4) tanaan
  = Returns (mkdate 2026 11 4) /\
  Server._parse_date (H := Sample.platform) (mkdate 2026 11 4) tanaan
  = Throws (Exn ValueError) /\
  Server._parse_date (H := Sample.platform) (mkdate 2026 11 4) "15.3."
  = Returns (mkdate 2026 3 15).
Proof. vm_compute. repeat split. Qed.

(** ** The tool that sends a message *)

Section ToolFacts.

Context `{Platform}.

Lemma send_message_returns_true
    (recipient_ids : list string) (subject body : string)
    (reply_to_id : option string) (c c' : Client) (b : bool) :
  send_message recipient_ids subject body reply_to_id c = (Ok b, c') ->
  b = true.
Proof.
  unfold send_message, bind.
  destruct (_request "GET" _ _ _ c) as [[compose|e] c1]; [|discriminate].
  destruct (_request "POST" _ _ _ c1) as [[response|e] c2]; [|discriminate].
  apply judge_sent_true.
Qed.

(** X15. The tool [send_message] of the server never answers that sending
    failed: its text for that case cannot be returned, as the client
    reports a failure by an exception only.  With a recipient, a subject
    or a body that is blank it returns an error text and leaves the
    server as it was: no client object is made and the client is not
    called. *)
Theorem send_tool_never_reports_failure
    (recipient_id subject body : string) (reply_to_id : option string)
    (st : Server.State) :
  let answer := fst (Server.send_message recipient_id subject body
                       reply_to_id st) in
  let after := snd (Server.send_message recipient_id subject body
                      reply_to_id st) in
  answer <> Ok "Failed to send message." /\
  (Str.strip recipient_id = "" \/ Str.strip subject = "" \/
   Str.strip body = "" ->
   after = st /\ exists what, answer = Ok ("Error: " ++ what)).
Proof.
  intros answer after. subst answer after. unfold Server.send_message.
  destruct (String.eqb_spec (Str.strip recipient_id) "") as [Er|Er].
  { cbn [fst snd]. split; [discriminate|].
    intros _. split; [reflexivity|]. eexists. reflexivity. }
  destruct (String.eqb_spec (Str.strip subject) "") as [Es|Es].
  { cbn [fst snd]. split; [discriminate|].
    intros _. split; [reflexivity|]. eexists. reflexivity. }
  destruct (String.eqb_spec (Str.strip body) "") as [Eb|Eb].
  { cbn [fst snd]. split; [discriminate|].
    intros _. split; [reflexivity|]. eexists. reflexivity. }
  split; [|intros [|[|]]; contradiction].
  unfold Server._get_client.
  destruct (Server._client st) as [c|].
  - destruct (send_message _ _ _ _ c) as [[b|e] c'] eqn:E; cbn [fst].
    + rewrite (send_message_returns_true _ _ _ _ _ _ _ E). discriminate.
    + destruct e; discriminate.
  - destruct (negb _); cbn [fst]; [discriminate|].
    destruct (send_message _ _ _ _ _) as [[b|e] c'] eqn:E; cbn [fst].
    + rewrite (send_message_returns_true _ _ _ _ _ _ _ E). discriminate.
    + destruct e; discriminate.
Qed.

End ToolFacts.
